(** * Cultural-heritage mashup: handlers, aggregation and their properties

    A shallow embedding of [impl.py]: the entity model, the two families of
    query handlers and the Basic/Advanced mashup, followed by the properties
    of the reconciliation layer.

    Conventions of the embedding.
    - Python strings are byte strings ([string]).  The Unicode-aware methods
      [str.upper] and [str.lower], SQLite's [LIKE] and the date parsers of
      [datetime] and pandas are not re-implemented: the code that calls them
      is written inside sections that take them as variables, and ASCII
      instances are given at the end of the definitions for the examples.
    - A Python value that can sit in a cell of a table is a [pyval].
    - A call that can raise returns a [result]. *)

From Stdlib Require Import Ascii String ZArith.
From stdpp Require Import gmap strings list.

Open Scope string_scope.
Open Scope list_scope.

(** ** Python values *)

(** What a cell of a [DataFrame], a [row.get(...)] or an attribute of an
    entity can hold: [None], the missing-value marker [nan], a string, or
    (in one place of the mashup) the builtin function [id]. *)
Inductive pyval :=
| PNone
| PNaN
| PStr (s : string)
| PBuiltinId.

#[global] Instance pyval_eq_dec : EqDecision pyval.
Proof. solve_decision. Defined.

Definition pyval_enc (v : pyval) : nat + string :=
  match v with
  | PNone => inl 0
  | PNaN => inl 1
  | PBuiltinId => inl 2
  | PStr s => inr s
  end.

Definition pyval_dec (x : nat + string) : pyval :=
  match x with
  | inl 0 => PNone
  | inl 1 => PNaN
  | inl _ => PBuiltinId
  | inr s => PStr s
  end.

#[global] Instance pyval_countable : Countable pyval.
Proof. apply (inj_countable' pyval_enc pyval_dec). by intros []. Defined.

(** [str(v)] *)
Definition py_str (v : pyval) : string :=
  match v with
  | PNone => "None"
  | PNaN => "nan"
  | PStr s => s
  | PBuiltinId => "<built-in function id>"
  end.

(** Truth value of [v] in a condition: [None] and the empty string are
    false, [nan] (a non-zero float) and everything else are true. *)
Definition truthy (v : pyval) : bool :=
  match v with
  | PNone => false
  | PStr "" => false
  | _ => true
  end.

(** [a or b] *)
Definition py_or (a b : pyval) : pyval := if truthy a then a else b.

(** [pd.notna(v)] and [pd.isna(v)] *)
Definition notna (v : pyval) : bool :=
  match v with
  | PNone | PNaN => false
  | _ => true
  end.

Definition isna (v : pyval) : bool := negb (notna v).

(** ** Strings *)

(** [c in s] for a one-character [c] *)
Fixpoint has_char (c : ascii) (s : string) : bool :=
  match s with
  | EmptyString => false
  | String a s' => if Ascii.eqb a c then true else has_char c s'
  end.

(** [s.split(c)[0]]: what precedes the first [c], all of [s] without one *)
Fixpoint before_char (c : ascii) (s : string) : string :=
  match s with
  | EmptyString => EmptyString
  | String a s' => if Ascii.eqb a c then EmptyString else String a (before_char c s')
  end.

(** [sub in s] *)
Fixpoint contains (sub s : string) : bool :=
  String.prefix sub s ||
  match s with
  | EmptyString => false
  | String _ s' => contains sub s'
  end.

(** ** Exceptions *)

Inductive exn :=
| KeyError (k : string)
| IndexError
| ValueError
| ConnectionError
| HTTPError (status : Z)
| JSONDecodeError.

Inductive result (A : Type) :=
| Ok (a : A)
| Raise (e : exn).
Arguments Ok {A} a.
Arguments Raise {A} e.

#[global] Instance result_ret : MRet result := fun _ a => Ok a.
#[global] Instance result_bind : MBind result := fun _ _ f m =>
  match m with
  | Ok a => f a
  | Raise e => Raise e
  end.
#[global] Instance result_fmap : FMap result := fun _ _ f m =>
  match m with
  | Ok a => Ok (f a)
  | Raise e => Raise e
  end.

Definition returns {A} (m : result A) : Prop := ∃ a, m = Ok a.
Definition raises {A} (m : result A) : Prop := ∃ e, m = Raise e.

(** ** Tables *)

(** A [pd.DataFrame]: its column labels and its rows.  A row maps a column
    to the value of its cell; a column of the frame that the row does not
    map is a missing cell, which pandas fills with [nan]. *)
Record DataFrame := mkDataFrame {
  columns : gset string;
  rows : list (gmap string pyval)
}.

(** [pd.DataFrame()] *)
Definition DataFrame_empty : DataFrame := mkDataFrame ∅ [].

(** [pd.DataFrame(results)] for a list of dicts of strings: the columns are
    the keys that occur, each dict is a row. *)
Definition DataFrame_of_dicts (ds : list (gmap string string)) : DataFrame :=
  mkDataFrame (⋃ ((λ d : gmap string string, dom d) <$> ds))
              ((λ d : gmap string string, PStr <$> d) <$> ds).

(** [df.empty]: some axis has length zero *)
Definition empty (df : DataFrame) : bool :=
  bool_decide (rows df = []) || bool_decide (columns df = ∅).

(** A row as [iterrows] and [iloc] hand it out: a [pd.Series] indexed by the
    frame's columns. *)
Record Series := mkSeries {
  index : gset string;
  values : gmap string pyval
}.

Definition iterrows (df : DataFrame) : list Series :=
  mkSeries (columns df) <$> rows df.

(** [df.iloc[i]] *)
Definition iloc (df : DataFrame) (i : nat) : result Series :=
  match iterrows df !! i with
  | Some r => Ok r
  | None => Raise IndexError
  end.

(** [row.get(c, d)]: the cell when [c] labels a column, [d] otherwise *)
Definition get_default (row : Series) (c : string) (d : pyval) : pyval :=
  if bool_decide (c ∈ index row) then default PNaN (values row !! c) else d.

(** [row.get(c)] *)
Definition get (row : Series) (c : string) : pyval := get_default row c PNone.

(** [row[c]] *)
Definition item (row : Series) (c : string) : result pyval :=
  if bool_decide (c ∈ index row) then Ok (default PNaN (values row !! c))
  else Raise (KeyError c).

(** [df[c]]: the column as the list of its cells *)
Definition column (df : DataFrame) (c : string) : result (list pyval) :=
  if bool_decide (c ∈ columns df) then Ok ((λ r, default PNaN (r !! c)) <$> rows df)
  else Raise (KeyError c).

(** [df[mask]] for a boolean mask computed row by row *)
Definition select (df : DataFrame) (keep : gmap string pyval → bool) : DataFrame :=
  mkDataFrame (columns df) (List.filter keep (rows df)).

(** ** Entity model *)

Module Person.
Record t := mk { id : pyval; name : pyval }.
Definition getId (p : t) : pyval := id p.
Definition getName (p : t) : pyval := name p.
End Person.

(** The class of a cultural heritage object: the base class or one of its
    ten subclasses. *)
Inductive object_class :=
| CulturalHeritageObject
| NauticalChart
| ManuscriptPlate
| ManuscriptVolume
| PrintedVolume
| PrintedMaterial
| Herbarium
| Specimen
| Painting
| Model
| Map.

#[global] Instance object_class_eq_dec : EqDecision object_class.
Proof. solve_decision. Defined.

(** The [hasAuthor] argument of the constructor:
    [Union[Person, List[Person], None]]. *)
Inductive author_arg :=
| NoAuthor
| OneAuthor (p : Person.t)
| AuthorList (l : list Person.t).

Module CHO.
Record t := mk {
  class : object_class;
  id : pyval;
  title : pyval;
  date : pyval;
  owner : string;
  place : pyval;
  author_id : pyval;
  author_name : pyval;
  hasAuthor : list Person.t
}.

(** [CulturalHeritageObject.__init__], for any of the eleven classes (the
    subclasses inherit it unchanged).  The parameter [name] of the source
    is not stored and is left out. *)
Definition init (cls : object_class) (id title date owner place : pyval)
    (hasAuthor : author_arg) (author_id author_name : pyval) : t :=
  {| class := cls;
     id := id;
     title := title;
     date := date;
     owner := py_str owner;
     place := place;
     author_id := author_id;
     author_name := author_name;
     hasAuthor := match hasAuthor with
                  | OneAuthor p => [p]
                  | AuthorList l => l
                  | NoAuthor => []
                  end |}.

Definition getId (o : t) : pyval := id o.
Definition getTitle (o : t) : pyval := title o.
Definition getOwner (o : t) : string := owner o.
Definition getPlace (o : t) : pyval := place o.
Definition getDate (o : t) : pyval := if truthy (date o) then date o else PNone.
Definition getAuthors (o : t) : list Person.t := hasAuthor o.
End CHO.

Inductive entity :=
| APerson (p : Person.t)
| AnObject (o : CHO.t).

Definition entity_id (e : entity) : pyval :=
  match e with
  | APerson p => Person.id p
  | AnObject o => CHO.id o
  end.

Inductive activity_class :=
| Activity
| Acquisition
| Processing
| Modelling
| Optimising
| Exporting.

#[global] Instance activity_class_eq_dec : EqDecision activity_class.
Proof. solve_decision. Defined.

(** What the mashup stores in [refersTo]: the result of [getEntityById]
    ([None] or an entity), or a bare identifier string. *)
Inductive referent :=
| NoReferent
| Referent (e : entity)
| ReferentId (s : string).

(** The [tool] argument of the constructor: a cell value or a list of
    strings. *)
Inductive tool_arg :=
| ToolValue (v : pyval)
| ToolList (l : list string).

Module Act.
Record t := mk {
  class : activity_class;
  refersTo : referent;
  institute : pyval;
  person : pyval;
  tool : list string;
  start : pyval;
  end_ : pyval;
  technique : option pyval
}.

(** [Activity.__init__]; [technique] stays [None] here: only
    [Acquisition] has the attribute. *)
Definition init (cls : activity_class) (refersTo : referent)
    (institute person : pyval) (tool : tool_arg) (start end_ : pyval) : t :=
  {| class := cls;
     refersTo := refersTo;
     institute := institute;
     person := person;
     tool := match tool with
             | ToolValue (PStr s) => [s]
             | ToolValue _ => []
             | ToolList l => l
             end;
     start := start;
     end_ := end_;
     technique := None |}.

(** [Acquisition.__init__] *)
Definition init_acquisition (refersTo : referent) (institute technique person
    start end_ : pyval) (tool : tool_arg) : t :=
  let a := init Acquisition refersTo institute person tool start end_ in
  {| class := class a; refersTo := Act.refersTo a; institute := Act.institute a;
     person := Act.person a; tool := Act.tool a; start := Act.start a;
     end_ := Act.end_ a; technique := Some technique |}.
End Act.

(** ** Backends *)

(** The queries a metadata handler sends to its SPARQL endpoint: one per
    query text of the source, with the value spliced into it. *)
Inductive sparql_query :=
| PersonById (input_id : string)
| ObjectById (input_id : string)
| AllPeople
| AllCulturalHeritageObjects
| AuthorsOfCulturalHeritageObject (input_id : string)
| CulturalHeritageObjectsAuthoredBy (input_id : string)
| CulturalHeritageObjectByOwner (ownerName : string)
| CulturalHeritageObjectCreatedAfter (year : Z)
| AuthorsOfCulturalHeritageObjectCreatedAfter (year : Z).

(** What comes back: no answer at all (connection refused, time-out), or an
    HTTP response with its status and, when the body is a JSON result
    document, the list [results.bindings] reduced to the [value] of each
    bound variable. *)
Inductive http_reply :=
| TransportFault
| Response (status : Z) (body : option (list (gmap string string))).

(** A row of one of the five tables of the relational store: the columns
    they share.  [None] is SQL [NULL]. *)
Record activity_row := mkRow {
  object_id : option string;
  responsible_institute : option string;
  responsible_person : option string;
  tool : option string;
  start_date : option string;
  end_date : option string
}.

(** A row of [Acquisition]: the shared columns and [technique]. *)
Record acquisition_row := mkAcquisitionRow {
  shared : activity_row;
  technique : option string
}.

Record database := mkDatabase {
  tbl_Acquisition : list acquisition_row;
  tbl_Processing : list activity_row;
  tbl_Modelling : list activity_row;
  tbl_Optimising : list activity_row;
  tbl_Exporting : list activity_row
}.

(** The relational store at a handler's path, as [sqlite3.connect] finds it:
    a database that opens and holds the five tables, as [pushDataToDb]
    leaves it, or a path at which [sqlite3.connect] raises [sqlite3.Error]
    (its directory does not exist, say).  A file that opens but lacks a
    table is not modelled: there [pd.read_sql_query] raises the
    [DatabaseError] of pandas, which the [except sqlite3.Error] of the query
    methods does not catch. *)
Inductive sqlite_state :=
| Readable (d : database)
| SqliteError.

(** A SQL value as pandas puts it in a cell *)
Definition sql_val (o : option string) : pyval :=
  match o with
  | Some s => PStr s
  | None => PNone
  end.

(** [a || b] of SQL *)
Definition sql_concat (a b : option string) : option string :=
  match a, b with
  | Some x, Some y => Some (x +:+ y)
  | _, _ => None
  end.

(** ** Query handlers *)

Module MetadataQueryHandler.

Record t := mk {
  db_path : option string;
  endpoint : sparql_query → http_reply
}.

(** [QueryHandler.getById] *)
Definition getById (self : t) (input_id : string) : result DataFrame :=
  match db_path self with
  | None => Ok DataFrame_empty
  | Some path =>
    if negb (String.prefix "http://" path || String.prefix "https://" path)
    then Ok DataFrame_empty
    else
      let is_person_id := has_char ":" input_id in
      let sparql_query := if is_person_id then PersonById input_id
                          else ObjectById input_id in
      match endpoint self sparql_query with
      | TransportFault => Raise ConnectionError
      | Response status body =>
        if negb (status =? 200)%Z then Ok DataFrame_empty
        else match body with
             | None => Raise JSONDecodeError
             | Some results => Ok (DataFrame_of_dicts results)
             end
      end
  end.

(** [MetadataQueryHandler._execute_query]: [sparql.query()] raises on a
    transport fault and on a non-success status, [convert()] on a body
    that is not JSON. *)
Definition _execute_query (self : t) (query : sparql_query) : result DataFrame :=
  match endpoint self query with
  | TransportFault => Raise ConnectionError
  | Response status body =>
    if negb ((200 <=? status) && (status <? 300))%Z then Raise (HTTPError status)
    else match body with
         | None => Raise JSONDecodeError
         | Some bindings =>
           if bool_decide (bindings = []) then Ok DataFrame_empty
           else Ok (DataFrame_of_dicts bindings)
         end
  end.

Definition getAllPeople (self : t) : result DataFrame :=
  _execute_query self AllPeople.

Definition getAllCulturalHeritageObjects (self : t) : result DataFrame :=
  _execute_query self AllCulturalHeritageObjects.

Definition getAuthorsOfCulturalHeritageObject (self : t) (input_id : string)
    : result DataFrame :=
  _execute_query self (AuthorsOfCulturalHeritageObject input_id).

Definition getCulturalHeritageObjectsAuthoredBy (self : t) (input_id : string)
    : result DataFrame :=
  _execute_query self (CulturalHeritageObjectsAuthoredBy input_id).

Definition getAllCulturalHeritageObjectByOwner (self : t) (ownerName : string)
    : result DataFrame :=
  _execute_query self (CulturalHeritageObjectByOwner ownerName).

Definition getAllCulturalHeritageObjectCreatedAfter (self : t) (year : Z)
    : result DataFrame :=
  _execute_query self (CulturalHeritageObjectCreatedAfter year).

Definition getAuthorsOfCulturalHeritageObjectCreatedAfter (self : t) (year : Z)
    : result DataFrame :=
  _execute_query self (AuthorsOfCulturalHeritageObjectCreatedAfter year).

End MetadataQueryHandler.

Module ProcessDataQueryHandler.

Record t := mk {
  db_path : string;
  db : sqlite_state
}.

(** The columns of the five-table union *)
Definition union_columns : gset string :=
  list_to_set ["object_id"; "responsible_institute"; "responsible_person";
               "technique"; "tool"; "start_date"; "end_date"; "type"].

(** One [SELECT ..., <technique> as technique, ..., '<type>' as type] row *)
Definition union_row (type : string) (technique : option string)
    (r : activity_row) : gmap string pyval :=
  list_to_map [("object_id", sql_val (object_id r));
               ("responsible_institute", sql_val (responsible_institute r));
               ("responsible_person", sql_val (responsible_person r));
               ("technique", sql_val technique);
               ("tool", sql_val (tool r));
               ("start_date", sql_val (start_date r));
               ("end_date", sql_val (end_date r));
               ("type", PStr type)].

(** The [UNION ALL] of the five [SELECT]s, each with the same [WHERE]
    clause and each row shaped by [select] from the table's type tag, its
    technique ([NULL] outside [Acquisition]) and its shared columns. *)
Definition union_all (d : database) (where_ : activity_row → bool)
    (select : string → option string → activity_row → gmap string pyval)
    : list (gmap string pyval) :=
  ((λ a, select "Acquisition" (technique a) (shared a))
     <$> List.filter (λ a, where_ (shared a)) (tbl_Acquisition d))
  ++ (select "Processing" None <$> List.filter where_ (tbl_Processing d))
  ++ (select "Modelling" None <$> List.filter where_ (tbl_Modelling d))
  ++ (select "Optimising" None <$> List.filter where_ (tbl_Optimising d))
  ++ (select "Exporting" None <$> List.filter where_ (tbl_Exporting d)).

Definition getAllActivities (self : t) : DataFrame :=
  match db self with
  | SqliteError => DataFrame_empty
  | Readable d => mkDataFrame union_columns (union_all d (λ _, true) union_row)
  end.

(** [column >= ?], [column <= ?] and [column <> ''] on a text column:
    byte-wise comparison, never true of [NULL] *)
Definition sql_ge (column : option string) (param : string) : bool :=
  match column with
  | Some s => String.leb param s
  | None => false
  end.

Definition sql_le (column : option string) (param : string) : bool :=
  match column with
  | Some s => String.leb s param
  | None => false
  end.

Definition sql_nonempty (column : option string) : bool :=
  match column with
  | Some s => negb (String.eqb s "")
  | None => false
  end.

(** The row of the two date filters: the union row with the extra column
    [id = object_id || '|<type>|' || <date>]. *)
Definition dated_row (date : activity_row → option string) (type : string)
    (technique : option string) (r : activity_row) : gmap string pyval :=
  <["id" := sql_val (sql_concat (sql_concat (object_id r)
                                   (Some ("|" +:+ type +:+ "|"))) (date r))]>
    (union_row type technique r).

Definition getActivitiesStartedAfter (self : t) (start_date_ : string) : DataFrame :=
  match db self with
  | SqliteError => DataFrame_empty
  | Readable d =>
    mkDataFrame ({["id"]} ∪ union_columns)
      (union_all d
         (λ r, sql_ge (start_date r) start_date_ && sql_nonempty (start_date r))
         (dated_row start_date))
  end.

Definition getActivitiesEndedBefore (self : t) (end_date_ : string) : DataFrame :=
  match db self with
  | SqliteError => DataFrame_empty
  | Readable d =>
    mkDataFrame ({["id"]} ∪ union_columns)
      (union_all d
         (λ r, sql_le (end_date r) end_date_ && sql_nonempty (end_date r))
         (dated_row end_date))
  end.

Section Like.
(** [text LIKE pattern] of SQLite on two text values *)
Context (like : string → string → bool).

Definition sql_like (column : option string) (pattern : string) : bool :=
  match column with
  | Some s => like s pattern
  | None => false
  end.

Definition getActivitiesByResponsibleInstitution (self : t)
    (institution_str : string) : DataFrame :=
  match db self with
  | SqliteError => DataFrame_empty
  | Readable d =>
    let like_param := "%" +:+ institution_str +:+ "%" in
    mkDataFrame union_columns
      (union_all d (λ r, sql_like (responsible_institute r) like_param) union_row)
  end.

Definition getActivitiesByResponsiblePerson (self : t)
    (responsible_person_str : string) : DataFrame :=
  match db self with
  | SqliteError => DataFrame_empty
  | Readable d =>
    let like_param := "%" +:+ responsible_person_str +:+ "%" in
    mkDataFrame union_columns
      (union_all d (λ r, sql_like (responsible_person r) like_param) union_row)
  end.

(** [SELECT * FROM acquisition WHERE technique LIKE ?], then
    [df["type"] = "Acquisition"] *)
Definition getAcquisitionsByTechnique (self : t) (technique_str : string)
    : DataFrame :=
  if String.eqb (db_path self) "" then DataFrame_empty
  else match db self with
       | SqliteError => DataFrame_empty
       | Readable d =>
         mkDataFrame union_columns
           ((λ a, union_row "Acquisition" (technique a) (shared a))
              <$> List.filter (λ a, sql_like (technique a) ("%" +:+ technique_str +:+ "%"))
                    (tbl_Acquisition d))
       end.

(** The table of [getActivitiesUsingTool]: the columns of the union, with
    the type tag under [activity_type]. *)
Definition using_tool_columns : gset string :=
  list_to_set ["object_id"; "responsible_institute"; "responsible_person";
               "technique"; "tool"; "start_date"; "end_date"; "activity_type"].

Definition using_tool_row (type : string) (technique : option string)
    (r : activity_row) : gmap string pyval :=
  list_to_map [("object_id", sql_val (object_id r));
               ("responsible_institute", sql_val (responsible_institute r));
               ("responsible_person", sql_val (responsible_person r));
               ("technique", sql_val technique);
               ("tool", sql_val (tool r));
               ("start_date", sql_val (start_date r));
               ("end_date", sql_val (end_date r));
               ("activity_type", PStr type)].

Definition getActivitiesUsingTool (self : t) (tool_str : string) : DataFrame :=
  match db self with
  | SqliteError => DataFrame_empty
  | Readable d =>
    let like_param := "%" +:+ tool_str +:+ "%" in
    mkDataFrame using_tool_columns
      (union_all d (λ r, sql_like (tool r) like_param) using_tool_row)
  end.
End Like.

End ProcessDataQueryHandler.

(** ** Upload of the process data *)

Module ProcessDataUploadHandler.

(** What [json.load] hands over for a file of the documented shape: a list
    of items, each with an ["object id"] and one entry per activity.  An
    entry holds its values under ["responsible institute"],
    ["responsible person"], ["tool"] (a list of strings), ["start date"]
    and ["end date"]; the acquisition has a ["technique"] besides.  A text
    value is a string or [null] ([None]). *)
Record activity_entry := mkEntry {
  responsible_institute : option string;
  responsible_person : option string;
  tool : list string;
  start_date : option string;
  end_date : option string
}.

Record acquisition_entry := mkAcquisitionEntry {
  entry : activity_entry;
  technique : option string
}.

Record item := mkItem {
  object_id : option string;
  acquisition : acquisition_entry;
  processing : activity_entry;
  modelling : activity_entry;
  optimising : activity_entry;
  exporting : activity_entry
}.

(** [d[k] = v] on a dict, which keeps its keys in the order of their first
    insertion: a key already there keeps its place and takes the new
    value. *)
Fixpoint dict_set {V} (k : option string) (v : V) (d : list (option string * V))
    : list (option string * V) :=
  match d with
  | [] => [(k, v)]
  | (k', v') :: d' =>
    if bool_decide (k' = k) then (k, v) :: d' else (k', v') :: dict_set k v d'
  end.

(** [unique_data] after the first loop *)
Definition unique_data (data : list item) : list (option string * item) :=
  foldl (λ unique_data item, dict_set (object_id item) item unique_data) [] data.

(** [list(unique_data.values())] *)
Definition clean_data (data : list item) : list item := snd <$> unique_data data.

(** [", ".join(tool) if tool else None] *)
Definition tool_cell (tool : list string) : option string :=
  if bool_decide (tool = []) then None else Some (String.concat ", " tool).

(** The values bound to one [INSERT] of the shared columns *)
Definition row_of (object_id : option string) (e : activity_entry) : activity_row :=
  mkRow object_id (responsible_institute e) (responsible_person e) (tool_cell (tool e))
    (start_date e) (end_date e).

(** The five [INSERT]s of one item *)
Definition insert_item (d : database) (item : item) : database :=
  let object_id := object_id item in
  let acquisition := acquisition item in
  mkDatabase
    (tbl_Acquisition d
       ++ [mkAcquisitionRow (row_of object_id (entry acquisition)) (technique acquisition)])
    (tbl_Processing d ++ [row_of object_id (processing item)])
    (tbl_Modelling d ++ [row_of object_id (modelling item)])
    (tbl_Optimising d ++ [row_of object_id (optimising item)])
    (tbl_Exporting d ++ [row_of object_id (exporting item)]).

(** [pushDataToDb], on the items [data] read from the file and the store
    at the handler's path: the five tables are dropped and created anew,
    then filled item by item; the new store and [True], or [False] when the
    store raises [sqlite3.Error]. *)
Definition pushDataToDb (store : sqlite_state) (data : list item) : sqlite_state * bool :=
  let clean_data := clean_data data in
  match store with
  | SqliteError => (SqliteError, false)
  | Readable _ => (Readable (foldl insert_item (mkDatabase [] [] [] [] []) clean_data), true)
  end.

End ProcessDataUploadHandler.

(** ** Loops *)

(** [for x in l: s = body(s, x)], where the body can raise *)
Fixpoint for_each {A S : Type} (body : S → A → result S) (l : list A) (s : S)
    : result S :=
  match l with
  | [] => Ok s
  | x :: l' => s' ← body s x; for_each body l' s'
  end.

(** ** The mashup *)

(** The ten type tags and the five activity tags, as the dicts the mashup
    methods build. *)
Definition class_map : gmap string object_class :=
  list_to_map [("NauticalChart", NauticalChart);
               ("ManuscriptPlate", ManuscriptPlate);
               ("ManuscriptVolume", ManuscriptVolume);
               ("PrintedVolume", PrintedVolume);
               ("PrintedMaterial", PrintedMaterial);
               ("Herbarium", Herbarium);
               ("Specimen", Specimen);
               ("Painting", Painting);
               ("Model", Model);
               ("Map", Map)].

Definition activity_classes : gmap string activity_class :=
  list_to_map [("Acquisition", Acquisition);
               ("Processing", Processing);
               ("Modelling", Modelling);
               ("Optimising", Optimising);
               ("Exporting", Exporting)].

(** [d.get(key)] for a key that is a cell value: only a string can be a key
    of the two dicts. *)
Definition dict_get {V} (d : gmap string V) (key : pyval) : option V :=
  match key with
  | PStr s => d !! s
  | _ => None
  end.

Definition as_referent (e : option entity) : referent :=
  match e with
  | Some e => Referent e
  | None => NoReferent
  end.

(** The block every activity method repeats: pick the class from the row's
    [type], read [technique] for an [Acquisition], construct. *)
Definition build_activity (refersTo : referent) (row : Series) (tool : tool_arg)
    (technique : pyval) : Act.t :=
  let activity_type := get row "type" in
  let ObjClass := default Activity (dict_get activity_classes activity_type) in
  if bool_decide (ObjClass = Acquisition)
  then Act.init_acquisition refersTo (get row "responsible_institute") technique
         (get row "responsible_person") (get row "start_date") (get row "end_date") tool
  else Act.init ObjClass refersTo (get row "responsible_institute")
         (get row "responsible_person") tool (get row "start_date") (get row "end_date").

Module BasicMashup.

Record t := mk {
  metadataQuery : list MetadataQueryHandler.t;
  processQuery : list ProcessDataQueryHandler.t
}.

Definition cleanMetadataHandlers (self : t) : t * bool :=
  (mk [] (processQuery self), true).

Definition cleanProcessHandlers (self : t) : t * bool :=
  (mk (metadataQuery self) [], true).

Definition addMetadataHandler (self : t) (handler : MetadataQueryHandler.t) : t * bool :=
  (mk (metadataQuery self ++ [handler]) (processQuery self), true).

Definition addProcessHandler (self : t) (handler : ProcessDataQueryHandler.t) : t * bool :=
  (mk (metadataQuery self) (processQuery self ++ [handler]), true).

(** The [for ... break ... else] of [getEntityById]: the table of the
    first handler whose answer is not empty, [None] when the loop runs to
    its end. *)
Fixpoint first_nonempty (handlers : list MetadataQueryHandler.t) (id_string : string)
    : result (option DataFrame) :=
  match handlers with
  | [] => Ok None
  | handler :: handlers' =>
    df ← MetadataQueryHandler.getById handler id_string;
    if negb (empty df) then Ok (Some df) else first_nonempty handlers' id_string
  end.

(** [getAllPeople]: one row *)
Definition people_row (st : list Person.t * gset pyval) (row : Series)
    : result (list Person.t * gset pyval) :=
  person_id ← item row "authorId";
  if bool_decide (person_id ∉ st.2) then
    name ← item row "authorName";
    Ok (st.1 ++ [Person.mk person_id name], {[person_id]} ∪ st.2)
  else Ok st.

Definition getAllPeople (self : t) : result (list Person.t) :=
  st ← for_each (λ st handler,
          people_df ← MetadataQueryHandler.getAllPeople handler;
          if negb (empty people_df) then for_each people_row (iterrows people_df) st
          else Ok st)
       (metadataQuery self) ([], ∅);
  Ok st.1.

(** [getAllCulturalHeritageObjects]: one row *)
Definition objects_row (st : list CHO.t * gset string) (row : Series)
    : list CHO.t * gset string :=
  let obj_identifier := py_str (get row "id") in
  if negb (truthy (PStr obj_identifier)) || bool_decide (obj_identifier ∈ st.2)
  then st
  else
    let title := get_default row "title" (PStr "") in
    let date := get row "date" in
    let owner := if notna (get row "owner") then PStr (py_str (get row "owner"))
                 else PNone in
    let place := get row "place" in
    let author_id := if notna (get row "author_id")
                     then PStr (py_str (get row "author_id")) else PNone in
    let author_name := if notna (get row "author_name") then get row "author_name"
                       else PNone in
    let hasAuthor := if truthy author_id && truthy author_name
                     then AuthorList [Person.mk author_id author_name]
                     else NoAuthor in
    let type_name := get row "type_name" in
    if truthy type_name then
      match dict_get class_map type_name with
      | Some obj_class =>
        (st.1 ++ [CHO.init obj_class (PStr obj_identifier) title date owner place
                    hasAuthor PNone PNone],
         {[obj_identifier]} ∪ st.2)
      | None => st
      end
    else st.

Definition getAllCulturalHeritageObjects (self : t) : result (list CHO.t) :=
  st ← for_each (λ st handler,
          df ← MetadataQueryHandler.getAllCulturalHeritageObjects handler;
          if negb (empty df) then Ok (foldl objects_row st (iterrows df))
          else Ok st)
       (metadataQuery self) ([], ∅);
  Ok st.1.

Definition getAuthorsOfCulturalHeritageObject (self : t) (object_id : string)
    : result (list Person.t) :=
  for_each (λ authors_list metadata_qh,
      authors_df ← MetadataQueryHandler.getAuthorsOfCulturalHeritageObject
                     metadata_qh object_id;
      for_each (λ acc row,
          author_id ← item row "authorId";
          author_name ← item row "authorName";
          Ok (acc ++ [Person.mk author_id author_name]))
        (iterrows authors_df) authors_list)
    (metadataQuery self) [].

(** [getCulturalHeritageObjectsAuthoredBy]: one row.  The constructor is
    called with six positional arguments, the first of which is the name
    [id], which the method never assigns: it is the builtin.  The sixth,
    [hasAuthor], lands in the parameter [name]. *)
Definition authored_row (df : DataFrame) (objects_list : list CHO.t) (row : Series)
    : result (list CHO.t) :=
  title ← item row "title";
  date ← item row "date";
  owner ← item row "owner";
  place ← item row "place";
  author_id ← (if bool_decide ("authorId" ∈ columns df)
               then v ← item row "authorId"; Ok (PStr (py_str v))
               else Ok PNone);
  author_name ← (if bool_decide ("authorName" ∈ columns df)
                 then item row "authorName" else Ok PNone);
  type_name ← item row "type_name";
  match dict_get class_map type_name with
  | Some cls =>
    Ok (objects_list ++ [CHO.init cls PBuiltinId title (PStr (py_str date))
                           (PStr (py_str owner)) place NoAuthor PNone PNone])
  | None => Ok objects_list
  end.

Definition getCulturalHeritageObjectsAuthoredBy (self : t) (input_id : string)
    : result (list CHO.t) :=
  df ← match metadataQuery self with
       | first :: _ =>
         MetadataQueryHandler.getCulturalHeritageObjectsAuthoredBy first input_id
       | [] => Ok DataFrame_empty
       end;
  if negb (empty df) then for_each (authored_row df) (iterrows df) []
  else Ok [].

Section Mashup.
(** [str.upper], [str.lower] and SQLite's [LIKE] *)
Context (upper lower : string → string) (like : string → string → bool).

Definition getEntityById (self : t) (id_string : string) : result (option entity) :=
  found ← first_nonempty (metadataQuery self) id_string;
  match found with
  | None => Ok None
  | Some df =>
    row ← iloc df 0;
    let prefix := if has_char ":" id_string
                  then Some (upper (before_char ":" id_string)) else None in
    if bool_decide (prefix ∈ [Some "VIAF"; Some "ULAN"]) then
      let author_name := py_or (py_or (get row "authorName") (get row "label"))
                               (PStr "Unknown") in
      Ok (Some (APerson (Person.mk (PStr id_string) author_name)))
    else
      let cultural_object_uri := py_or (get row "CulturalObject") (PStr id_string) in
      Ok (Some (AnObject (CHO.init CulturalHeritageObject cultural_object_uri
                            (py_or (get row "label") (PStr "Unknown"))
                            (get row "date") (get row "owner") (get row "place")
                            NoAuthor (get row "authorId") (get row "authorName"))))
  end.

(** The row block of [getAllActivities] and of the filters by
    institution, person, start and end date. *)
Definition activity_row_block (self : t) (all_activities : list Act.t) (row : Series)
    : result (list Act.t) :=
  let object_id := py_str (get row "object_id") in
  cultural_heritage_object ← getEntityById self object_id;
  Ok (all_activities
        ++ [build_activity (as_referent cultural_heritage_object) row
              (ToolValue (get row "tool")) (get row "technique")]).

(** The handler loop those five methods share, over the table each
    handler answers with. *)
Definition fan_out (self : t) (query : ProcessDataQueryHandler.t → DataFrame)
    : result (list Act.t) :=
  for_each (λ all_activities handler,
      let df := query handler in
      if empty df then Ok all_activities
      else for_each (activity_row_block self) (iterrows df) all_activities)
    (processQuery self) [].

Definition getAllActivities (self : t) : result (list Act.t) :=
  if bool_decide (processQuery self = []) then Ok []
  else fan_out self ProcessDataQueryHandler.getAllActivities.

Definition getActivitiesByResponsibleInstitution (self : t) (institute_name : string)
    : result (list Act.t) :=
  fan_out self (λ handler,
    ProcessDataQueryHandler.getActivitiesByResponsibleInstitution like handler
      institute_name).

Definition getActivitiesByResponsiblePerson (self : t) (person_name : string)
    : result (list Act.t) :=
  fan_out self (λ handler,
    ProcessDataQueryHandler.getActivitiesByResponsiblePerson like handler person_name).

Definition getActivitiesStartedAfter (self : t) (date : string) : result (list Act.t) :=
  fan_out self (λ handler,
    ProcessDataQueryHandler.getActivitiesStartedAfter handler date).

Definition getActivitiesEndedBefore (self : t) (date : string) : result (list Act.t) :=
  fan_out self (λ handler,
    ProcessDataQueryHandler.getActivitiesEndedBefore handler date).

(** [getActivitiesUsingTool]: the [tools] of a row and the test [matches] *)
Definition row_tools (row : Series) : list string :=
  let tool_field := get_default row "tool" PNone in
  match tool_field with
  | PStr s => [s]
  | _ => []
  end.

Definition tool_matches (tool_name : string) (row : Series) : bool :=
  existsb (λ t, contains (lower tool_name) (lower t)) (row_tools row).

(** [getActivitiesUsingTool]: one row of the first handler's table *)
Definition tool_row (self : t) (tool_name : string) (all_activities : list Act.t)
    (row : Series) : result (list Act.t) :=
  let tools := row_tools row in
  let matches := tool_matches tool_name row in
  if negb matches then Ok all_activities
  else
    let object_id := py_str (get row "object_id") in
    cultural_heritage_object ← getEntityById self object_id;
    Ok (all_activities
          ++ [build_activity (as_referent cultural_heritage_object) row
                (ToolList tools) (get_default row "technique" PNone)]).

Definition getActivitiesUsingTool (self : t) (tool_name : string)
    : result (list Act.t) :=
  match processQuery self with
  | [] => Ok []
  | first :: _ =>
    let activities_df := ProcessDataQueryHandler.getAllActivities first in
    for_each (tool_row self tool_name) (iterrows activities_df) []
  end.

(** [getAcquisitionsByTechnique]: one row *)
Definition technique_row (self : t) (st : list Act.t * gset pyval) (row : Series)
    : result (list Act.t * gset pyval) :=
  let activity_id := get row "object_id" in
  if truthy activity_id && bool_decide (activity_id ∉ st.2) then
    found ← getEntityById self (py_str (get row "object_id"));
    let cultural_heritage_object :=
      match found with
      | Some (AnObject o) => o
      | _ => CHO.init CulturalHeritageObject activity_id (PStr "") PNone PNone PNone
               NoAuthor PNone PNone
      end in
    let activity :=
      build_activity (Referent (AnObject cultural_heritage_object)) row
        (ToolValue (get row "tool")) (get_default row "technique" (PStr "Unknown")) in
    if bool_decide (Act.class activity = Acquisition)
    then Ok (st.1 ++ [activity], {[activity_id]} ∪ st.2)
    else Ok st
  else Ok st.

(** The handler loop of [getAcquisitionsByTechnique], from the state
    ([all_acquisitions], [processed_ids]) it is entered with *)
Definition technique_loop (self : t) (technique : string)
    (handlers : list ProcessDataQueryHandler.t) (st : list Act.t * gset pyval)
    : result (list Act.t * gset pyval) :=
  for_each (λ st handler,
      let acquisitions_df :=
        ProcessDataQueryHandler.getAcquisitionsByTechnique like handler technique in
      if negb (empty acquisitions_df)
      then for_each (technique_row self) (iterrows acquisitions_df) st
      else Ok st)
    handlers st.

Definition getAcquisitionsByTechnique (self : t) (technique : string)
    : result (list Act.t) :=
  st ← technique_loop self technique (processQuery self) ([], ∅);
  Ok st.1.
End Mashup.

End BasicMashup.

Module AdvancedMashup.

Import BasicMashup.

(** [series.astype(str)] as a set: the identifiers of a column *)
Definition id_set (cells : list pyval) : gset string :=
  list_to_set (py_str <$> cells).

(** The cell of a raw row under a column of its frame *)
Definition cell (r : gmap string pyval) (c : string) : pyval :=
  default PNaN (r !! c).

(** [df[df[c].astype(str).isin(ids)]] *)
Definition select_ids (df : DataFrame) (c : string) (ids : gset string) : DataFrame :=
  select df (λ r, bool_decide (py_str (cell r c) ∈ ids)).

(** [getActivitiesOnObjectsAuthoredBy]: one selected row *)
Definition on_objects_row (all_activities : list Act.t) (row : Series) : list Act.t :=
  let object_id_str := py_str (get row "object_id") in
  all_activities
    ++ [build_activity (ReferentId object_id_str) row (ToolValue (get row "tool"))
          (get row "technique")].

Definition getActivitiesOnObjectsAuthoredBy (self : t) (author_id : string)
    : result (list Act.t) :=
  match metadataQuery self with
  | [] => Raise IndexError
  | first :: _ =>
    objects_df ← MetadataQueryHandler.getCulturalHeritageObjectsAuthoredBy first author_id;
    if empty objects_df || negb (bool_decide ("id" ∈ columns objects_df)) then Ok []
    else
      ids ← column objects_df "id";
      let normalized_object_ids := id_set ids in
      Ok (foldl (λ all_activities handler,
             let all_activities_df := ProcessDataQueryHandler.getAllActivities handler in
             if empty all_activities_df
                || negb (bool_decide ("object_id" ∈ columns all_activities_df))
             then all_activities
             else
               let selected_activities_df :=
                 select_ids all_activities_df "object_id" normalized_object_ids in
               foldl on_objects_row all_activities (iterrows selected_activities_df))
           [] (processQuery self))
  end.

(** The row block of the three methods that rebuild objects with
    [object_classes.get(object_type, CulturalHeritageObject)]. *)
Definition object_of_row (row : Series) : CHO.t :=
  let object_type := get row "type_name" in
  let ObjClass := default CulturalHeritageObject (dict_get class_map object_type) in
  CHO.init ObjClass (get row "id") (get row "title") (get row "date") (get row "owner")
    (get row "place") NoAuthor (get row "author_id") (get row "author_name").

(** The identifiers collected over the process handlers, from the table
    each of them answers with. *)
Definition collect_object_ids (self : t) (query : ProcessDataQueryHandler.t → DataFrame)
    : gset string :=
  foldl (λ all_object_ids handler,
      let activities_df := query handler in
      if negb (empty activities_df) && bool_decide ("object_id" ∈ columns activities_df)
      then all_object_ids ∪ id_set ((λ r, cell r "object_id") <$> rows activities_df)
      else all_object_ids)
    ∅ (processQuery self).

Section Like.
Context (like : string → string → bool).

Definition getObjectsHandledByResponsiblePerson (self : t) (responsible_person : string)
    : result (list CHO.t) :=
  let all_object_ids :=
    collect_object_ids self (λ handler,
      ProcessDataQueryHandler.getActivitiesByResponsiblePerson like handler
        responsible_person) in
  match metadataQuery self with
  | [] => Raise IndexError
  | first :: _ =>
    objects_df ← MetadataQueryHandler.getAllCulturalHeritageObjects first;
    if empty objects_df then Ok []
    else
      _ ← column objects_df "id";
      let selected_objects_df := select_ids objects_df "id" all_object_ids in
      Ok (object_of_row <$> iterrows selected_objects_df)
  end.

Definition getObjectsHandledByResponsibleInstitution (self : t) (institute_name : string)
    : result (list CHO.t) :=
  let all_object_ids :=
    collect_object_ids self (λ handler,
      ProcessDataQueryHandler.getActivitiesByResponsibleInstitution like handler
        institute_name) in
  match metadataQuery self with
  | [] => Raise IndexError
  | first :: _ =>
    objects_df ← MetadataQueryHandler.getAllCulturalHeritageObjects first;
    _ ← column objects_df "id";
    let selected_objects_df := select_ids objects_df "id" all_object_ids in
    Ok (object_of_row <$> iterrows selected_objects_df)
  end.
End Like.

Section TimeFrame.
(** [datetime.fromisoformat], which raises on a string it cannot read,
    and [pd.to_datetime(column, errors='coerce')], which turns a column
    into time stamps and what it cannot read into [NaT] ([None]).  A time
    stamp is a number of microseconds: the bounds and the stored dates are
    read without a time zone, and between such time stamps the comparison
    of pandas is total.  A bound with a time zone, which pandas refuses to
    compare with a column without one by raising [TypeError], is not
    modelled. *)
Context (fromisoformat : string → result Z)
        (to_datetime : list pyval → list (option Z)).

(** [df[(df["type"] == "Acquisition") & (dts <cmp> bound)]["object_id"]],
    as the set of its strings *)
Definition acquisition_ids (df : DataFrame) (dts : list (option Z))
    (holds : Z → bool) : gset string :=
  id_set ((λ rd, cell rd.1 "object_id")
            <$> List.filter (λ rd : gmap string pyval * option Z,
                  bool_decide (cell rd.1 "type" = PStr "Acquisition")
                  && match rd.2 with
                     | Some dt => holds dt
                     | None => false
                     end)
                (zip (rows df) dts)).

(** The author a selected row yields *)
Definition author_of_row (row : Series) : Person.t :=
  let author_name := get row "author_name" in
  let author_id := get row "author_id" in
  let author_id_str := py_str author_id in
  let author_name_str := if isna author_name then "" else py_str author_name in
  Person.mk (PStr author_id_str) (PStr author_name_str).

(** [getAuthorsOfObjectsAcquiredInTimeFrame].  [all_authors] is a Python
    set of [Person] objects; the class defines neither [__eq__] nor
    [__hash__], so each freshly built object is a new member.  The list
    made from the set holds them all, in an order Python leaves open:
    here the order of insertion. *)
Definition getAuthorsOfObjectsAcquiredInTimeFrame (self : t)
    (start_date end_date : string) : result (list Person.t) :=
  start_dt ← fromisoformat start_date;
  end_dt ← fromisoformat end_date;
  sets ← for_each (λ (st : gset string * gset string) handler,
            let all_activities_df := ProcessDataQueryHandler.getAllActivities handler in
            start_col ← column all_activities_df "start_date";
            let start_dts := to_datetime start_col in
            end_col ← column all_activities_df "end_date";
            let end_dts := to_datetime end_col in
            _ ← column all_activities_df "type";
            _ ← column all_activities_df "object_id";
            Ok (st.1 ∪ acquisition_ids all_activities_df start_dts
                         (λ dt, (start_dt <=? dt)%Z),
                st.2 ∪ acquisition_ids all_activities_df end_dts
                         (λ dt, (dt <=? end_dt)%Z)))
          (processQuery self) (∅, ∅);
  let common_ids := sets.1 ∩ sets.2 in
  match metadataQuery self with
  | [] => Raise IndexError
  | first :: _ =>
    objects_df ← MetadataQueryHandler.getAllCulturalHeritageObjects first;
    _ ← column objects_df "id";
    let selected_objects_df := select_ids objects_df "id" common_ids in
    Ok (author_of_row <$> iterrows selected_objects_df)
  end.
End TimeFrame.

(** [series.fillna("").astype(str)] on one cell *)
Definition fill_str (v : pyval) : pyval :=
  PStr (if isna v then "" else py_str v).

Definition getCulturalHeritageObjectsByAuthorAndOwner (self : t) (personId owner : string)
    : result (list CHO.t) :=
  match metadataQuery self with
  | [] => Raise IndexError
  | first :: _ =>
    owner_df ← MetadataQueryHandler.getAllCulturalHeritageObjectByOwner first owner;
    if empty owner_df || negb (bool_decide ("id" ∈ columns owner_df)) then Ok []
    else
      _ ← column owner_df "author_id";
      let owner_df :=
        mkDataFrame (columns owner_df)
          ((λ r, <["id" := fill_str (cell r "id")]>
                   (<["author_id" := fill_str (cell r "author_id")]> r))
             <$> rows owner_df) in
      let filtered_df :=
        select owner_df (λ r,
          bool_decide (cell r "author_id" = PStr personId)
          || bool_decide (cell r "id" = PStr personId)) in
      if empty filtered_df then Ok []
      else Ok (object_of_row <$> iterrows filtered_df)
  end.

End AdvancedMashup.

(** ** ASCII instances of the library functions *)

(** What [str.upper], [str.lower] and [LIKE] do on ASCII text, and what the
    two date parsers do on strings of the shape [YYYY-MM-DD]. *)
Module Instances.

Definition upper_char (c : ascii) : ascii :=
  let n := nat_of_ascii c in
  if (97 <=? n)%nat && (n <=? 122)%nat then ascii_of_nat (n - 32) else c.

Definition lower_char (c : ascii) : ascii :=
  let n := nat_of_ascii c in
  if (65 <=? n)%nat && (n <=? 90)%nat then ascii_of_nat (n + 32) else c.

Fixpoint map_chars (f : ascii → ascii) (s : string) : string :=
  match s with
  | EmptyString => EmptyString
  | String c s' => String (f c) (map_chars f s')
  end.

Definition upper : string → string := map_chars upper_char.
Definition lower : string → string := map_chars lower_char.

(** [pattern] against [s]: [%] stands for any run of characters, [_] for
    any one character, a letter for itself in either case. *)
Fixpoint like_match (pattern : string) : string → bool :=
  match pattern with
  | EmptyString => λ s, String.eqb s ""
  | String c pattern' =>
    if Ascii.eqb c "%" then
      fix skip (s : string) : bool :=
        like_match pattern' s
        || match s with
           | EmptyString => false
           | String _ s' => skip s'
           end
    else if Ascii.eqb c "_" then
      λ s, match s with
           | EmptyString => false
           | String _ s' => like_match pattern' s'
           end
    else
      λ s, match s with
           | EmptyString => false
           | String d s' => Ascii.eqb (lower_char c) (lower_char d) && like_match pattern' s'
           end
  end.

(** [s LIKE pattern] *)
Definition like (s pattern : string) : bool := like_match pattern s.

Definition digit (c : ascii) : option Z :=
  let n := nat_of_ascii c in
  if (48 <=? n)%nat && (n <=? 57)%nat then Some (Z.of_nat (n - 48)) else None.

Fixpoint number (s : string) (acc : Z) : option Z :=
  match s with
  | EmptyString => Some acc
  | String c s' => d ← digit c; number s' (10 * acc + d)%Z
  end.

Definition days_in_month (y m : Z) : Z :=
  if bool_decide (m ∈ [4; 6; 9; 11]%Z) then 30
  else if (m =? 2)%Z then
    if ((y mod 4 =? 0) && (negb (y mod 100 =? 0) || (y mod 400 =? 0)))%Z then 29 else 28
  else 31.

(** The time stamp of midnight of [YYYY-MM-DD], as a number that grows
    with the date; [None] for any other string. *)
Definition parse_date (s : string) : option Z :=
  if negb ((String.length s =? 10)%nat
           && String.eqb (String.substring 4 1 s) "-"
           && String.eqb (String.substring 7 1 s) "-") then None
  else
    y ← number (String.substring 0 4 s) 0;
    m ← number (String.substring 5 2 s) 0;
    d ← number (String.substring 8 2 s) 0;
    if ((1 <=? y) && (1 <=? m) && (m <=? 12) && (1 <=? d) && (d <=? days_in_month y m))%Z
    then Some (y * 10000 + m * 100 + d)%Z
    else None.

Definition fromisoformat (s : string) : result Z :=
  match parse_date s with
  | Some dt => Ok dt
  | None => Raise ValueError
  end.

Definition to_datetime (cells : list pyval) : list (option Z) :=
  (λ v, match v with
        | PStr s => parse_date s
        | _ => None
        end) <$> cells.

End Instances.

(** ** Example stores *)

(** A metadata handler on the default endpoint whose backend answers every
    query with status 200 and the given bindings. *)
Definition answering (bindings : sparql_query → list (gmap string string))
    : MetadataQueryHandler.t :=
  MetadataQueryHandler.mk (Some "http://127.0.0.1:9999/blazegraph/sparql")
    (λ q, Response 200 (Some (bindings q))).

(** A metadata handler whose endpoint cannot be reached. *)
Definition unreachable : MetadataQueryHandler.t :=
  MetadataQueryHandler.mk (Some "http://127.0.0.1:9999/blazegraph/sparql")
    (λ _, TransportFault).

(** A process handler on the default path over a database that holds only
    the given [Acquisition] rows. *)
Definition acquisitions (l : list acquisition_row) : ProcessDataQueryHandler.t :=
  ProcessDataQueryHandler.mk "data/relational.db" (Readable (mkDatabase l [] [] [] [])).

(** One row of [Acquisition] with every column set *)
Definition acquisition (object_id institute person tool start_date end_date technique : string)
    : acquisition_row :=
  mkAcquisitionRow
    (mkRow (Some object_id) (Some institute) (Some person) (Some tool)
       (Some start_date) (Some end_date))
    (Some technique).

(** A catalogue as the upload of three CSV rows leaves it: [obj1] a
    painting and [obj2] a map, both by the author [VIAF:1], and [obj3]
    under a type the mashup has no class for.  A resource is named by the
    base URL followed by its identifier. *)
Definition catalogue : MetadataQueryHandler.t :=
  answering (λ q,
    match q with
    | ObjectById "obj1" =>
      [ {[ "CulturalObject" := "https://github.com/baraldiruffer/ds24project/obj1";
           "label" := "Portrait"; "type_label" := "Painting"; "owner" := "Museo" ]} ]
    | PersonById "VIAF:1" =>
      [ {[ "authorEntity" := "https://github.com/baraldiruffer/ds24project/Ada";
           "authorName" := "Ada"; "authorId" := "VIAF:1" ]} ]
    | AllPeople => [ {[ "authorName" := "Ada"; "authorId" := "VIAF:1" ]} ]
    | CulturalHeritageObjectsAuthoredBy "VIAF:1" =>
      [ {[ "type_name" := "Painting"; "id" := "obj1"; "title" := "Portrait";
           "date" := "1890"; "owner" := "Museo"; "place" := "Bologna";
           "name" := "Ada"; "author_id" := "VIAF:1" ]} ]
    | AllCulturalHeritageObjects =>
      [ {[ "id" := "obj1"; "title" := "Portrait"; "type_name" := "Painting";
           "owner" := "Museo"; "author_id" := "VIAF:1"; "author_name" := "Ada" ]};
        {[ "id" := "obj2"; "title" := "Atlas"; "type_name" := "Map";
           "owner" := "Museo"; "author_id" := "VIAF:1"; "author_name" := "Ada" ]};
        {[ "id" := "obj3"; "title" := "Bust"; "type_name" := "Sculpture";
           "owner" := "Museo" ]} ]
    | _ => []
    end).

(** Scenario B of the specification: one acquisition of [obj1] *)
Definition scan_of_obj1 : ProcessDataQueryHandler.t :=
  acquisitions [acquisition "obj1" "Council" "Grace" "Scanner" "2021-05-01" "2021-05-10" "X-ray"].

Definition scan_of_obj2 : ProcessDataQueryHandler.t :=
  acquisitions [acquisition "obj2" "Council" "Grace" "Scanner" "2021-06-01" "2021-06-03" "X-ray"].

(** An acquisition of an object the catalogue does not know *)
Definition scan_of_obj9 : ProcessDataQueryHandler.t :=
  acquisitions [acquisition "obj9" "Council" "Grace" "Scanner" "2021-07-01" "2021-07-02" "X-ray"].

(** Acquisitions of [obj1] and [obj2] in 2021, in one store *)
Definition scans_of_2021 : ProcessDataQueryHandler.t :=
  acquisitions
    [acquisition "obj1" "Council" "Grace" "Scanner" "2021-05-01" "2021-05-10" "X-ray";
     acquisition "obj2" "Council" "Grace" "Scanner" "2021-06-01" "2021-06-03" "X-ray"].


(** A catalogue that answers the query by owner: the Museo owns [obj1], by
    the author [VIAF:1], and [obj4], which has no author. *)
Definition catalogue_of_museo : MetadataQueryHandler.t :=
  answering (λ q,
    match q with
    | CulturalHeritageObjectByOwner "Museo" =>
      [ {[ "id" := "obj1"; "title" := "Portrait"; "type_name" := "Painting";
           "owner" := "Museo"; "author_id" := "VIAF:1"; "author_name" := "Ada" ]};
        {[ "id" := "obj4"; "title" := "Anonymous"; "type_name" := "Map";
           "owner" := "Museo" ]} ]
    | _ => []
    end).

(** A metadata handler whose endpoint answers every query with the status
    404 *)
Definition not_found : MetadataQueryHandler.t :=
  MetadataQueryHandler.mk (Some "http://127.0.0.1:9999/blazegraph/sparql")
    (λ _, Response 404 None).

(** An entry and an item of a process file with every value set *)
Definition entry_of (institute person : string) (tools : list string)
    (start_date end_date : string) : ProcessDataUploadHandler.activity_entry :=
  ProcessDataUploadHandler.mkEntry (Some institute) (Some person) tools
    (Some start_date) (Some end_date).

Definition item_of (object_id : string) (tools : list string) (technique : string)
    : ProcessDataUploadHandler.item :=
  ProcessDataUploadHandler.mkItem (Some object_id)
    (ProcessDataUploadHandler.mkAcquisitionEntry
       (entry_of "Council" "Grace" tools "2021-05-01" "2021-05-10") (Some technique))
    (entry_of "Council" "Grace" [] "2021-05-11" "2021-05-12")
    (entry_of "Council" "Alan" ["Blender"] "2021-05-13" "2021-05-14")
    (entry_of "Council" "Alan" [] "" "")
    (entry_of "Council" "Alan" [] "" "").

(** A process file with two items for the object [1], the later one with
    two tools for its acquisition, and one item for the object [2] *)
Definition process_file : list ProcessDataUploadHandler.item :=
  [item_of "1" ["Scanner"] "X-ray"; item_of "2" ["Camera"] "Photogrammetry";
   item_of "1" ["Scanner"; "Tripod"] "Laser"].

(** A catalogue whose tables bind no identifier: one painting without [id],
    one author without [authorId] *)
Definition catalogue_nameless : MetadataQueryHandler.t :=
  answering (λ q,
    match q with
    | AllCulturalHeritageObjects => [ {[ "title" := "Untitled"; "type_name" := "Painting" ]} ]
    | AllPeople => [ {[ "authorName" := "Ada" ]} ]
    | _ => []
    end).


(** A process handler at whose path [sqlite3.connect] raises *)
Definition unopenable_store : ProcessDataQueryHandler.t :=
  ProcessDataQueryHandler.mk "data/relational.db" SqliteError.




(** ** Vocabulary of the properties *)

(** A handler answers the lookup of [id_string] with an empty table. *)
Definition answers_empty (id_string : string) (handler : MetadataQueryHandler.t) : Prop :=
  ∃ df, MetadataQueryHandler.getById handler id_string = Ok df ∧ empty df = true.

(** The identifier-prefix convention: the scheme before [":"], upper-cased,
    is [VIAF] or [ULAN]. *)
Definition is_person_id (upper : string → string) (id_string : string) : bool :=
  has_char ":" id_string
  && bool_decide (upper (before_char ":" id_string) ∈ ["VIAF"; "ULAN"]).

(** A row of the union table started on or after [d]: its [start_date] is
    a non-empty string and [d] is not after it in byte order. *)
Definition started_after (d : string) (r : gmap string pyval) : bool :=
  match r !! "start_date" with
  | Some (PStr s) => negb (String.eqb s "") && String.leb d s
  | _ => false
  end.

Definition ended_before (d : string) (r : gmap string pyval) : bool :=
  match r !! "end_date" with
  | Some (PStr s) => negb (String.eqb s "") && String.leb s d
  | _ => false
  end.

(** [[f(x) for x in l]], where [f] can raise *)
Fixpoint mapM {A B : Type} (f : A → result B) (l : list A) : result (list B) :=
  match l with
  | [] => Ok []
  | x :: l' => y ← f x; ys ← mapM f l'; Ok (y :: ys)
  end.

(** The rows a loop over process handlers visits: handler by handler in
    registration order, the rows of the table the handler answers with,
    none when that table is empty. *)
Definition visited_rows (query : ProcessDataQueryHandler.t → DataFrame)
    (handlers : list ProcessDataQueryHandler.t) : list Series :=
  concat ((λ handler, let df := query handler in
                      if empty df then [] else iterrows df) <$> handlers).

(** The rows [getActivitiesUsingTool] keeps: those of the first handler's
    full table whose tool matches. *)
Definition tool_rows (lower : string → string) (tool_name : string)
    (handlers : list ProcessDataQueryHandler.t) : list Series :=
  match handlers with
  | [] => []
  | first :: _ =>
    List.filter (BasicMashup.tool_matches lower tool_name)
      (iterrows (ProcessDataQueryHandler.getAllActivities first))
  end.

(** The identifier an activity row is joined on: [str(row.get("object_id"))] *)
Definition join_id (row : Series) : string := py_str (get row "object_id").

(** The activity the shared row block builds from a row *)
Definition activity_of_row (upper : string → string) (self : BasicMashup.t) (row : Series)
    : result Act.t :=
  e ← BasicMashup.getEntityById upper self (join_id row);
  Ok (build_activity (as_referent e) row (ToolValue (get row "tool")) (get row "technique")).

(** A method returns one activity per row of [visited], in order, each
    referring to what [getEntityById] returns for the row's identifier:
    the entity, or nothing. *)
Definition joined (upper : string → string) (self : BasicMashup.t) (visited : list Series)
    (m : result (list Act.t)) : Prop :=
  ∃ acts, m = Ok acts
    ∧ Forall2 (λ row a, ∃ e, BasicMashup.getEntityById upper self (join_id row) = Ok e
                             ∧ Act.refersTo a = as_referent e)
        visited acts.

(** The stand-in [getAcquisitionsByTechnique] refers to when the lookup
    yields no object *)
Definition placeholder (activity_id : pyval) : CHO.t :=
  CHO.init CulturalHeritageObject activity_id (PStr "") PNone PNone PNone NoAuthor PNone PNone.

(** The object [getAcquisitionsByTechnique] makes an acquisition refer to:
    the one the lookup of the row's identifier returns, the place-holder
    when it returns nothing or a person *)
Definition technique_referent (upper : string → string) (self : BasicMashup.t)
    (row : Series) (a : Act.t) : Prop :=
  ∃ found, BasicMashup.getEntityById upper self (join_id row) = Ok found
    ∧ Act.refersTo a = Referent (AnObject match found with
                                          | Some (AnObject o) => o
                                          | _ => placeholder (get row "object_id")
                                          end).








(** No lookup by identifier raises on any registered metadata handler. *)
Definition lookups_return (self : BasicMashup.t) : Prop :=
  ∀ handler id_string, handler ∈ BasicMashup.metadataQuery self →
    returns (MetadataQueryHandler.getById handler id_string).

(** ** Vocabulary of the handler and upload properties *)

(** [column LIKE pattern] read on a row of the union table: true of a string
    cell that matches, never of [NULL]. *)
Definition cell_like (like : string → string → bool) (c pattern : string)
    (r : gmap string pyval) : bool :=
  match r !! c with
  | Some (PStr s) => like s pattern
  | _ => false
  end.

(** A row of the union table that stems from the table [Acquisition] *)
Definition is_acquisition (r : gmap string pyval) : bool :=
  bool_decide (r !! "type" = Some (PStr "Acquisition")).

(** A row of [getActivitiesUsingTool] with its type tag moved from
    [activity_type] to [type] *)
Definition retagged (r : gmap string pyval) : gmap string pyval :=
  match r !! "activity_type" with
  | Some v => <["type" := v]> (delete "activity_type" r)
  | None => r
  end.

(** The union table of a store, as the specification has it: every row of
    the five tables, table by table in the order [Acquisition],
    [Processing], [Modelling], [Optimising], [Exporting], each with the
    name of its table and its technique ([NULL] outside [Acquisition]). *)
Definition stored_rows (d : database) : list (string * option string * activity_row) :=
  ((λ a, ("Acquisition", technique a, shared a)) <$> tbl_Acquisition d)
  ++ ((λ r, ("Processing", None, r)) <$> tbl_Processing d)
  ++ ((λ r, ("Modelling", None, r)) <$> tbl_Modelling d)
  ++ ((λ r, ("Optimising", None, r)) <$> tbl_Optimising d)
  ++ ((λ r, ("Exporting", None, r)) <$> tbl_Exporting d).

(** A stored row started on or after [d]: its [start_date] is a non-empty
    string and [d] is not after it in byte order; likewise for the end. *)
Definition stored_started_after (d : string) (r : activity_row) : bool :=
  match start_date r with
  | Some s => negb (String.eqb s "") && String.leb d s
  | None => false
  end.

Definition stored_ended_before (d : string) (r : activity_row) : bool :=
  match end_date r with
  | Some s => negb (String.eqb s "") && String.leb s d
  | None => false
  end.

(** [sqlite3.connect] opens the store of a process handler. *)
Definition opens (handler : ProcessDataQueryHandler.t) : bool :=
  match ProcessDataQueryHandler.db handler with
  | Readable _ => true
  | SqliteError => false
  end.

(** The stored row [r] sits in the table named [type] of [d], with
    [technique_] its technique ([NULL] outside [Acquisition]). *)
Definition in_table (d : database) (type : string) (technique_ : option string)
    (r : activity_row) : Prop :=
  (type = "Acquisition" ∧ mkAcquisitionRow r technique_ ∈ tbl_Acquisition d)
  ∨ (technique_ = None
     ∧ ((type = "Processing" ∧ r ∈ tbl_Processing d)
        ∨ (type = "Modelling" ∧ r ∈ tbl_Modelling d)
        ∨ (type = "Optimising" ∧ r ∈ tbl_Optimising d)
        ∨ (type = "Exporting" ∧ r ∈ tbl_Exporting d))).

(** The class the mashup has for a type tag of the store *)
Definition class_of_tag (type : string) : activity_class :=
  default Activity (activity_classes !! type).

(** The row [row] of a handler's table reads as the stored row [r] of the
    table [type]: what [row.get] yields for each column of the union. *)
Definition reads_as (row : Series) (type : string) (technique_ : option string)
    (r : activity_row) : Prop :=
  get row "object_id" = sql_val (object_id r)
  ∧ get row "responsible_institute" = sql_val (responsible_institute r)
  ∧ get row "responsible_person" = sql_val (responsible_person r)
  ∧ get row "technique" = sql_val technique_
  ∧ get row "tool" = sql_val (tool r)
  ∧ get row "start_date" = sql_val (start_date r)
  ∧ get row "end_date" = sql_val (end_date r)
  ∧ get row "type" = PStr type.

(** A method of the process handler that answers with the union of the five
    tables under the [WHERE] clause [where_]: the empty table when the store
    does not open, otherwise one row per stored row that satisfies
    [where_], reading as that stored row. *)
Definition union_query (where_ : activity_row → bool)
    (query : ProcessDataQueryHandler.t → DataFrame) : Prop :=
  ∀ handler,
    match ProcessDataQueryHandler.db handler with
    | SqliteError => query handler = DataFrame_empty
    | Readable d =>
      ∃ cols select,
        query handler = mkDataFrame cols (ProcessDataQueryHandler.union_all d where_ select)
        ∧ ∀ type technique_ r,
            reads_as (mkSeries cols (select type technique_ r)) type technique_ r
    end.

(** The state of [getAcquisitionsByTechnique] after the rows [visited]:
    the set holds the non-empty object identifiers met so far, the list one
    acquisition for each of them, and every acquisition refers to an
    object. *)
Definition acquisitions_inv (visited : list Series) (st : list Act.t * gset pyval) : Prop :=
  st.2 = list_to_set (List.filter truthy ((λ row, get row "object_id") <$> visited))
  ∧ List.length st.1 = size st.2
  ∧ Forall (λ a, Act.class a = Acquisition
                 ∧ ∃ o, Act.refersTo a = Referent (AnObject o)) st.1.

(** The activity [a] is what the mashup is to return for the uploaded
    entry [e] of the table of class [cls]: the values of the entry, with
    the tools joined into one string. *)
Definition stored_as (cls : activity_class) (e : ProcessDataUploadHandler.activity_entry)
    (technique_ : option (option string)) (a : Act.t) : Prop :=
  Act.class a = cls
  ∧ Act.institute a = sql_val (ProcessDataUploadHandler.responsible_institute e)
  ∧ Act.person a = sql_val (ProcessDataUploadHandler.responsible_person e)
  ∧ Act.tool a = (if bool_decide (ProcessDataUploadHandler.tool e = []) then []
                  else [String.concat ", " (ProcessDataUploadHandler.tool e)])
  ∧ Act.start a = sql_val (ProcessDataUploadHandler.start_date e)
  ∧ Act.end_ a = sql_val (ProcessDataUploadHandler.end_date e)
  ∧ Act.technique a = (sql_val <$> technique_).

(** An activity of one of the five subclasses *)
Definition of_an_activity_subclass (a : Act.t) : Prop := Act.class a ≠ Activity.

(** What the constructor makes of a [tool] cell: the one string, or no tool
    for [NULL] *)
Definition tools_of_cell (tool : option string) : list string :=
  match tool with
  | Some s => [s]
  | None => []
  end.

(** * Properties *)

(** ** The result monad and the loops *)

Lemma bind_Ok {A B} (m : result A) (f : A → result B) (b : B) :
  m ≫= f = Ok b ↔ ∃ a, m = Ok a ∧ f a = Ok b.
Proof.
  destruct m as [a|e]; simpl; split.
  - eauto.
  - by intros (a' & [= <-] & ?).
  - discriminate.
  - by intros (? & ? & _).
Qed.

Lemma for_each_app {A S} (body : S → A → result S) (l1 l2 : list A) (s : S) :
  for_each body (l1 ++ l2) s = for_each body l1 s ≫= for_each body l2.
Proof.
  revert s. induction l1 as [|x l1 IH]; intros s; simpl; [done|].
  destruct (body s x) as [s'|e]; simpl; [apply IH | done].
Qed.

Lemma filter_fmap {A B} (f : A → B) (P : B → bool) (l : list A) :
  List.filter P (f <$> l) = f <$> List.filter (λ x, P (f x)) l.
Proof.
  induction l as [|x l IH]; [done|].
  rewrite fmap_cons. simpl List.filter.
  destruct (P (f x)); [rewrite fmap_cons; f_equal|]; exact IH.
Qed.

Lemma filter_true {A} (l : list A) : List.filter (λ _, true) l = l.
Proof. induction l as [|x l IH]; simpl; [done | by rewrite IH]. Qed.

(** ** The entity model *)

(** C10: the constructor stores [str(owner)], whatever [owner] is, so that
    [getOwner()] is always a string; built with [owner=None], an object has
    the owner ["None"]. *)
Theorem owner_is_coerced_to_a_string cls id title date owner place hasAuthor
    author_id author_name :
  CHO.getOwner (CHO.init cls id title date owner place hasAuthor author_id author_name)
    = py_str owner
  ∧ CHO.getOwner (CHO.init cls id title date PNone place hasAuthor author_id author_name)
    = "None".
Proof. split; reflexivity. Qed.

(** A row without an owner binding: [getAllCulturalHeritageObjects] passes
    [owner=None], and the object it appends has the owner ["None"]. *)
Lemma objects_row_absent_owner st row :
  notna (get row "owner") = false →
  Forall (λ o, CHO.getOwner o = "None") st.1 →
  Forall (λ o, CHO.getOwner o = "None") (BasicMashup.objects_row st row).1.
Proof.
  intros Hna Hst. unfold BasicMashup.objects_row. rewrite Hna.
  repeat case_match; simpl; try done.
  all: apply Forall_app; split; [done|]; by constructor.
Qed.

(** ** The process handler *)

Lemma union_all_fmap {B} d where_ select (g : gmap string pyval → B) :
  g <$> ProcessDataQueryHandler.union_all d where_ select
  = ((λ a, g (select "Acquisition" (technique a) (shared a)))
       <$> List.filter (λ a, where_ (shared a)) (tbl_Acquisition d))
    ++ ((λ r, g (select "Processing" None r)) <$> List.filter where_ (tbl_Processing d))
    ++ ((λ r, g (select "Modelling" None r)) <$> List.filter where_ (tbl_Modelling d))
    ++ ((λ r, g (select "Optimising" None r)) <$> List.filter where_ (tbl_Optimising d))
    ++ ((λ r, g (select "Exporting" None r)) <$> List.filter where_ (tbl_Exporting d)).
Proof.
  unfold ProcessDataQueryHandler.union_all.
  rewrite !fmap_app, <- !list_fmap_compose. reflexivity.
Qed.

Lemma union_all_filter d (P : gmap string pyval → bool) where_ select :
  (∀ type technique r, P (select type technique r) = where_ r) →
  List.filter P (ProcessDataQueryHandler.union_all d (λ _, true) select)
  = ProcessDataQueryHandler.union_all d where_ select.
Proof.
  intros HP. unfold ProcessDataQueryHandler.union_all.
  rewrite !List.filter_app, !filter_fmap, !filter_true.
  repeat apply (f_equal2 app);
    (apply (f_equal (fmap _)); apply List.filter_ext; intros; apply HP).
Qed.

Lemma dated_row_delete_id date type technique r :
  delete "id" (ProcessDataQueryHandler.dated_row date type technique r)
  = ProcessDataQueryHandler.union_row type technique r.
Proof. unfold ProcessDataQueryHandler.dated_row. by apply delete_insert_id. Qed.

Lemma started_after_union_row d type technique r :
  started_after d (ProcessDataQueryHandler.union_row type technique r)
  = ProcessDataQueryHandler.sql_ge (start_date r) d
    && ProcessDataQueryHandler.sql_nonempty (start_date r).
Proof.
  unfold started_after.
  change (ProcessDataQueryHandler.union_row type technique r !! "start_date")
    with (Some (sql_val (start_date r))).
  destruct (start_date r) as [s|]; simpl; [apply andb_comm | done].
Qed.

Lemma ended_before_union_row d type technique r :
  ended_before d (ProcessDataQueryHandler.union_row type technique r)
  = ProcessDataQueryHandler.sql_le (end_date r) d
    && ProcessDataQueryHandler.sql_nonempty (end_date r).
Proof.
  unfold ended_before.
  change (ProcessDataQueryHandler.union_row type technique r !! "end_date")
    with (Some (sql_val (end_date r))).
  destruct (end_date r) as [s|]; simpl; [apply andb_comm | done].
Qed.

Lemma union_all_stored d where_ select :
  ProcessDataQueryHandler.union_all d where_ select
  = (λ x : string * option string * activity_row, select x.1.1 x.1.2 x.2)
      <$> List.filter (λ x, where_ x.2) (stored_rows d).
Proof.
  unfold ProcessDataQueryHandler.union_all, stored_rows.
  rewrite !List.filter_app, !filter_fmap, !fmap_app, <- !list_fmap_compose.
  reflexivity.
Qed.

Lemma stored_date_tests d r :
  ProcessDataQueryHandler.sql_ge (start_date r) d
    && ProcessDataQueryHandler.sql_nonempty (start_date r) = stored_started_after d r
  ∧ ProcessDataQueryHandler.sql_le (end_date r) d
      && ProcessDataQueryHandler.sql_nonempty (end_date r) = stored_ended_before d r.
Proof.
  unfold stored_started_after, stored_ended_before.
  destruct (start_date r), (end_date r); simpl; split; try done; apply andb_comm.
Qed.

(** C9: on a store that opens, [getActivitiesStartedAfter(d)] returns, in
    the order of the union table, one row for each stored row of the five
    tables whose [start_date] is a non-empty string not below [d] in byte
    order, and no other row; each returned row reads as its stored row, under
    the name of its table.  [getActivitiesEndedBefore(d)] does the same with
    the stored rows whose [end_date] is a non-empty string not above [d],
    and [getAllActivities] with all the stored rows.  Up to the extra column
    [id], the two filters so return the rows of the [getAllActivities] table
    that pass the test; a row whose date is empty or [NULL] is in neither.
    On a store that does not open, both return no row. *)
Theorem date_filters_are_exact (path : string) (store : database) (d : string) :
  let self := ProcessDataQueryHandler.mk path (Readable store) in
  let closed := ProcessDataQueryHandler.mk path SqliteError in
  let started := ProcessDataQueryHandler.getActivitiesStartedAfter self d in
  let ended := ProcessDataQueryHandler.getActivitiesEndedBefore self d in
  let all := ProcessDataQueryHandler.getAllActivities self in
  Forall2 (λ (x : string * option string * activity_row) r,
             reads_as (mkSeries (columns started) r) x.1.1 x.1.2 x.2)
    (List.filter (λ x, stored_started_after d x.2) (stored_rows store)) (rows started)
  ∧ Forall2 (λ (x : string * option string * activity_row) r,
               reads_as (mkSeries (columns ended) r) x.1.1 x.1.2 x.2)
      (List.filter (λ x, stored_ended_before d x.2) (stored_rows store)) (rows ended)
  ∧ Forall2 (λ (x : string * option string * activity_row) r,
               reads_as (mkSeries (columns all) r) x.1.1 x.1.2 x.2)
      (stored_rows store) (rows all)
  ∧ delete "id" <$> rows started = List.filter (started_after d) (rows all)
  ∧ delete "id" <$> rows ended = List.filter (ended_before d) (rows all)
  ∧ rows (ProcessDataQueryHandler.getActivitiesStartedAfter closed d) = []
  ∧ rows (ProcessDataQueryHandler.getActivitiesEndedBefore closed d) = [].
Proof.
  intros self closed started ended all.
  unfold started, ended, all, ProcessDataQueryHandler.getActivitiesStartedAfter,
    ProcessDataQueryHandler.getActivitiesEndedBefore,
    ProcessDataQueryHandler.getAllActivities.
  cbn [ProcessDataQueryHandler.db self closed rows columns].
  split; [|split; [|split; [|split; [|split; [|done]]]]].
  - rewrite union_all_stored.
    rewrite (List.filter_ext
               (λ x : string * option string * activity_row,
                  ProcessDataQueryHandler.sql_ge (start_date x.2) d
                  && ProcessDataQueryHandler.sql_nonempty (start_date x.2))
               (λ x, stored_started_after d x.2))
      by (intros; apply stored_date_tests).
    apply Forall2_fmap_r, Forall_Forall2_diag, Forall_forall.
    intros [[type technique_] r] _. repeat split.
  - rewrite union_all_stored.
    rewrite (List.filter_ext
               (λ x : string * option string * activity_row,
                  ProcessDataQueryHandler.sql_le (end_date x.2) d
                  && ProcessDataQueryHandler.sql_nonempty (end_date x.2))
               (λ x, stored_ended_before d x.2))
      by (intros; apply stored_date_tests).
    apply Forall2_fmap_r, Forall_Forall2_diag, Forall_forall.
    intros [[type technique_] r] _. repeat split.
  - rewrite union_all_stored, filter_true.
    apply Forall2_fmap_r, Forall_Forall2_diag, Forall_forall.
    intros [[type technique_] r] _. repeat split.
  - rewrite (union_all_filter store (started_after d) _ _ (started_after_union_row d)).
    rewrite union_all_fmap. unfold ProcessDataQueryHandler.union_all.
    repeat apply (f_equal2 app); apply list_fmap_ext; intros; apply dated_row_delete_id.
  - rewrite (union_all_filter store (ended_before d) _ _ (ended_before_union_row d)).
    rewrite union_all_fmap. unfold ProcessDataQueryHandler.union_all.
    repeat apply (f_equal2 app); apply list_fmap_ext; intros; apply dated_row_delete_id.
Qed.

(** The byte order of the two filters, on the dates of the specification *)
Example date_order :
  String.leb "2020-01-01" "2021-05-01" = true
  ∧ String.leb "2020-01-01" "2019-12-31" = false
  ∧ started_after "2020-01-01" {[ "start_date" := PStr "" ]} = false
  ∧ started_after "2020-01-01" {[ "start_date" := PNone ]} = false.
Proof. repeat split. Qed.

(** ** Lookup by identifier *)

Section GetEntityById.
Context (upper : string → string).

Lemma first_nonempty_None handlers id_string :
  BasicMashup.first_nonempty handlers id_string = Ok None
  ↔ Forall (answers_empty id_string) handlers.
Proof.
  induction handlers as [|h hs IH]; simpl.
  - split; [constructor | done].
  - destruct (MetadataQueryHandler.getById h id_string) as [df|e] eqn:Hh; simpl.
    + destruct (empty df) eqn:He; simpl.
      * rewrite IH. split.
        -- intros Hhs. constructor; [by exists df | done].
        -- by inversion 1.
      * split; [done|]. inversion 1 as [|?? (df' & Hdf' & He') _]; subst.
        rewrite Hh in Hdf'. injection Hdf' as <-. congruence.
    + split; [done|]. inversion 1 as [|?? (df' & Hdf' & _) _]; subst. congruence.
Qed.

Lemma first_nonempty_Some pre handler post id_string df :
  Forall (answers_empty id_string) pre →
  MetadataQueryHandler.getById handler id_string = Ok df →
  empty df = false →
  BasicMashup.first_nonempty (pre ++ handler :: post) id_string = Ok (Some df).
Proof.
  intros Hpre Hh He. induction Hpre as [|h pre (df' & Hdf' & He') _ IH]; simpl.
  - rewrite Hh. simpl. by rewrite He.
  - rewrite Hdf'. simpl. by rewrite He'.
Qed.

(** What [first_nonempty] hands over is the first non-empty answer in
    registration order. *)
Lemma first_nonempty_inv handlers id_string df :
  BasicMashup.first_nonempty handlers id_string = Ok (Some df) →
  ∃ pre handler post,
    handlers = pre ++ handler :: post
    ∧ Forall (answers_empty id_string) pre
    ∧ MetadataQueryHandler.getById handler id_string = Ok df
    ∧ empty df = false.
Proof.
  induction handlers as [|h hs IH]; simpl; [done|].
  destruct (MetadataQueryHandler.getById h id_string) as [df'|e] eqn:Hh; simpl; [|done].
  destruct (empty df') eqn:He; simpl.
  - intros (pre & h' & post & -> & Hpre & Hh' & He')%IH.
    exists (h :: pre), h', post. repeat split; try done.
    constructor; [by exists df' | done].
  - intros [= <-]. by exists [], h, hs.
Qed.

Lemma iloc_nonempty df :
  empty df = false → ∃ r, rows df = r :: tail (rows df)
                          ∧ iloc df 0 = Ok (mkSeries (columns df) r).
Proof.
  unfold empty, iloc, iterrows. destruct (rows df) as [|r rs]; simpl; [done|].
  intros _. by exists r.
Qed.

Lemma prefix_test id_string :
  bool_decide ((if has_char ":" id_string
                then Some (upper (before_char ":" id_string)) else None)
               ∈ [Some "VIAF"; Some "ULAN"])
  = is_person_id upper id_string.
Proof.
  unfold is_person_id. destruct (has_char ":" id_string); simpl.
  - apply bool_decide_ext. rewrite !elem_of_cons, !elem_of_nil.
    split; (intros [H|[H|[]]]; [left | right; left]; congruence).
  - reflexivity.
Qed.

(** The entity [getEntityById] builds from the first row of a table *)
Lemma getEntityById_found self id_string df :
  BasicMashup.first_nonempty (BasicMashup.metadataQuery self) id_string = Ok (Some df) →
  ∃ row e,
    iloc df 0 = Ok row
    ∧ BasicMashup.getEntityById upper self id_string = Ok (Some e)
    ∧ match e with
      | APerson p =>
        is_person_id upper id_string = true
        ∧ Person.id p = PStr id_string
        ∧ Person.name p = py_or (py_or (get row "authorName") (get row "label"))
                            (PStr "Unknown")
      | AnObject o =>
        is_person_id upper id_string = false
        ∧ CHO.class o = CulturalHeritageObject
        ∧ CHO.id o = py_or (get row "CulturalObject") (PStr id_string)
        ∧ CHO.title o = py_or (get row "label") (PStr "Unknown")
      end.
Proof.
  intros Hfound. unfold BasicMashup.getEntityById. rewrite Hfound. simpl.
  apply first_nonempty_inv in Hfound as (_ & _ & _ & _ & _ & _ & He).
  destruct (iloc_nonempty df He) as (r & _ & Hrow). rewrite Hrow. simpl.
  rewrite prefix_test. destruct (is_person_id upper id_string) eqn:Hp.
  - eexists _, _. repeat split; try done.
  - eexists _, _. repeat split; try done.
Qed.

(** C8: [getEntityById] returns [None] exactly when every registered
    handler answers the lookup with an empty table.  Otherwise the first
    handler, in registration order, whose answer is not empty decides: the
    entity is built from the first row of its table, a [Person] when the
    scheme before [":"] is VIAF or ULAN (compared in upper case), a
    [CulturalHeritageObject] otherwise. *)
Theorem getEntityById_first_answer_by_prefix self id_string :
  (BasicMashup.getEntityById upper self id_string = Ok None
   ↔ Forall (answers_empty id_string) (BasicMashup.metadataQuery self))
  ∧ ∀ pre handler post df,
      BasicMashup.metadataQuery self = pre ++ handler :: post →
      Forall (answers_empty id_string) pre →
      MetadataQueryHandler.getById handler id_string = Ok df →
      empty df = false →
      ∃ row e,
        iloc df 0 = Ok row
        ∧ BasicMashup.getEntityById upper self id_string = Ok (Some e)
        ∧ match e with
          | APerson p =>
            is_person_id upper id_string = true
            ∧ Person.id p = PStr id_string
            ∧ Person.name p = py_or (py_or (get row "authorName") (get row "label"))
                                (PStr "Unknown")
          | AnObject o =>
            is_person_id upper id_string = false
            ∧ CHO.class o = CulturalHeritageObject
            ∧ CHO.id o = py_or (get row "CulturalObject") (PStr id_string)
            ∧ CHO.title o = py_or (get row "label") (PStr "Unknown")
          end.
Proof.
  split.
  - rewrite <- first_nonempty_None. unfold BasicMashup.getEntityById.
    destruct (BasicMashup.first_nonempty _ _) as [[df|]|e] eqn:Hfound; simpl.
    + destruct (getEntityById_found self id_string df Hfound)
        as (row & e & Hrow & Hget & _).
      unfold BasicMashup.getEntityById in Hget. rewrite Hfound in Hget. simpl in Hget.
      rewrite Hget. split; discriminate.
    + done.
    + split; discriminate.
  - intros pre handler post df Hhs Hpre Hh He.
    apply getEntityById_found. rewrite Hhs. by apply first_nonempty_Some.
Qed.

End GetEntityById.

(** The two lookups of scenario D of the specification, on [catalogue] *)
Lemma getEntityById_scenario_D :
  (∃ p, BasicMashup.getEntityById Instances.upper (BasicMashup.mk [catalogue] []) "VIAF:1"
        = Ok (Some (APerson p)))
  ∧ (∃ o, BasicMashup.getEntityById Instances.upper (BasicMashup.mk [catalogue] []) "obj1"
          = Ok (Some (AnObject o))).
Proof.
  split.
  - destruct (getEntityById_first_answer_by_prefix Instances.upper
                (BasicMashup.mk [catalogue] []) "VIAF:1") as [_ H].
    edestruct (H [] catalogue []) as (row & e & _ & Hget & He);
      [reflexivity | constructor | reflexivity | reflexivity |].
    destruct e as [p|o]; [by exists p | by destruct He].
  - destruct (getEntityById_first_answer_by_prefix Instances.upper
                (BasicMashup.mk [catalogue] []) "obj1") as [_ H].
    edestruct (H [] catalogue []) as (row & e & _ & Hget & He);
      [reflexivity | constructor | reflexivity | reflexivity |].
    destruct e as [p|o]; [by destruct He | by exists o].
Defined.

(** ** Backend failure *)

(** X19: [_execute_query] has no handler around [sparql.query()]: whatever the
    query, a transport fault or a non-success status is raised to the
    caller. *)
Lemma _execute_query_raises_on_failure self query :
  (MetadataQueryHandler.endpoint self query = TransportFault
   ∨ ∃ status body, MetadataQueryHandler.endpoint self query = Response status body
                    ∧ ¬ (200 ≤ status < 300)%Z) →
  raises (MetadataQueryHandler._execute_query self query).
Proof.
  unfold MetadataQueryHandler._execute_query.
  intros [-> | (status & body & -> & Hs)]; [by eexists|].
  destruct ((200 <=? status)%Z && (status <? 300)%Z) eqn:E; simpl; [|by eexists].
  apply andb_true_iff in E as [?%Z.leb_le ?%Z.ltb_lt]. lia.
Qed.

(** X20: [getById] degrades to the empty table on a non-success status, but
    raises on a transport fault. *)
Lemma getById_on_failure path endpoint input_id :
  String.prefix "http://" path || String.prefix "https://" path = true →
  let self := MetadataQueryHandler.mk (Some path) endpoint in
  let query := if has_char ":" input_id then PersonById input_id else ObjectById input_id in
  (∀ status body, endpoint query = Response status body → status ≠ 200%Z →
     MetadataQueryHandler.getById self input_id = Ok DataFrame_empty)
  ∧ (endpoint query = TransportFault →
     MetadataQueryHandler.getById self input_id = Raise ConnectionError).
Proof.
  intros Hp self query. unfold MetadataQueryHandler.getById. simpl. rewrite Hp. simpl.
  fold query. split.
  - intros status body -> Hs. by apply Z.eqb_neq in Hs as ->.
  - by intros ->.
Qed.

(** The process handler catches the [sqlite3.Error] of [sqlite3.connect]:
    every query method answers with the empty table. *)
Lemma process_handler_degrades_to_empty like path s :
  let self := ProcessDataQueryHandler.mk path SqliteError in
  ProcessDataQueryHandler.getAllActivities self = DataFrame_empty
  ∧ ProcessDataQueryHandler.getActivitiesByResponsibleInstitution like self s = DataFrame_empty
  ∧ ProcessDataQueryHandler.getActivitiesByResponsiblePerson like self s = DataFrame_empty
  ∧ ProcessDataQueryHandler.getActivitiesStartedAfter self s = DataFrame_empty
  ∧ ProcessDataQueryHandler.getActivitiesEndedBefore self s = DataFrame_empty
  ∧ ProcessDataQueryHandler.getAcquisitionsByTechnique like self s = DataFrame_empty.
Proof.
  repeat split. unfold ProcessDataQueryHandler.getAcquisitionsByTechnique. simpl.
  by destruct (String.eqb path "").
Qed.

(** C1, as the code has it: with a metadata endpoint that cannot be
    reached, the handler's [getAllPeople] and [getById] raise, and so do the
    mashup's [getAllPeople] and [getAllActivities] on top of them; a start
    date that is no ISO date makes [getAuthorsOfObjectsAcquiredInTimeFrame]
    raise, and a mashup without metadata handler makes
    [getObjectsHandledByResponsiblePerson] raise. *)
Theorem failures_reach_the_caller :
  MetadataQueryHandler.getAllPeople unreachable = Raise ConnectionError
  ∧ MetadataQueryHandler.getById unreachable "obj1" = Raise ConnectionError
  ∧ BasicMashup.getAllPeople (BasicMashup.mk [unreachable] []) = Raise ConnectionError
  ∧ BasicMashup.getAllActivities Instances.upper (BasicMashup.mk [unreachable] [scan_of_obj1])
    = Raise ConnectionError
  ∧ AdvancedMashup.getAuthorsOfObjectsAcquiredInTimeFrame Instances.fromisoformat
      Instances.to_datetime (BasicMashup.mk [catalogue] [scan_of_obj1]) "yesterday" "2021-12-31"
    = Raise ValueError
  ∧ AdvancedMashup.getObjectsHandledByResponsiblePerson Instances.like
      (BasicMashup.mk [] [scan_of_obj1]) "Grace"
    = Raise IndexError.
Proof. repeat split; vm_compute; reflexivity. Qed.

(** ** Authors of the objects acquired in a time frame *)

(** One author per selected row: nothing is dropped from the set of
    [Person] objects. *)
Lemma time_frame_authors_per_row fromisoformat to_datetime self start_date end_date l first :
  head (BasicMashup.metadataQuery self) = Some first →
  AdvancedMashup.getAuthorsOfObjectsAcquiredInTimeFrame fromisoformat to_datetime self
    start_date end_date = Ok l →
  ∃ objects_df ids,
    MetadataQueryHandler.getAllCulturalHeritageObjects first = Ok objects_df
    ∧ l = AdvancedMashup.author_of_row
            <$> iterrows (AdvancedMashup.select_ids objects_df "id" ids).
Proof.
  unfold AdvancedMashup.getAuthorsOfObjectsAcquiredInTimeFrame.
  destruct (BasicMashup.metadataQuery self) as [|h hs]; [done|]. intros [= ->].
  intros (start_dt & _ & (end_dt & _ & (sets & _ & H)%bind_Ok)%bind_Ok)%bind_Ok.
  apply bind_Ok in H as (objects_df & Hdf & (_ & _ & [= <-])%bind_Ok).
  by eexists _, _.
Qed.

(** C4, as the code has it: [obj1] and [obj2], both by the author
    [VIAF:1], are acquired within 2021; the list of authors holds that
    author twice. *)
Theorem time_frame_authors_not_deduplicated :
  AdvancedMashup.getAuthorsOfObjectsAcquiredInTimeFrame Instances.fromisoformat
    Instances.to_datetime (BasicMashup.mk [catalogue] [scans_of_2021])
    "2021-01-01" "2021-12-31"
  = Ok [Person.mk (PStr "VIAF:1") (PStr "Ada"); Person.mk (PStr "VIAF:1") (PStr "Ada")].
Proof. vm_compute. reflexivity. Qed.

(** ** The join of activities with the catalogue *)

Lemma mapM_app {A B} (f : A → result B) (l1 l2 : list A) :
  mapM f (l1 ++ l2) = ys1 ← mapM f l1; ys2 ← mapM f l2; Ok (ys1 ++ ys2).
Proof.
  induction l1 as [|x l1 IH]; simpl.
  - by destruct (mapM f l2).
  - destruct (f x) as [y|e]; simpl; [|done]. rewrite IH.
    destruct (mapM f l1) as [ys1|e]; simpl; [|done].
    by destruct (mapM f l2).
Qed.

Lemma mapM_Forall2 {A B} (f : A → result B) (l : list A) (ys : list B) :
  mapM f l = Ok ys ↔ Forall2 (λ x y, f x = Ok y) l ys.
Proof.
  revert ys. induction l as [|x l IH]; intros ys; simpl.
  - split; [intros [= <-]; constructor | by inversion 1].
  - split.
    + intros (y & Hy & (ys' & Hys & [= <-])%bind_Ok)%bind_Ok.
      constructor; [done | by apply IH].
    + inversion 1 as [|?? y ys' Hy Hys]; subst.
      rewrite Hy. simpl. apply IH in Hys as ->. done.
Qed.

Lemma mapM_returns {A B} (f : A → result B) (l : list A) :
  (∀ x, x ∈ l → returns (f x)) → returns (mapM f l).
Proof.
  induction l as [|x l IH]; intros Hf; simpl; [by eexists|].
  destruct (Hf x) as [y ->]; [by left|]. simpl.
  destruct IH as [ys ->]; [intros; apply Hf; by right|]. by eexists.
Qed.

(** A loop whose body appends one computed element per item *)
Lemma for_each_mapM {A B} (f : A → result B) (l : list A) (acc : list B) :
  for_each (λ acc x, y ← f x; Ok (acc ++ [y])) l acc = ys ← mapM f l; Ok (acc ++ ys).
Proof.
  revert acc. induction l as [|x l IH]; intros acc; simpl.
  - by rewrite app_nil_r.
  - destruct (f x) as [y|e]; simpl; [|done]. rewrite IH.
    destruct (mapM f l) as [ys|e]; simpl; [|done]. by rewrite <- app_assoc.
Qed.

Lemma for_each_ext {A S} (body1 body2 : S → A → result S) (l : list A) (s : S) :
  (∀ s x, body1 s x = body2 s x) → for_each body1 l s = for_each body2 l s.
Proof.
  intros Hbody. revert s. induction l as [|x l IH]; intros s; simpl; [done|].
  rewrite Hbody. destruct (body2 s x); simpl; [apply IH | done].
Qed.

Lemma visited_rows_app query handlers1 handlers2 :
  visited_rows query (handlers1 ++ handlers2)
  = visited_rows query handlers1 ++ visited_rows query handlers2.
Proof. unfold visited_rows. by rewrite fmap_app, concat_app. Qed.

Section Join.
Context (upper lower : string → string) (like : string → string → bool).

(** [getEntityById] reads the metadata handlers only. *)
Lemma activity_of_row_handlers ms ps ps' row :
  activity_of_row upper (BasicMashup.mk ms ps) row
  = activity_of_row upper (BasicMashup.mk ms ps') row.
Proof. reflexivity. Qed.

Lemma fan_out_loop self query handlers acc :
  for_each (λ all_activities handler,
      let df := query handler in
      if empty df then Ok all_activities
      else for_each (BasicMashup.activity_row_block upper self) (iterrows df) all_activities)
    handlers acc
  = ys ← mapM (activity_of_row upper self) (visited_rows query handlers); Ok (acc ++ ys).
Proof.
  revert acc. induction handlers as [|h hs IH]; intros acc.
  - simpl. by rewrite app_nil_r.
  - change (visited_rows query (h :: hs))
      with ((if empty (query h) then [] else iterrows (query h)) ++ visited_rows query hs).
    rewrite mapM_app. simpl for_each. destruct (empty (query h)).
    + simpl. rewrite IH. by destruct (mapM _ _).
    + rewrite (for_each_ext _ (λ acc row, y ← activity_of_row upper self row;
                                          Ok (acc ++ [y])));
        [|intros acc' row; unfold BasicMashup.activity_row_block, activity_of_row;
          fold (join_id row);
          by destruct (BasicMashup.getEntityById upper self (join_id row))].
      rewrite for_each_mapM.
      destruct (mapM (activity_of_row upper self) (iterrows (query h))) as [ys1|e];
        simpl; [|done].
      rewrite IH.
      destruct (mapM (activity_of_row upper self) (visited_rows query hs)) as [ys2|e];
        simpl; [|done].
      by rewrite app_assoc.
Qed.

(** The handler loop of the five methods is a map over the visited rows. *)
Lemma fan_out_mapM self query :
  BasicMashup.fan_out upper self query
  = mapM (activity_of_row upper self) (visited_rows query (BasicMashup.processQuery self)).
Proof.
  unfold BasicMashup.fan_out. rewrite fan_out_loop.
  by destruct (mapM _ _).
Qed.

Lemma getAllActivities_fan_out self :
  BasicMashup.getAllActivities upper self
  = BasicMashup.fan_out upper self ProcessDataQueryHandler.getAllActivities.
Proof.
  unfold BasicMashup.getAllActivities. case_bool_decide as Hps; [|done].
  unfold BasicMashup.fan_out. by rewrite Hps.
Qed.

Lemma first_nonempty_returns handlers id_string :
  (∀ handler, handler ∈ handlers →
     returns (MetadataQueryHandler.getById handler id_string)) →
  returns (BasicMashup.first_nonempty handlers id_string).
Proof.
  induction handlers as [|h hs IH]; intros Hret; simpl; [by eexists|].
  destruct (Hret h) as [df ->]; [by left|]. simpl.
  destruct (empty df); simpl; [|by eexists].
  apply IH. intros; apply Hret; by right.
Qed.

Lemma getEntityById_returns self id_string :
  lookups_return self → returns (BasicMashup.getEntityById upper self id_string).
Proof.
  intros Hret.
  destruct (first_nonempty_returns (BasicMashup.metadataQuery self) id_string)
    as [[df|] Hfound]; [intros; by apply Hret | |].
  - destruct (getEntityById_found upper self id_string df Hfound) as (? & e & _ & -> & _).
    by eexists.
  - unfold BasicMashup.getEntityById. rewrite Hfound. by eexists.
Qed.

Lemma fan_out_joined self query :
  lookups_return self →
  joined upper self (visited_rows query (BasicMashup.processQuery self))
    (BasicMashup.fan_out upper self query).
Proof.
  intros Hret. rewrite fan_out_mapM.
  destruct (mapM_returns (activity_of_row upper self)
              (visited_rows query (BasicMashup.processQuery self))) as [acts Hacts].
  { intros row _. unfold activity_of_row.
    destruct (getEntityById_returns self (join_id row) Hret) as [e ->]. by eexists. }
  exists acts. split; [done|].
  apply mapM_Forall2 in Hacts. eapply Forall2_impl; [exact Hacts|].
  intros row a (e & He & [= <-])%bind_Ok. exists e. split; [done|].
  unfold build_activity. by case_bool_decide.
Qed.

Lemma tool_loop self tool_name rows acc :
  for_each (BasicMashup.tool_row upper lower self tool_name) rows acc
  = ys ← mapM (λ row, e ← BasicMashup.getEntityById upper self (join_id row);
                      Ok (build_activity (as_referent e) row
                            (ToolList (BasicMashup.row_tools row))
                            (get_default row "technique" PNone)))
         (List.filter (BasicMashup.tool_matches lower tool_name) rows);
    Ok (acc ++ ys).
Proof.
  revert acc. induction rows as [|row rows IH]; intros acc.
  - simpl. by rewrite app_nil_r.
  - cbn [for_each List.filter].
    assert (BasicMashup.tool_row upper lower self tool_name acc row
            = if BasicMashup.tool_matches lower tool_name row
              then e ← BasicMashup.getEntityById upper self (join_id row);
                   Ok (acc ++ [build_activity (as_referent e) row
                                 (ToolList (BasicMashup.row_tools row))
                                 (get_default row "technique" PNone)])
              else Ok acc) as ->.
    { unfold BasicMashup.tool_row. by destruct (BasicMashup.tool_matches _ _ _). }
    destruct (BasicMashup.tool_matches lower tool_name row); [|apply IH].
    cbn [mapM].
    destruct (BasicMashup.getEntityById upper self (join_id row)) as [e|err]; simpl; [|done].
    rewrite IH. destruct (mapM _ _) as [ys|err]; simpl; [|done].
    by rewrite <- app_assoc.
Qed.

Lemma tool_joined self tool_name :
  lookups_return self →
  joined upper self (tool_rows lower tool_name (BasicMashup.processQuery self))
    (BasicMashup.getActivitiesUsingTool upper lower self tool_name).
Proof.
  intros Hret. unfold BasicMashup.getActivitiesUsingTool, tool_rows.
  destruct (BasicMashup.processQuery self) as [|first ps].
  { exists []. split; [done | constructor]. }
  rewrite tool_loop.
  match goal with |- context [mapM ?f ?l] =>
    destruct (mapM_returns f l) as [acts Hacts] end.
  { intros row _.
    destruct (getEntityById_returns self (join_id row) Hret) as [e ->]. by eexists. }
  rewrite Hacts. exists acts. split; [done|].
  apply mapM_Forall2 in Hacts. eapply Forall2_impl; [exact Hacts|].
  intros row a (e & He & [= <-])%bind_Ok. exists e. split; [done|].
  unfold build_activity. by case_bool_decide.
Qed.

Lemma technique_rows_referent self rows st (P : Act.t → Prop) :
  lookups_return self →
  (∀ a row, row ∈ rows → technique_referent upper self row a → P a) →
  Forall P st.1 →
  ∃ st', for_each (BasicMashup.technique_row upper self) rows st = Ok st'
         ∧ Forall P st'.1.
Proof.
  intros Hret. revert st. induction rows as [|row rows IH]; intros st HP Hst; simpl.
  { by exists st. }
  assert (∃ st1, BasicMashup.technique_row upper self st row = Ok st1 ∧ Forall P st1.1)
    as (st1 & -> & Hst1).
  { unfold BasicMashup.technique_row.
    destruct (truthy (get row "object_id") && bool_decide (get row "object_id" ∉ st.2));
      [|by exists st].
    fold (join_id row).
    destruct (getEntityById_returns self (join_id row) Hret) as [found Hfound].
    rewrite Hfound. simpl. case_bool_decide; [|by exists st].
    eexists. split; [done|]. simpl. apply Forall_app. split; [done|].
    constructor; [|done]. apply (HP _ row); [by left|].
    exists found. split; [done|]. unfold build_activity. by case_bool_decide. }
  simpl. apply IH; [|done]. intros a r Hr. apply HP. by right.
Qed.

Lemma technique_loop_referent self technique handlers st (P : Act.t → Prop) :
  lookups_return self →
  (∀ a row,
     row ∈ visited_rows
             (λ handler, ProcessDataQueryHandler.getAcquisitionsByTechnique like handler
                           technique) handlers →
     technique_referent upper self row a → P a) →
  Forall P st.1 →
  ∃ st', BasicMashup.technique_loop upper like self technique handlers st = Ok st'
         ∧ Forall P st'.1.
Proof.
  intros Hret. revert st. induction handlers as [|h hs IH]; intros st HP Hst.
  { by exists st. }
  unfold BasicMashup.technique_loop. simpl for_each.
  set (df := ProcessDataQueryHandler.getAcquisitionsByTechnique like h technique) in *.
  change (visited_rows _ (h :: hs))
    with ((if empty df then [] else iterrows df)
          ++ visited_rows (λ handler, ProcessDataQueryHandler.getAcquisitionsByTechnique
                                        like handler technique) hs) in HP.
  destruct (empty df); simpl negb; cbv iota.
  - simpl. apply IH; [|done]. intros a row Hrow. apply HP. by rewrite app_nil_l.
  - destruct (technique_rows_referent self (iterrows df) st P Hret) as (st1 & -> & Hst1);
      [|done|].
    { intros a row Hrow. apply HP. apply elem_of_app. by left. }
    simpl. apply IH; [|done]. intros a row Hrow. apply HP. apply elem_of_app. by right.
Qed.

(** C7, as the code has it: when no lookup raises, each of the six methods
    named below returns one activity per row it visits, and the activity's
    [refersTo] is what [getEntityById] returns for [str(object_id)] of the
    row: the entity, or [None] when no handler knows the identifier.
    [getAcquisitionsByTechnique] returns too, and each of its acquisitions
    refers to the object [getEntityById] returns for a row it visited, or to
    a place-holder object with the row's identifier when the lookup returns
    nothing or a person. *)
Theorem refersTo_is_the_lookup self :
  lookups_return self →
  let ps := BasicMashup.processQuery self in
  joined upper self (visited_rows ProcessDataQueryHandler.getAllActivities ps)
    (BasicMashup.getAllActivities upper self)
  ∧ (∀ s, joined upper self
            (visited_rows (λ h, ProcessDataQueryHandler.getActivitiesByResponsibleInstitution
                                  like h s) ps)
            (BasicMashup.getActivitiesByResponsibleInstitution upper like self s))
  ∧ (∀ s, joined upper self
            (visited_rows (λ h, ProcessDataQueryHandler.getActivitiesByResponsiblePerson
                                  like h s) ps)
            (BasicMashup.getActivitiesByResponsiblePerson upper like self s))
  ∧ (∀ d, joined upper self
            (visited_rows (λ h, ProcessDataQueryHandler.getActivitiesStartedAfter h d) ps)
            (BasicMashup.getActivitiesStartedAfter upper self d))
  ∧ (∀ d, joined upper self
            (visited_rows (λ h, ProcessDataQueryHandler.getActivitiesEndedBefore h d) ps)
            (BasicMashup.getActivitiesEndedBefore upper self d))
  ∧ (∀ s, joined upper self (tool_rows lower s ps)
            (BasicMashup.getActivitiesUsingTool upper lower self s))
  ∧ (∀ s, ∃ acts,
        BasicMashup.getAcquisitionsByTechnique upper like self s = Ok acts
        ∧ Forall (λ a, ∃ row,
                    row ∈ visited_rows
                            (λ h, ProcessDataQueryHandler.getAcquisitionsByTechnique like h s)
                            ps
                    ∧ technique_referent upper self row a) acts).
Proof.
  intros Hret ps. subst ps. repeat split.
  - rewrite getAllActivities_fan_out. by apply fan_out_joined.
  - intros s. by apply fan_out_joined.
  - intros s. by apply fan_out_joined.
  - intros d. by apply fan_out_joined.
  - intros d. by apply fan_out_joined.
  - intros s. by apply tool_joined.
  - intros s. unfold BasicMashup.getAcquisitionsByTechnique.
    destruct (technique_loop_referent self s (BasicMashup.processQuery self) ([], ∅)
                (λ a, ∃ row,
                   row ∈ visited_rows
                           (λ h, ProcessDataQueryHandler.getAcquisitionsByTechnique like h s)
                           (BasicMashup.processQuery self)
                   ∧ technique_referent upper self row a) Hret)
      as (st & -> & Hst).
    + intros a row Hrow Ha. exists row. split; [exact Hrow | exact Ha].
    + constructor.
    + exists st.1. by split.
Qed.

End Join.

(** A handler whose backend always answers never raises on a lookup. *)
Lemma answering_lookups_return bindings ps :
  lookups_return (BasicMashup.mk [answering bindings] ps).
Proof.
  intros handler id_string ->%list_elem_of_singleton.
  unfold MetadataQueryHandler.getById. simpl. by eexists.
Qed.

(** On [catalogue], with the acquisition of the unknown [obj9]:
    [getAllActivities] returns the activity, referring to nothing. *)
Lemma refersTo_is_the_lookup_obj9 :
  joined Instances.upper (BasicMashup.mk [catalogue] [scan_of_obj9])
    (visited_rows ProcessDataQueryHandler.getAllActivities [scan_of_obj9])
    (BasicMashup.getAllActivities Instances.upper (BasicMashup.mk [catalogue] [scan_of_obj9])).
Proof.
  destruct (refersTo_is_the_lookup Instances.upper Instances.lower Instances.like
              (BasicMashup.mk [catalogue] [scan_of_obj9])) as [H _].
  - intros handler id_string ->%list_elem_of_singleton.
    unfold MetadataQueryHandler.getById. simpl. by eexists.
  - exact H.
Defined.

(** The claim C7 fails on [getAcquisitionsByTechnique] and on
    [getActivitiesOnObjectsAuthoredBy]: for the acquisition of [obj9],
    which no handler knows, the first makes [refersTo] a place-holder
    object, not [None]; for the acquisition of [obj1], which the catalogue
    knows, the second makes [refersTo] the bare string. *)
Lemma refersTo_is_not_always_the_lookup :
  (∃ a,
     BasicMashup.getAcquisitionsByTechnique Instances.upper Instances.like
       (BasicMashup.mk [catalogue] [scan_of_obj9]) "X-ray" = Ok [a]
     ∧ BasicMashup.getEntityById Instances.upper
         (BasicMashup.mk [catalogue] [scan_of_obj9]) "obj9" = Ok None
     ∧ Act.refersTo a = Referent (AnObject (placeholder (PStr "obj9")))
     ∧ Act.refersTo a ≠ as_referent None)
  ∧ (∃ a e,
       AdvancedMashup.getActivitiesOnObjectsAuthoredBy
         (BasicMashup.mk [catalogue] [scan_of_obj1]) "VIAF:1" = Ok [a]
       ∧ BasicMashup.getEntityById Instances.upper
           (BasicMashup.mk [catalogue] [scan_of_obj1]) "obj1" = Ok (Some e)
       ∧ Act.refersTo a = ReferentId "obj1"
       ∧ Act.refersTo a ≠ as_referent (Some e)).
Proof.
  split.
  - eexists. split; [vm_compute; reflexivity|]. split; [vm_compute; reflexivity|].
    split; [reflexivity | discriminate].
  - eexists _, _. split; [vm_compute; reflexivity|]. split; [vm_compute; reflexivity|].
    split; [reflexivity | discriminate].
Qed.

Section JoinId.
Context (upper : string → string).

(** C2, as the code has it: [getAllActivities] returns one activity per
    visited row; when some metadata handler answers the lookup of the row's
    [object_id] with a non-empty table, the activity refers to the entity
    built from the first row of the first such answer in registration
    order, and the identifier of that entity is [object_id] itself for a
    VIAF or ULAN identifier, and otherwise the answer's [CulturalObject]
    (the URI of the resource) when that cell is true, [object_id] when it
    is absent or empty. *)
Theorem refersTo_id_of_known_object self acts :
  BasicMashup.getAllActivities upper self = Ok acts →
  Forall2 (λ row a,
      (∃ handler df, handler ∈ BasicMashup.metadataQuery self
         ∧ MetadataQueryHandler.getById handler (join_id row) = Ok df
         ∧ empty df = false) →
      ∃ pre handler post df first_row e,
        BasicMashup.metadataQuery self = pre ++ handler :: post
        ∧ Forall (answers_empty (join_id row)) pre
        ∧ MetadataQueryHandler.getById handler (join_id row) = Ok df
        ∧ empty df = false
        ∧ iloc df 0 = Ok first_row
        ∧ Act.refersTo a = Referent e
        ∧ entity_id e = if is_person_id upper (join_id row) then PStr (join_id row)
                        else py_or (get first_row "CulturalObject") (PStr (join_id row)))
    (visited_rows ProcessDataQueryHandler.getAllActivities (BasicMashup.processQuery self))
    acts.
Proof.
  rewrite getAllActivities_fan_out, fan_out_mapM, mapM_Forall2.
  intros Hacts. eapply Forall2_impl; [exact Hacts|]. clear Hacts.
  intros row a (e & He & [= <-])%bind_Ok (h0 & df0 & Hin & Hh0 & Hne0).
  pose proof He as Hget. unfold BasicMashup.getEntityById in He.
  apply bind_Ok in He as ([df|] & Hfound & _).
  - destruct (first_nonempty_inv _ _ _ Hfound) as (pre & h & post & Hms & Hpre & Hh & Hne).
    destruct (getEntityById_found upper self (join_id row) df Hfound)
      as (first_row & e' & Hrow & Hget' & He').
    rewrite Hget in Hget'. injection Hget' as ->.
    exists pre, h, post, df, first_row, e'. repeat split; try done.
    + unfold build_activity. by case_bool_decide.
    + destruct e' as [p|o]; simpl.
      * by destruct He' as (-> & -> & _).
      * by destruct He' as (-> & _ & -> & _).
  - apply first_nonempty_None in Hfound.
    rewrite Forall_forall in Hfound. destruct (Hfound h0 Hin) as (df' & Hdf' & He').
    congruence.
Qed.

End JoinId.

(** Scenario B of the specification on [catalogue] *)
Lemma refersTo_id_scenario_B :
  ∃ acts,
    BasicMashup.getAllActivities Instances.upper (BasicMashup.mk [catalogue] [scan_of_obj1])
      = Ok acts
    ∧ Forall2 (λ row a,
        (∃ handler df, handler ∈ [catalogue]
           ∧ MetadataQueryHandler.getById handler (join_id row) = Ok df
           ∧ empty df = false) →
        ∃ pre handler post df first_row e,
          [catalogue] = pre ++ handler :: post
          ∧ Forall (answers_empty (join_id row)) pre
          ∧ MetadataQueryHandler.getById handler (join_id row) = Ok df
          ∧ empty df = false
          ∧ iloc df 0 = Ok first_row
          ∧ Act.refersTo a = Referent e
          ∧ entity_id e = if is_person_id Instances.upper (join_id row)
                          then PStr (join_id row)
                          else py_or (get first_row "CulturalObject") (PStr (join_id row)))
      (visited_rows ProcessDataQueryHandler.getAllActivities [scan_of_obj1]) acts.
Proof.
  eexists. split; [reflexivity|].
  apply (refersTo_id_of_known_object Instances.upper
           (BasicMashup.mk [catalogue] [scan_of_obj1])).
  reflexivity.
Defined.

(** The claim C2 fails on scenario B as uploaded data makes it: the
    catalogue knows [obj1], and the acquisition of [obj1] refers to an
    object whose identifier is the URI of the resource, not ["obj1"]. *)
Lemma refersTo_id_is_the_resource_uri :
  ∃ df a o,
    MetadataQueryHandler.getById catalogue "obj1" = Ok df
    ∧ empty df = false
    ∧ BasicMashup.getAllActivities Instances.upper (BasicMashup.mk [catalogue] [scan_of_obj1])
      = Ok [a]
    ∧ Act.refersTo a = Referent (AnObject o)
    ∧ CHO.id o = PStr "https://github.com/baraldiruffer/ds24project/obj1"
    ∧ CHO.id o ≠ PStr "obj1".
Proof.
  eexists _, _, _. split; [vm_compute; reflexivity|]. split; [vm_compute; reflexivity|].
  split; [vm_compute; reflexivity|]. split; [reflexivity|].
  split; [reflexivity | discriminate].
Qed.

(** ** Which process handlers a method consults *)

Lemma on_objects_rows rows acc :
  foldl AdvancedMashup.on_objects_row acc rows
  = acc ++ foldl AdvancedMashup.on_objects_row [] rows.
Proof.
  revert acc. induction rows as [|row rows IH]; intros acc; simpl.
  - by rewrite app_nil_r.
  - rewrite IH. rewrite (IH (AdvancedMashup.on_objects_row [] row)).
    unfold AdvancedMashup.on_objects_row. by rewrite app_assoc.
Qed.

Lemma on_objects_handlers ids handlers acc :
  let body := λ all_activities handler,
    let all_activities_df := ProcessDataQueryHandler.getAllActivities handler in
    if empty all_activities_df
       || negb (bool_decide ("object_id" ∈ columns all_activities_df))
    then all_activities
    else foldl AdvancedMashup.on_objects_row all_activities
           (iterrows (AdvancedMashup.select_ids all_activities_df "object_id" ids)) in
  foldl body acc handlers = acc ++ foldl body [] handlers.
Proof.
  intros body. revert acc. induction handlers as [|h hs IH]; intros acc; simpl.
  - by rewrite app_nil_r.
  - rewrite IH. rewrite (IH (body [] h)). rewrite app_assoc. f_equal.
    unfold body. destruct (_ || _); [by rewrite app_nil_r|].
    apply on_objects_rows.
Qed.

Section FanOut.
Context (upper lower : string → string) (like : string → string → bool).

Lemma fan_out_app ms ps1 ps2 query :
  BasicMashup.fan_out upper (BasicMashup.mk ms (ps1 ++ ps2)) query
  = l1 ← BasicMashup.fan_out upper (BasicMashup.mk ms ps1) query;
    l2 ← BasicMashup.fan_out upper (BasicMashup.mk ms ps2) query;
    Ok (l1 ++ l2).
Proof.
  rewrite !fan_out_mapM. simpl BasicMashup.processQuery.
  rewrite visited_rows_app, mapM_app. reflexivity.
Qed.

(** [getEntityById] reads the metadata handlers only. *)
Lemma technique_loop_handlers ms ps ps' s handlers st :
  BasicMashup.technique_loop upper like (BasicMashup.mk ms ps) s handlers st
  = BasicMashup.technique_loop upper like (BasicMashup.mk ms ps') s handlers st.
Proof. reflexivity. Qed.

Lemma technique_loop_app self s handlers1 handlers2 st :
  BasicMashup.technique_loop upper like self s (handlers1 ++ handlers2) st
  = st1 ← BasicMashup.technique_loop upper like self s handlers1 st;
    BasicMashup.technique_loop upper like self s handlers2 st1.
Proof. unfold BasicMashup.technique_loop. apply for_each_app. Qed.

(** C5, as the code has it: [getActivitiesUsingTool] reads the first
    registered process handler and no other.  [getAllActivities], the
    filters by institution, person, start and end date,
    [getActivitiesOnObjectsAuthoredBy] and also [getAcquisitionsByTechnique]
    go through all registered process handlers in registration order: over
    a list of handlers cut in two, the result is what the first part
    yields followed by what the second part yields; for
    [getAcquisitionsByTechnique] the second part is run from the list and
    the set of seen identifiers that the first part leaves. *)
Theorem process_handlers_consulted ms ps1 ps2 :
  (∀ p ps tool_name,
     BasicMashup.getActivitiesUsingTool upper lower (BasicMashup.mk ms (p :: ps)) tool_name
     = BasicMashup.getActivitiesUsingTool upper lower (BasicMashup.mk ms [p]) tool_name)
  ∧ BasicMashup.getAllActivities upper (BasicMashup.mk ms (ps1 ++ ps2))
    = (l1 ← BasicMashup.getAllActivities upper (BasicMashup.mk ms ps1);
       l2 ← BasicMashup.getAllActivities upper (BasicMashup.mk ms ps2);
       Ok (l1 ++ l2))
  ∧ (∀ s, BasicMashup.getActivitiesByResponsibleInstitution upper like
            (BasicMashup.mk ms (ps1 ++ ps2)) s
          = (l1 ← BasicMashup.getActivitiesByResponsibleInstitution upper like
                    (BasicMashup.mk ms ps1) s;
             l2 ← BasicMashup.getActivitiesByResponsibleInstitution upper like
                    (BasicMashup.mk ms ps2) s;
             Ok (l1 ++ l2)))
  ∧ (∀ s, BasicMashup.getActivitiesByResponsiblePerson upper like
            (BasicMashup.mk ms (ps1 ++ ps2)) s
          = (l1 ← BasicMashup.getActivitiesByResponsiblePerson upper like
                    (BasicMashup.mk ms ps1) s;
             l2 ← BasicMashup.getActivitiesByResponsiblePerson upper like
                    (BasicMashup.mk ms ps2) s;
             Ok (l1 ++ l2)))
  ∧ (∀ d, BasicMashup.getActivitiesStartedAfter upper (BasicMashup.mk ms (ps1 ++ ps2)) d
          = (l1 ← BasicMashup.getActivitiesStartedAfter upper (BasicMashup.mk ms ps1) d;
             l2 ← BasicMashup.getActivitiesStartedAfter upper (BasicMashup.mk ms ps2) d;
             Ok (l1 ++ l2)))
  ∧ (∀ d, BasicMashup.getActivitiesEndedBefore upper (BasicMashup.mk ms (ps1 ++ ps2)) d
          = (l1 ← BasicMashup.getActivitiesEndedBefore upper (BasicMashup.mk ms ps1) d;
             l2 ← BasicMashup.getActivitiesEndedBefore upper (BasicMashup.mk ms ps2) d;
             Ok (l1 ++ l2)))
  ∧ (∀ s, AdvancedMashup.getActivitiesOnObjectsAuthoredBy (BasicMashup.mk ms (ps1 ++ ps2)) s
          = (l1 ← AdvancedMashup.getActivitiesOnObjectsAuthoredBy (BasicMashup.mk ms ps1) s;
             l2 ← AdvancedMashup.getActivitiesOnObjectsAuthoredBy (BasicMashup.mk ms ps2) s;
             Ok (l1 ++ l2)))
  ∧ (∀ s, BasicMashup.getAcquisitionsByTechnique upper like (BasicMashup.mk ms (ps1 ++ ps2)) s
          = (st1 ← BasicMashup.technique_loop upper like (BasicMashup.mk ms ps1) s ps1 ([], ∅);
             st2 ← BasicMashup.technique_loop upper like (BasicMashup.mk ms ps2) s ps2 st1;
             Ok st2.1)).
Proof.
  split; [reflexivity|].
  split; [rewrite !getAllActivities_fan_out; apply fan_out_app|].
  split; [intros; apply fan_out_app|].
  split; [intros; apply fan_out_app|].
  split; [intros; apply fan_out_app|].
  split; [intros; apply fan_out_app|].
  split.
  - intros s. unfold AdvancedMashup.getActivitiesOnObjectsAuthoredBy.
    simpl BasicMashup.metadataQuery. simpl BasicMashup.processQuery.
    destruct ms as [|first ms']; [done|].
    destruct (MetadataQueryHandler.getCulturalHeritageObjectsAuthoredBy first s)
      as [objects_df|e]; simpl; [|done].
    destruct (_ || _); simpl; [done|].
    destruct (column objects_df "id") as [ids|e]; simpl; [|done].
    rewrite foldl_app, on_objects_handlers. reflexivity.
  - intros s. unfold BasicMashup.getAcquisitionsByTechnique.
    simpl BasicMashup.processQuery. rewrite technique_loop_app.
    rewrite (technique_loop_handlers ms (ps1 ++ ps2) ps1 s ps1).
    destruct (BasicMashup.technique_loop upper like (BasicMashup.mk ms ps1) s ps1 ([], ∅))
      as [st1|e]; simpl; [|done].
    by rewrite (technique_loop_handlers ms (ps1 ++ ps2) ps2 s ps2).
Qed.

End FanOut.

(** The claim C5 fails on [getAcquisitionsByTechnique]: with the
    acquisition of [obj1] in a first store and that of [obj2] in a second,
    both by X-ray, the method returns two acquisitions, the second from
    the second handler; with the first handler alone it returns one. *)
Lemma technique_consults_every_handler :
  ∃ a1 a2,
    BasicMashup.getAcquisitionsByTechnique Instances.upper Instances.like
      (BasicMashup.mk [catalogue] [scan_of_obj1; scan_of_obj2]) "X-ray" = Ok [a1; a2]
    ∧ BasicMashup.getAcquisitionsByTechnique Instances.upper Instances.like
        (BasicMashup.mk [catalogue] [scan_of_obj1]) "X-ray" = Ok [a1]
    ∧ Act.refersTo a2 = Referent (AnObject (placeholder (PStr "obj2")))
    ∧ Act.start a2 = PStr "2021-06-01".
Proof.
  eexists _, _. split; [vm_compute; reflexivity|]. split; [vm_compute; reflexivity|].
  split; reflexivity.
Qed.

(** ** Rebuilding objects from rows *)

Lemma for_each_invariant {A S} (I : S → Prop) (body : S → A → result S) l s s' :
  (∀ s x s', I s → body s x = Ok s' → I s') →
  I s → for_each body l s = Ok s' → I s'.
Proof.
  intros Hbody. revert s. induction l as [|x l IH]; intros s Hs; simpl.
  - by intros [= <-].
  - intros (s1 & Hs1 & Hl)%bind_Ok. eapply IH; [|exact Hl]. by eapply Hbody.
Qed.

Lemma foldl_invariant {A S} (I : S → Prop) (body : S → A → S) l s :
  (∀ s x, I s → I (body s x)) → I s → I (foldl body s l).
Proof.
  intros Hbody. revert s. induction l as [|x l IH]; intros s Hs; simpl; [done|].
  apply IH. by apply Hbody.
Qed.

Lemma item_get row c v : item row c = Ok v → get row c = v.
Proof.
  unfold item, get, get_default. case_bool_decide; [by intros [= <-] | done].
Qed.




(** The loop of [getAllCulturalHeritageObjects] raises nothing of its own. *)
Lemma objects_loop_returns handlers st :
  (∀ h, h ∈ handlers → returns (MetadataQueryHandler.getAllCulturalHeritageObjects h)) →
  returns (for_each (λ st handler,
              df ← MetadataQueryHandler.getAllCulturalHeritageObjects handler;
              if negb (empty df) then Ok (foldl BasicMashup.objects_row st (iterrows df))
              else Ok st) handlers st).
Proof.
  revert st. induction handlers as [|h hs IH]; intros st Hret; simpl; [by eexists|].
  destruct (Hret h) as [df ->]; [by left|]. simpl.
  destruct (negb (empty df)); simpl; apply IH; intros; apply Hret; by right.
Qed.








(** ** The two listings *)














(** ** The filters of the process handler *)

Lemma filter_false {A} (l : list A) : List.filter (λ _, false) l = [].
Proof. by induction l. Qed.

Lemma cell_like_union_row like pattern type technique_ r :
  cell_like like "responsible_institute" pattern
      (ProcessDataQueryHandler.union_row type technique_ r)
    = ProcessDataQueryHandler.sql_like like (responsible_institute r) pattern
  ∧ cell_like like "responsible_person" pattern
        (ProcessDataQueryHandler.union_row type technique_ r)
      = ProcessDataQueryHandler.sql_like like (responsible_person r) pattern
  ∧ cell_like like "tool" pattern (ProcessDataQueryHandler.union_row type technique_ r)
      = ProcessDataQueryHandler.sql_like like (tool r) pattern
  ∧ cell_like like "technique" pattern (ProcessDataQueryHandler.union_row type technique_ r)
      = ProcessDataQueryHandler.sql_like like technique_ pattern.
Proof.
  unfold cell_like.
  change (ProcessDataQueryHandler.union_row type technique_ r !! "responsible_institute")
    with (Some (sql_val (responsible_institute r))).
  change (ProcessDataQueryHandler.union_row type technique_ r !! "responsible_person")
    with (Some (sql_val (responsible_person r))).
  change (ProcessDataQueryHandler.union_row type technique_ r !! "tool")
    with (Some (sql_val (tool r))).
  change (ProcessDataQueryHandler.union_row type technique_ r !! "technique")
    with (Some (sql_val technique_)).
  by destruct (responsible_institute r), (responsible_person r), (tool r), technique_.
Qed.

(** X1: The two filters by name return exactly the rows of the union table
    whose [responsible_institute] (resp. [responsible_person]) is a string
    that matches [%s%] under [LIKE]; a row where the column is [NULL] is
    never returned. *)
Theorem like_filters_are_exact like (self : ProcessDataQueryHandler.t) (s : string) :
  rows (ProcessDataQueryHandler.getActivitiesByResponsibleInstitution like self s)
    = List.filter (cell_like like "responsible_institute" ("%" +:+ s +:+ "%"))
        (rows (ProcessDataQueryHandler.getAllActivities self))
  ∧ rows (ProcessDataQueryHandler.getActivitiesByResponsiblePerson like self s)
    = List.filter (cell_like like "responsible_person" ("%" +:+ s +:+ "%"))
        (rows (ProcessDataQueryHandler.getAllActivities self)).
Proof.
  unfold ProcessDataQueryHandler.getActivitiesByResponsibleInstitution,
    ProcessDataQueryHandler.getActivitiesByResponsiblePerson,
    ProcessDataQueryHandler.getAllActivities.
  destruct (ProcessDataQueryHandler.db self) as [d|]; [|done]. simpl rows. split.
  - symmetry. apply union_all_filter. intros. apply cell_like_union_row.
  - symmetry. apply union_all_filter. intros. apply cell_like_union_row.
Qed.

Lemma is_acquisition_union_row type technique_ r :
  is_acquisition (ProcessDataQueryHandler.union_row type technique_ r)
  = String.eqb type "Acquisition".
Proof.
  unfold is_acquisition.
  change (ProcessDataQueryHandler.union_row type technique_ r !! "type")
    with (Some (PStr type)).
  destruct (String.eqb_spec type "Acquisition") as [->|Hne].
  - by apply bool_decide_eq_true.
  - apply bool_decide_eq_false. congruence.
Qed.

(** X2: [getAcquisitionsByTechnique] of the handler returns nothing when the
    path is the empty string; otherwise exactly the rows of the union table
    that stem from [Acquisition] and whose technique is a string matching
    [%s%]: no row of the four other tables, and no row without technique. *)
Theorem technique_filter_reads_acquisitions_only like
    (self : ProcessDataQueryHandler.t) (s : string) :
  rows (ProcessDataQueryHandler.getAcquisitionsByTechnique like self s)
  = if String.eqb (ProcessDataQueryHandler.db_path self) "" then []
    else List.filter (λ r, is_acquisition r
                           && cell_like like "technique" ("%" +:+ s +:+ "%") r)
           (rows (ProcessDataQueryHandler.getAllActivities self)).
Proof.
  unfold ProcessDataQueryHandler.getAcquisitionsByTechnique,
    ProcessDataQueryHandler.getAllActivities.
  destruct (String.eqb _ ""); [done|].
  destruct (ProcessDataQueryHandler.db self) as [d|]; [|done]. simpl rows.
  unfold ProcessDataQueryHandler.union_all.
  rewrite !List.filter_app, !filter_fmap, !filter_true.
  assert (∀ type (l : list activity_row), type ≠ "Acquisition" →
            List.filter (λ r, is_acquisition
                                (ProcessDataQueryHandler.union_row type None r)
                              && cell_like like "technique" ("%" +:+ s +:+ "%")
                                   (ProcessDataQueryHandler.union_row type None r)) l
            = []) as Hother.
  { intros type l Hne. rewrite (List.filter_ext _ (λ _, false)); [apply filter_false|].
    intros r. rewrite is_acquisition_union_row.
    by destruct (String.eqb_spec type "Acquisition"). }
  rewrite !Hother by done. rewrite !fmap_nil, !app_nil_r.
  apply (f_equal (fmap _)), List.filter_ext. intros a.
  rewrite is_acquisition_union_row. simpl. symmetry. apply cell_like_union_row.
Qed.

Lemma retagged_using_tool_row type technique_ r :
  retagged (ProcessDataQueryHandler.using_tool_row type technique_ r)
  = ProcessDataQueryHandler.union_row type technique_ r.
Proof. reflexivity. Qed.

(** X3: [getActivitiesUsingTool] of the handler returns the rows of the union
    table whose [tool] is a string matching [%s%], with the type tag under
    the column [activity_type]: its table has no column [type]. *)
Theorem using_tool_filter_renames_the_tag like (self : ProcessDataQueryHandler.t)
    (s : string) :
  retagged <$> rows (ProcessDataQueryHandler.getActivitiesUsingTool like self s)
    = List.filter (cell_like like "tool" ("%" +:+ s +:+ "%"))
        (rows (ProcessDataQueryHandler.getAllActivities self))
  ∧ ("type" ∉ columns (ProcessDataQueryHandler.getActivitiesUsingTool like self s))
  ∧ Forall (λ r : gmap string pyval, (r !! "type") = None)
      (rows (ProcessDataQueryHandler.getActivitiesUsingTool like self s)).
Proof.
  unfold ProcessDataQueryHandler.getActivitiesUsingTool,
    ProcessDataQueryHandler.getAllActivities.
  destruct (ProcessDataQueryHandler.db self) as [d|]; [|by repeat split]. simpl.
  split; [|split].
  - rewrite union_all_fmap.
    rewrite (union_all_filter d _ (λ r, ProcessDataQueryHandler.sql_like like (tool r)
                                         ("%" +:+ s +:+ "%")));
      [|intros; apply cell_like_union_row].
    reflexivity.
  - by vm_compute.
  - unfold ProcessDataQueryHandler.union_all. rewrite !Forall_app, !Forall_fmap.
    repeat split; by apply Forall_forall.
Qed.

(** ** What the activities of the mashup carry *)

Lemma elem_of_concat {A} (x : A) (ls : list (list A)) :
  x ∈ concat ls ↔ ∃ l, x ∈ l ∧ l ∈ ls.
Proof.
  induction ls as [|l' ls IH]; simpl.
  - split; [by intros ?%elem_of_nil | by intros (l & _ & ?%elem_of_nil)].
  - rewrite elem_of_app, IH. split.
    + intros [H|(l & H1 & H2)]; [exists l'; split; [done|left] | exists l; split; [done|by right]].
    + intros (l & Hx & [->|Hl]%elem_of_cons); [by left | right; by exists l].
Qed.

Lemma elem_of_union_all d where_ select (r : gmap string pyval) :
  r ∈ ProcessDataQueryHandler.union_all d where_ select →
  ∃ type technique_ ar,
    in_table d type technique_ ar ∧ where_ ar = true ∧ r = select type technique_ ar.
Proof.
  unfold ProcessDataQueryHandler.union_all, in_table.
  rewrite !elem_of_app, !list_elem_of_fmap.
  intros [(a & -> & Ha)|[(ar & -> & Ha)|[(ar & -> & Ha)|[(ar & -> & Ha)|(ar & -> & Ha)]]]];
    apply list_elem_of_In, List.filter_In in Ha as [Ha%list_elem_of_In Hw].
  - exists "Acquisition", (technique a), (shared a). split; [|done].
    left. split; [done|]. by destruct a.
  - exists "Processing", None, ar. split; [|done]. right. split; [done|]. tauto.
  - exists "Modelling", None, ar. split; [|done]. right. split; [done|]. tauto.
  - exists "Optimising", None, ar. split; [|done]. right. split; [done|]. tauto.
  - exists "Exporting", None, ar. split; [|done]. right. split; [done|]. tauto.
Qed.

Lemma reads_as_union_row type technique_ r :
  reads_as (mkSeries ProcessDataQueryHandler.union_columns
              (ProcessDataQueryHandler.union_row type technique_ r)) type technique_ r.
Proof. repeat split. Qed.

Lemma reads_as_dated_row date type technique_ r :
  reads_as (mkSeries ({["id"]} ∪ ProcessDataQueryHandler.union_columns)
              (ProcessDataQueryHandler.dated_row date type technique_ r)) type technique_ r.
Proof. repeat split. Qed.

Lemma union_query_getAllActivities :
  union_query (λ _, true) ProcessDataQueryHandler.getAllActivities.
Proof.
  intros h. unfold ProcessDataQueryHandler.getAllActivities.
  destruct (ProcessDataQueryHandler.db h) as [d|]; [|done].
  eexists _, _. split; [done|]. apply reads_as_union_row.
Qed.

Lemma union_query_institution like s :
  union_query (λ r, ProcessDataQueryHandler.sql_like like (responsible_institute r)
                      ("%" +:+ s +:+ "%"))
    (λ h, ProcessDataQueryHandler.getActivitiesByResponsibleInstitution like h s).
Proof.
  intros h. unfold ProcessDataQueryHandler.getActivitiesByResponsibleInstitution.
  destruct (ProcessDataQueryHandler.db h) as [d|]; [|done].
  eexists _, _. split; [done|]. apply reads_as_union_row.
Qed.

Lemma union_query_person like s :
  union_query (λ r, ProcessDataQueryHandler.sql_like like (responsible_person r)
                      ("%" +:+ s +:+ "%"))
    (λ h, ProcessDataQueryHandler.getActivitiesByResponsiblePerson like h s).
Proof.
  intros h. unfold ProcessDataQueryHandler.getActivitiesByResponsiblePerson.
  destruct (ProcessDataQueryHandler.db h) as [d|]; [|done].
  eexists _, _. split; [done|]. apply reads_as_union_row.
Qed.

Lemma union_query_started d :
  union_query (λ r, ProcessDataQueryHandler.sql_ge (start_date r) d
                    && ProcessDataQueryHandler.sql_nonempty (start_date r))
    (λ h, ProcessDataQueryHandler.getActivitiesStartedAfter h d).
Proof.
  intros h. unfold ProcessDataQueryHandler.getActivitiesStartedAfter.
  destruct (ProcessDataQueryHandler.db h) as [db|]; [|done].
  eexists _, _. split; [done|]. apply reads_as_dated_row.
Qed.

Lemma union_query_ended d :
  union_query (λ r, ProcessDataQueryHandler.sql_le (end_date r) d
                    && ProcessDataQueryHandler.sql_nonempty (end_date r))
    (λ h, ProcessDataQueryHandler.getActivitiesEndedBefore h d).
Proof.
  intros h. unfold ProcessDataQueryHandler.getActivitiesEndedBefore.
  destruct (ProcessDataQueryHandler.db h) as [db|]; [|done].
  eexists _, _. split; [done|]. apply reads_as_dated_row.
Qed.

(** A row visited by a loop over the handlers reads as a stored row of one
    of them that satisfies the [WHERE] clause. *)
Lemma visited_union_rows where_ query handlers row :
  union_query where_ query →
  row ∈ visited_rows query handlers →
  ∃ handler d type technique_ r,
    handler ∈ handlers
    ∧ ProcessDataQueryHandler.db handler = Readable d
    ∧ in_table d type technique_ r
    ∧ where_ r = true
    ∧ reads_as row type technique_ r.
Proof.
  intros Hq. unfold visited_rows.
  intros (rows_ & Hrow & (h & -> & Hh)%list_elem_of_fmap)%elem_of_concat.
  specialize (Hq h). destruct (ProcessDataQueryHandler.db h) as [d|] eqn:Hdb.
  - destruct Hq as (cols & select & Hqh & Hreads). rewrite Hqh in Hrow.
    destruct (empty _); [by apply elem_of_nil in Hrow|].
    unfold iterrows in Hrow. simpl in Hrow.
    apply list_elem_of_fmap in Hrow as (r & -> & Hr).
    apply elem_of_union_all in Hr as (type & technique_ & ar & Hin & Hw & ->).
    by exists h, d, type, technique_, ar.
  - rewrite Hq in Hrow. by apply elem_of_nil in Hrow.
Qed.

Lemma in_table_class d type technique_ r :
  in_table d type technique_ r →
  class_of_tag type ≠ Activity
  ∧ (class_of_tag type = Acquisition ↔ type = "Acquisition")
  ∧ (type ≠ "Acquisition" → technique_ = None).
Proof.
  intros [[-> _]|[-> [[-> _]|[[-> _]|[[-> _]|[-> _]]]]]]; repeat split; done.
Qed.

(** What [build_activity] makes of a row that reads as a stored row *)
Lemma build_activity_reads_as refersTo row tool technique_cell d type technique_ r :
  in_table d type technique_ r →
  reads_as row type technique_ r →
  let a := build_activity refersTo row tool technique_cell in
  Act.class a = class_of_tag type
  ∧ Act.refersTo a = refersTo
  ∧ Act.institute a = sql_val (responsible_institute r)
  ∧ Act.person a = sql_val (responsible_person r)
  ∧ Act.start a = sql_val (start_date r)
  ∧ Act.end_ a = sql_val (end_date r)
  ∧ Act.technique a = (if String.eqb type "Acquisition" then Some technique_cell else None).
Proof.
  intros Hin (_ & Hi & Hp & _ & _ & Hs & He & Ht). unfold build_activity.
  rewrite Hi, Hp, Hs, He, Ht.
  destruct Hin as [[-> _]|[-> [[-> _]|[[-> _]|[[-> _]|[-> _]]]]]]; repeat split; done.
Qed.

Section Carry.
Context (upper lower : string → string) (like : string → string → bool).

(** Every activity of a fan-out method is built from a stored row that
    satisfies the [WHERE] clause of the handler method. *)
Lemma fan_out_stored where_ query self acts :
  union_query where_ query →
  BasicMashup.fan_out upper self query = Ok acts →
  Forall (λ a, ∃ handler d type technique_ r,
            handler ∈ BasicMashup.processQuery self
            ∧ ProcessDataQueryHandler.db handler = Readable d
            ∧ in_table d type technique_ r
            ∧ where_ r = true
            ∧ Act.class a = class_of_tag type
            ∧ Act.institute a = sql_val (responsible_institute r)
            ∧ Act.person a = sql_val (responsible_person r)
            ∧ Act.tool a = tools_of_cell (tool r)
            ∧ Act.start a = sql_val (start_date r)
            ∧ Act.end_ a = sql_val (end_date r)
            ∧ Act.technique a = (if String.eqb type "Acquisition"
                                 then Some (sql_val technique_) else None)) acts.
Proof.
  intros Hq. rewrite fan_out_mapM. intros Hacts%mapM_Forall2.
  apply (Forall2_Forall_r _ _ _ _ Hacts), Forall_forall. intros row Hrow a Hbuild.
  destruct (visited_union_rows _ _ _ _ Hq Hrow)
    as (h & d & type & technique_ & r & Hh & Hdb & Hin & Hw & Hreads).
  unfold activity_of_row in Hbuild.
  apply bind_Ok in Hbuild as (e & _ & [= <-]).
  destruct (build_activity_reads_as (as_referent e) row (ToolValue (get row "tool"))
              (get row "technique") d type technique_ r Hin Hreads)
    as (Hc & _ & Hi & Hp & Hs & He & Ht).
  exists h, d, type, technique_, r. repeat split; try done.
  - destruct Hreads as (_ & _ & _ & _ & Htool & _).
    unfold build_activity. rewrite Htool.
    destruct (bool_decide _); simpl; by destruct (tool r).
  - destruct Hreads as (_ & _ & _ & Htech & _). by rewrite Ht, Htech.
Qed.


(** X4: Every activity returned by [getAllActivities] and by the filters by
    institution, person, start and end date is an instance of one of the five
    subclasses, never of the base class [Activity]; it has a technique
    exactly when it is an [Acquisition]; and its list of tools has at most
    one element, the [tool] cell as stored. *)
Theorem activities_carry_the_class_of_their_table self :
  let P := λ a, of_an_activity_subclass a
                ∧ (is_Some (Act.technique a) ↔ Act.class a = Acquisition)
                ∧ (List.length (Act.tool a) ≤ 1)%nat in
  (∀ acts, BasicMashup.getAllActivities upper self = Ok acts → Forall P acts)
  ∧ (∀ s acts, BasicMashup.getActivitiesByResponsibleInstitution upper like self s = Ok acts →
       Forall P acts)
  ∧ (∀ s acts, BasicMashup.getActivitiesByResponsiblePerson upper like self s = Ok acts →
       Forall P acts)
  ∧ (∀ d acts, BasicMashup.getActivitiesStartedAfter upper self d = Ok acts → Forall P acts)
  ∧ (∀ d acts, BasicMashup.getActivitiesEndedBefore upper self d = Ok acts → Forall P acts).
Proof.
  intros P.
  assert (∀ where_ query acts, union_query where_ query →
            BasicMashup.fan_out upper self query = Ok acts → Forall P acts) as Hfan.
  { intros where_ query acts Hq Hacts.
    eapply Forall_impl; [by eapply fan_out_stored|]. simpl.
    intros a (_ & d & type & technique_ & r & _ & _ & Hin & _ & Hc & _ & _ & Htool & _ & _ & Ht).
    destruct (in_table_class _ _ _ _ Hin) as (Hbase & Hacq & _).
    split; [unfold of_an_activity_subclass; by rewrite Hc|]. split.
    - rewrite Hc, Hacq, Ht. destruct (String.eqb_spec type "Acquisition"); split; try done.
    - rewrite Htool. destruct (tool r); simpl; lia. }
  split; [intros acts; rewrite getAllActivities_fan_out;
          apply (Hfan _ _ _ union_query_getAllActivities)|].
  split; [intros s acts; apply (Hfan _ _ _ (union_query_institution like s))|].
  split; [intros s acts; apply (Hfan _ _ _ (union_query_person like s))|].
  split; [intros d acts; apply (Hfan _ _ _ (union_query_started d))|].
  intros d acts; apply (Hfan _ _ _ (union_query_ended d)).
Qed.

(** X5: Every activity returned by [getActivitiesStartedAfter(d)] has a start
    date that is a non-empty string not below [d] in byte order, and every
    activity returned by [getActivitiesEndedBefore(d)] an end date that is a
    non-empty string not above [d]. *)
Theorem dated_activities_respect_the_bound self d :
  (∀ acts, BasicMashup.getActivitiesStartedAfter upper self d = Ok acts →
     Forall (λ a, ∃ s, Act.start a = PStr s ∧ s ≠ "" ∧ String.leb d s = true) acts)
  ∧ (∀ acts, BasicMashup.getActivitiesEndedBefore upper self d = Ok acts →
       Forall (λ a, ∃ s, Act.end_ a = PStr s ∧ s ≠ "" ∧ String.leb s d = true) acts).
Proof.
  split; intros acts Hacts.
  - eapply Forall_impl; [by eapply fan_out_stored, Hacts; apply union_query_started|]. simpl.
    intros a (_ & _ & _ & _ & r & _ & _ & _ & Hw & _ & _ & _ & _ & Hs & _).
    destruct (start_date r) as [s|]; [|done]. simpl in Hw.
    apply andb_true_iff in Hw as [Hge Hne]. exists s. repeat split; try done.
    intros ->. done.
  - eapply Forall_impl; [by eapply fan_out_stored, Hacts; apply union_query_ended|]. simpl.
    intros a (_ & _ & _ & _ & r & _ & _ & _ & Hw & _ & _ & _ & _ & _ & He & _).
    destruct (end_date r) as [s|]; [|done]. simpl in Hw.
    apply andb_true_iff in Hw as [Hle Hne]. exists s. repeat split; try done.
    intros ->. done.
Qed.

(** X6: Every activity returned by [getActivitiesByResponsibleInstitution(s)]
    has an institute that is a string matching [%s%] under [LIKE], and every
    activity returned by [getActivitiesByResponsiblePerson(s)] a person that
    is one: an activity whose column is [NULL] is never returned. *)
Theorem named_activities_match_the_name self s :
  (∀ acts, BasicMashup.getActivitiesByResponsibleInstitution upper like self s = Ok acts →
     Forall (λ a, ∃ v, Act.institute a = PStr v ∧ like v ("%" +:+ s +:+ "%") = true) acts)
  ∧ (∀ acts, BasicMashup.getActivitiesByResponsiblePerson upper like self s = Ok acts →
       Forall (λ a, ∃ v, Act.person a = PStr v ∧ like v ("%" +:+ s +:+ "%") = true) acts).
Proof.
  split; intros acts Hacts.
  - eapply Forall_impl;
      [by eapply fan_out_stored, Hacts; apply (union_query_institution like s)|]. simpl.
    intros a (_ & _ & _ & _ & r & _ & _ & _ & Hw & _ & Hi & _).
    destruct (responsible_institute r) as [v|]; [|done]. by exists v.
  - eapply Forall_impl;
      [by eapply fan_out_stored, Hacts; apply (union_query_person like s)|]. simpl.
    intros a (_ & _ & _ & _ & r & _ & _ & _ & Hw & _ & _ & Hp & _).
    destruct (responsible_person r) as [v|]; [|done]. by exists v.
Qed.

(** X7: Every activity returned by [getActivitiesUsingTool(tool_name)] has
    exactly one tool, and that tool contains [tool_name], both in lower
    case: an activity without tool is never returned. *)
Theorem tool_activities_use_the_tool self tool_name acts :
  BasicMashup.getActivitiesUsingTool upper lower self tool_name = Ok acts →
  Forall (λ a, ∃ t, Act.tool a = [t] ∧ contains (lower tool_name) (lower t) = true) acts.
Proof.
  unfold BasicMashup.getActivitiesUsingTool.
  destruct (BasicMashup.processQuery self) as [|first ps]; [by intros [= <-]|].
  rewrite tool_loop. intros (ys & Hys%mapM_Forall2 & [= <-])%bind_Ok. simpl.
  apply (Forall2_Forall_r _ _ _ _ Hys), Forall_forall.
  intros row [_ Hm]%list_elem_of_In%List.filter_In a (e & _ & [= <-])%bind_Ok.
  unfold BasicMashup.tool_matches in Hm. unfold build_activity.
  destruct (BasicMashup.row_tools row) as [|t [|t' ts]] eqn:Ht; simpl in Hm; try done.
  - exists t. rewrite orb_false_r in Hm. split; [|done].
    by destruct (bool_decide _).
  - unfold BasicMashup.row_tools in Ht. by destruct (get_default row "tool" PNone).
Qed.

End Carry.

(** On the store of scenario B: the acquisition made with the tool
    [Scanner] is returned for [scan]. *)
Lemma tool_activities_use_the_tool_on_scan :
  ∃ acts,
    BasicMashup.getActivitiesUsingTool Instances.upper Instances.lower
      (BasicMashup.mk [catalogue] [scan_of_obj1]) "scan" = Ok acts
    ∧ acts ≠ []
    ∧ Forall (λ a, ∃ t, Act.tool a = [t]
                        ∧ contains (Instances.lower "scan") (Instances.lower t) = true) acts.
Proof.
  eexists. split; [vm_compute; reflexivity|]. split; [done|].
  apply (tool_activities_use_the_tool Instances.upper Instances.lower
           (BasicMashup.mk [catalogue] [scan_of_obj1]) "scan").
  vm_compute. reflexivity.
Defined.

(** On the store of scenario B: its one acquisition is an [Acquisition]
    with a technique and one tool. *)
Lemma activities_carry_the_class_of_their_table_on_scan :
  ∃ acts,
    BasicMashup.getAllActivities Instances.upper (BasicMashup.mk [catalogue] [scan_of_obj1])
      = Ok acts
    ∧ acts ≠ []
    ∧ Forall (λ a, of_an_activity_subclass a
                   ∧ (is_Some (Act.technique a) ↔ Act.class a = Acquisition)
                   ∧ (List.length (Act.tool a) ≤ 1)%nat) acts.
Proof.
  eexists. split; [vm_compute; reflexivity|]. split; [done|].
  apply (proj1 (activities_carry_the_class_of_their_table Instances.upper Instances.like
                  (BasicMashup.mk [catalogue] [scan_of_obj1]))).
  vm_compute. reflexivity.
Defined.

(** On the store of scenario B: the acquisition of May 2021 started after
    2021-01-01. *)
Lemma dated_activities_respect_the_bound_on_scan :
  ∃ acts,
    BasicMashup.getActivitiesStartedAfter Instances.upper
      (BasicMashup.mk [catalogue] [scan_of_obj1]) "2021-01-01" = Ok acts
    ∧ acts ≠ []
    ∧ Forall (λ a, ∃ s, Act.start a = PStr s ∧ s ≠ ""
                        ∧ String.leb "2021-01-01" s = true) acts.
Proof.
  eexists. split; [vm_compute; reflexivity|]. split; [done|].
  apply (proj1 (dated_activities_respect_the_bound Instances.upper
                  (BasicMashup.mk [catalogue] [scan_of_obj1]) "2021-01-01")).
  vm_compute. reflexivity.
Defined.

(** On the store of scenario B: the acquisition Grace is responsible for *)
Lemma named_activities_match_the_name_on_scan :
  ∃ acts,
    BasicMashup.getActivitiesByResponsiblePerson Instances.upper Instances.like
      (BasicMashup.mk [catalogue] [scan_of_obj1]) "grace" = Ok acts
    ∧ acts ≠ []
    ∧ Forall (λ a, ∃ v, Act.person a = PStr v
                        ∧ Instances.like v ("%" +:+ "grace" +:+ "%") = true) acts.
Proof.
  eexists. split; [vm_compute; reflexivity|]. split; [done|].
  apply (proj2 (named_activities_match_the_name Instances.upper Instances.like
                  (BasicMashup.mk [catalogue] [scan_of_obj1]) "grace")).
  vm_compute. reflexivity.
Defined.

(** ** A store that does not open *)

Lemma opens_false handler :
  opens handler = false → ProcessDataQueryHandler.db handler = SqliteError.
Proof. unfold opens. by destruct (ProcessDataQueryHandler.db handler). Qed.

Lemma visited_rows_opens query handlers :
  (∀ h, opens h = false → query h = DataFrame_empty) →
  visited_rows query (List.filter opens handlers) = visited_rows query handlers.
Proof.
  intros Hq. induction handlers as [|h hs IH]; [done|]. simpl List.filter.
  change (visited_rows query (h :: hs))
    with ((if empty (query h) then [] else iterrows (query h)) ++ visited_rows query hs).
  destruct (opens h) eqn:Hh.
  - change (visited_rows query (h :: List.filter opens hs))
      with ((if empty (query h) then [] else iterrows (query h))
              ++ visited_rows query (List.filter opens hs)).
    by rewrite IH.
  - by rewrite (Hq h Hh), IH.
Qed.

Lemma foldl_opens {S} (body : S → ProcessDataQueryHandler.t → S) handlers s :
  (∀ s h, opens h = false → body s h = s) →
  foldl body s (List.filter opens handlers) = foldl body s handlers.
Proof.
  intros Hbody. revert s. induction handlers as [|h hs IH]; intros s; [done|]. simpl.
  destruct (opens h) eqn:Hh; simpl; [apply IH|]. by rewrite (Hbody s h Hh).
Qed.

Section ConnectFailure.
Context (upper lower : string → string) (like : string → string → bool).

Lemma fan_out_opens ms ps query :
  (∀ h, opens h = false → query h = DataFrame_empty) →
  BasicMashup.fan_out upper (BasicMashup.mk ms ps) query
  = BasicMashup.fan_out upper (BasicMashup.mk ms (List.filter opens ps)) query.
Proof.
  intros Hq. rewrite !fan_out_mapM. simpl BasicMashup.processQuery.
  by rewrite (visited_rows_opens _ _ Hq).
Qed.

Lemma technique_loop_opens self s handlers st :
  BasicMashup.technique_loop upper like self s (List.filter opens handlers) st
  = BasicMashup.technique_loop upper like self s handlers st.
Proof.
  revert st. induction handlers as [|h hs IH]; intros st; [done|].
  simpl List.filter. destruct (opens h) eqn:Hh.
  - unfold BasicMashup.technique_loop in *. simpl for_each.
    destruct (if negb _ then _ else _); simpl; [apply IH | done].
  - rewrite IH. unfold BasicMashup.technique_loop. simpl for_each.
    unfold ProcessDataQueryHandler.getAcquisitionsByTechnique.
    rewrite (opens_false h Hh). by destruct (String.eqb _ "").
Qed.

(** X8: A process handler whose store does not open, [sqlite3.connect]
    raising [sqlite3.Error] at its path, is skipped by every method that
    loops over the process handlers: the result is the one of the mashup
    without it.  [getActivitiesUsingTool], which asks the first handler
    only, returns nothing when the store of that one does not open. *)
Theorem stores_that_do_not_open_are_skipped ms ps :
  let self := BasicMashup.mk ms ps in
  let self' := BasicMashup.mk ms (List.filter opens ps) in
  BasicMashup.getAllActivities upper self = BasicMashup.getAllActivities upper self'
  ∧ (∀ s, BasicMashup.getActivitiesByResponsibleInstitution upper like self s
          = BasicMashup.getActivitiesByResponsibleInstitution upper like self' s)
  ∧ (∀ s, BasicMashup.getActivitiesByResponsiblePerson upper like self s
          = BasicMashup.getActivitiesByResponsiblePerson upper like self' s)
  ∧ (∀ d, BasicMashup.getActivitiesStartedAfter upper self d
          = BasicMashup.getActivitiesStartedAfter upper self' d)
  ∧ (∀ d, BasicMashup.getActivitiesEndedBefore upper self d
          = BasicMashup.getActivitiesEndedBefore upper self' d)
  ∧ (∀ s, BasicMashup.getAcquisitionsByTechnique upper like self s
          = BasicMashup.getAcquisitionsByTechnique upper like self' s)
  ∧ (∀ s, AdvancedMashup.getActivitiesOnObjectsAuthoredBy self s
          = AdvancedMashup.getActivitiesOnObjectsAuthoredBy self' s)
  ∧ (∀ s, AdvancedMashup.getObjectsHandledByResponsiblePerson like self s
          = AdvancedMashup.getObjectsHandledByResponsiblePerson like self' s)
  ∧ (∀ s, AdvancedMashup.getObjectsHandledByResponsibleInstitution like self s
          = AdvancedMashup.getObjectsHandledByResponsibleInstitution like self' s)
  ∧ (∀ first ps' s, opens first = false →
       BasicMashup.getActivitiesUsingTool upper lower (BasicMashup.mk ms (first :: ps')) s
       = Ok []).
Proof.
  intros self self'.
  split; [rewrite !getAllActivities_fan_out; apply fan_out_opens;
          intros h Hh; unfold ProcessDataQueryHandler.getAllActivities;
          by rewrite (opens_false h Hh)|].
  split; [intros s; apply fan_out_opens; intros h Hh;
          unfold ProcessDataQueryHandler.getActivitiesByResponsibleInstitution;
          by rewrite (opens_false h Hh)|].
  split; [intros s; apply fan_out_opens; intros h Hh;
          unfold ProcessDataQueryHandler.getActivitiesByResponsiblePerson;
          by rewrite (opens_false h Hh)|].
  split; [intros s; apply fan_out_opens; intros h Hh;
          unfold ProcessDataQueryHandler.getActivitiesStartedAfter;
          by rewrite (opens_false h Hh)|].
  split; [intros s; apply fan_out_opens; intros h Hh;
          unfold ProcessDataQueryHandler.getActivitiesEndedBefore;
          by rewrite (opens_false h Hh)|].
  split.
  { intros s. unfold BasicMashup.getAcquisitionsByTechnique. simpl BasicMashup.processQuery.
    rewrite technique_loop_opens.
    by rewrite (technique_loop_handlers upper like ms (List.filter opens ps) ps). }
  split.
  { intros s. unfold AdvancedMashup.getActivitiesOnObjectsAuthoredBy. simpl.
    destruct ms as [|first ms']; [done|].
    destruct (MetadataQueryHandler.getCulturalHeritageObjectsAuthoredBy first s)
      as [objects_df|e]; simpl; [|done].
    destruct (empty objects_df || _); [done|].
    destruct (column objects_df "id") as [ids|e]; simpl; [|done].
    f_equal. symmetry. apply foldl_opens. intros acc h Hh.
    unfold ProcessDataQueryHandler.getAllActivities. by rewrite (opens_false h Hh). }
  assert (∀ query, (∀ h, opens h = false → query h = DataFrame_empty) →
            AdvancedMashup.collect_object_ids self query
            = AdvancedMashup.collect_object_ids self' query) as Hids.
  { intros query Hq. unfold AdvancedMashup.collect_object_ids. simpl.
    symmetry. apply foldl_opens. intros acc h Hh. by rewrite (Hq h Hh). }
  split.
  { intros s. unfold AdvancedMashup.getObjectsHandledByResponsiblePerson.
    rewrite Hids; [done|]. intros h Hh.
    unfold ProcessDataQueryHandler.getActivitiesByResponsiblePerson.
    by rewrite (opens_false h Hh). }
  split.
  { intros s. unfold AdvancedMashup.getObjectsHandledByResponsibleInstitution.
    rewrite Hids; [done|]. intros h Hh.
    unfold ProcessDataQueryHandler.getActivitiesByResponsibleInstitution.
    by rewrite (opens_false h Hh). }
  intros first ps' s Hh. unfold BasicMashup.getActivitiesUsingTool. simpl.
  unfold ProcessDataQueryHandler.getAllActivities. by rewrite (opens_false first Hh).
Qed.

End ConnectFailure.

(** With a store that does not open registered before the store of scenario B:
    the acquisition of the second store is returned all the same, but not
    by [getActivitiesUsingTool]. *)
Lemma stores_that_do_not_open_are_skipped_before_scan :
  (∃ a, BasicMashup.getAllActivities Instances.upper
          (BasicMashup.mk [catalogue] [unopenable_store; scan_of_obj1]) = Ok [a])
  ∧ BasicMashup.getActivitiesUsingTool Instances.upper Instances.lower
      (BasicMashup.mk [catalogue] [unopenable_store; scan_of_obj1]) "Scanner" = Ok [].
Proof.
  split.
  - rewrite (proj1 (stores_that_do_not_open_are_skipped Instances.upper Instances.lower
                      Instances.like [catalogue] [unopenable_store; scan_of_obj1])).
    eexists. vm_compute. reflexivity.
  - apply (stores_that_do_not_open_are_skipped Instances.upper Instances.lower Instances.like
             [catalogue] []).
    reflexivity.
Defined.

(** ** One acquisition per object *)

Lemma technique_rows_are_acquisitions like s handlers row :
  row ∈ visited_rows
          (λ h, ProcessDataQueryHandler.getAcquisitionsByTechnique like h s) handlers →
  get row "type" = PStr "Acquisition".
Proof.
  unfold visited_rows.
  intros (rows_ & Hrow & (h & -> & Hh)%list_elem_of_fmap)%elem_of_concat.
  unfold ProcessDataQueryHandler.getAcquisitionsByTechnique in Hrow.
  destruct (String.eqb _ ""); [by apply elem_of_nil in Hrow|].
  destruct (ProcessDataQueryHandler.db h) as [d|]; [|by apply elem_of_nil in Hrow].
  destruct (empty _); [by apply elem_of_nil in Hrow|].
  unfold iterrows in Hrow. simpl in Hrow.
  apply list_elem_of_fmap in Hrow as (r & -> & (a & -> & _)%list_elem_of_fmap).
  apply reads_as_union_row.
Qed.

Lemma build_activity_acquisition refersTo row tool technique_cell :
  get row "type" = PStr "Acquisition" →
  build_activity refersTo row tool technique_cell
  = Act.init_acquisition refersTo (get row "responsible_institute") technique_cell
      (get row "responsible_person") (get row "start_date") (get row "end_date") tool.
Proof. intros Htype. unfold build_activity. by rewrite Htype. Qed.

Section OnePerObject.
Context (upper : string → string) (like : string → string → bool).

Lemma technique_row_inv self visited st row st' :
  get row "type" = PStr "Acquisition" →
  acquisitions_inv visited st →
  BasicMashup.technique_row upper self st row = Ok st' →
  acquisitions_inv (visited ++ [row]) st'.
Proof.
  intros Htype (Hset & Hsize & Hall). unfold BasicMashup.technique_row, acquisitions_inv.
  rewrite fmap_app, List.filter_app, list_to_set_app_L, <- Hset. simpl.
  destruct (truthy (get row "object_id")) eqn:Htruthy; simpl.
  - case_bool_decide as Hnew.
    + intros (found & _ & Hst')%bind_Ok.
      rewrite (build_activity_acquisition _ _ _ _ Htype) in Hst'. simpl in Hst'.
      injection Hst' as <-. simpl. split; [|split].
      * rewrite union_empty_r_L. apply union_comm_L.
      * rewrite length_app, size_union, size_singleton; [simpl; lia|].
        by apply disjoint_singleton_l.
      * apply Forall_app. split; [done|]. constructor; [|done]. split; [done|]. by eexists.
    + intros [= <-]. split; [|done]. rewrite union_empty_r_L.
      symmetry. rewrite union_comm_L. apply subseteq_union_1_L.
      by apply singleton_subseteq_l.
  - intros [= <-]. split; [|done]. by rewrite union_empty_r_L.
Qed.

Lemma technique_rows_inv self visited st rows st' :
  Forall (λ row, get row "type" = PStr "Acquisition") rows →
  acquisitions_inv visited st →
  for_each (BasicMashup.technique_row upper self) rows st = Ok st' →
  acquisitions_inv (visited ++ rows) st'.
Proof.
  intros Hrows. revert visited st.
  induction Hrows as [|row rows Hrow _ IH]; intros visited st Hinv; simpl.
  - intros [= <-]. by rewrite app_nil_r.
  - intros (st1 & Hst1 & Hst')%bind_Ok.
    rewrite (cons_middle row), app_assoc. eapply IH, Hst'.
    by eapply technique_row_inv.
Qed.

Lemma technique_loop_inv self s handlers visited st st' :
  acquisitions_inv visited st →
  BasicMashup.technique_loop upper like self s handlers st = Ok st' →
  acquisitions_inv
    (visited ++ visited_rows
                  (λ h, ProcessDataQueryHandler.getAcquisitionsByTechnique like h s) handlers)
    st'.
Proof.
  revert visited st. induction handlers as [|h hs IH]; intros visited st Hinv.
  - intros [= <-]. by rewrite app_nil_r.
  - unfold BasicMashup.technique_loop. simpl for_each.
    intros (st1 & Hst1 & Hst')%bind_Ok.
    change (visited_rows ?q (h :: hs))
      with ((if empty (q h) then [] else iterrows (q h)) ++ visited_rows q hs).
    rewrite app_assoc. eapply IH, Hst'.
    destruct (empty _) eqn:He; simpl in Hst1.
    + injection Hst1 as <-. by rewrite app_nil_r.
    + eapply technique_rows_inv, Hst1; [|done].
      apply Forall_forall. intros row Hrow.
      apply (technique_rows_are_acquisitions like s [h]).
      unfold visited_rows. simpl. rewrite He, app_nil_r. done.
Qed.

(** X9: [getAcquisitionsByTechnique] returns one acquisition per object: as
    many as there are distinct non-empty object identifiers among the rows
    the handlers answer with, whatever the number of matching rows per
    object; each is an [Acquisition] and refers to an object. *)
Theorem one_acquisition_per_object self s acts :
  BasicMashup.getAcquisitionsByTechnique upper like self s = Ok acts →
  List.length acts
  = size (list_to_set
            (List.filter truthy
               ((λ row, get row "object_id")
                  <$> visited_rows
                        (λ h, ProcessDataQueryHandler.getAcquisitionsByTechnique like h s)
                        (BasicMashup.processQuery self))) : gset pyval)
  ∧ Forall (λ a, Act.class a = Acquisition
                 ∧ ∃ o, Act.refersTo a = Referent (AnObject o)) acts.
Proof.
  unfold BasicMashup.getAcquisitionsByTechnique.
  intros (st & Hst & [= <-])%bind_Ok.
  apply (technique_loop_inv _ _ _ []) in Hst as (Hset & Hsize & Hall).
  - simpl in Hset. by rewrite Hsize, Hset.
  - split; [done|]. split; [done|]. constructor.
Qed.

End OnePerObject.

(** Two stores that hold an acquisition of [obj1] each: one is returned. *)
Lemma one_acquisition_per_object_on_two_scans :
  ∃ acts,
    BasicMashup.getAcquisitionsByTechnique Instances.upper Instances.like
      (BasicMashup.mk [catalogue] [scan_of_obj1; scan_of_obj1]) "X-ray" = Ok acts
    ∧ List.length acts = 1
    ∧ List.length (visited_rows
                     (λ h, ProcessDataQueryHandler.getAcquisitionsByTechnique
                             Instances.like h "X-ray") [scan_of_obj1; scan_of_obj1]) = 2.
Proof.
  eexists. split; [vm_compute; reflexivity|]. split; [|reflexivity].
  rewrite (proj1 (one_acquisition_per_object Instances.upper Instances.like
                    (BasicMashup.mk [catalogue] [scan_of_obj1; scan_of_obj1]) "X-ray" _
                    ltac:(vm_compute; reflexivity))).
  reflexivity.
Defined.

(** ** The metadata side of the mashup *)

(** A loop whose body appends a computed list per item *)
Lemma for_each_concat {A B} (g : A → result (list B)) (l : list A) (acc : list B) :
  for_each (λ acc x, ys ← g x; Ok (acc ++ ys)) l acc
  = yss ← mapM g l; Ok (acc ++ concat yss).
Proof.
  revert acc. induction l as [|x l IH]; intros acc; simpl.
  - by rewrite app_nil_r.
  - destruct (g x) as [ys|e]; simpl; [|done]. rewrite IH.
    destruct (mapM g l) as [yss|e]; simpl; [|done]. by rewrite app_assoc.
Qed.

Lemma authors_loop handlers object_id acc :
  for_each (λ authors_list metadata_qh,
      authors_df ← MetadataQueryHandler.getAuthorsOfCulturalHeritageObject
                     metadata_qh object_id;
      for_each (λ acc row,
          author_id ← item row "authorId";
          author_name ← item row "authorName";
          Ok (acc ++ [Person.mk author_id author_name]))
        (iterrows authors_df) authors_list)
    handlers acc
  = yss ← mapM (λ metadata_qh,
                  authors_df ← MetadataQueryHandler.getAuthorsOfCulturalHeritageObject
                                 metadata_qh object_id;
                  mapM (λ row, author_id ← item row "authorId";
                               author_name ← item row "authorName";
                               Ok (Person.mk author_id author_name))
                    (iterrows authors_df))
           handlers;
    Ok (acc ++ concat yss).
Proof.
  rewrite <- for_each_concat. apply for_each_ext. intros authors_list h.
  destruct (MetadataQueryHandler.getAuthorsOfCulturalHeritageObject h object_id)
    as [df|e]; simpl; [|done].
  rewrite <- for_each_mapM. apply for_each_ext. intros acc' row.
  destruct (item row "authorId"); simpl; [|done].
  by destruct (item row "authorName").
Qed.

(** X10: [getAuthorsOfCulturalHeritageObject] answers handler by handler: over
    the handlers [ms1 ++ ms2] it returns the authors found by [ms1] followed
    by those found by [ms2], without removing an author both lists hold. *)
Theorem authors_are_listed_handler_by_handler ms1 ms2 ps object_id :
  BasicMashup.getAuthorsOfCulturalHeritageObject (BasicMashup.mk (ms1 ++ ms2) ps) object_id
  = (l1 ← BasicMashup.getAuthorsOfCulturalHeritageObject (BasicMashup.mk ms1 ps) object_id;
     l2 ← BasicMashup.getAuthorsOfCulturalHeritageObject (BasicMashup.mk ms2 ps) object_id;
     Ok (l1 ++ l2)).
Proof.
  unfold BasicMashup.getAuthorsOfCulturalHeritageObject. simpl.
  rewrite !authors_loop, mapM_app. simpl.
  destruct (mapM _ ms1) as [yss1|e]; simpl; [|done].
  destruct (mapM _ ms2) as [yss2|e]; simpl; [|done].
  by rewrite concat_app.
Qed.

Lemma authored_row_builds df acc row acc' :
  BasicMashup.authored_row df acc row = Ok acc' →
  acc' = acc
  ∨ ∃ o, acc' = acc ++ [o]
         ∧ CHO.id o = PBuiltinId
         ∧ CHO.hasAuthor o = []
         ∧ CHO.author_id o = PNone
         ∧ CHO.author_name o = PNone
         ∧ CHO.title o = get row "title".
Proof.
  unfold BasicMashup.authored_row.
  intros (title & Ht%item_get & (date & _ & (owner & _ & (place & _ & H)%bind_Ok)%bind_Ok)
            %bind_Ok)%bind_Ok.
  apply bind_Ok in H as (author_id & _ & (author_name & _ & (type_name & _ & H)%bind_Ok)
                           %bind_Ok).
  destruct (dict_get class_map type_name) as [cls|]; injection H as <-; [|by left].
  right. eexists. split; [done|]. by repeat split.
Qed.

(** X11: [getCulturalHeritageObjectsAuthoredBy] asks the first metadata handler
    only and returns the empty list when there is none.  The objects it
    builds carry no identifier of the catalogue: their [id] is the builtin
    function [id], and they have no author. *)
Theorem authored_objects_carry_no_identifier first ms ps ps' input_id :
  BasicMashup.getCulturalHeritageObjectsAuthoredBy (BasicMashup.mk (first :: ms) ps) input_id
    = BasicMashup.getCulturalHeritageObjectsAuthoredBy (BasicMashup.mk [first] ps') input_id
  ∧ BasicMashup.getCulturalHeritageObjectsAuthoredBy (BasicMashup.mk [] ps) input_id = Ok []
  ∧ ∀ l, BasicMashup.getCulturalHeritageObjectsAuthoredBy (BasicMashup.mk (first :: ms) ps)
           input_id = Ok l →
         Forall (λ o, CHO.getId o = PBuiltinId
                      ∧ CHO.getAuthors o = []
                      ∧ CHO.author_id o = PNone
                      ∧ CHO.author_name o = PNone) l.
Proof.
  split; [done|]. split; [done|]. intros l.
  unfold BasicMashup.getCulturalHeritageObjectsAuthoredBy. simpl.
  intros (df & _ & Hl)%bind_Ok.
  destruct (empty df); simpl in Hl; [injection Hl as <-; constructor|].
  eapply (for_each_invariant (Forall _)), Hl; [|constructor].
  intros acc row acc' Hacc [->|(o & -> & Hid & Ha & Hai & Han & _)]%authored_row_builds;
    [done|].
  apply Forall_app. split; [done|]. by repeat constructor.
Qed.

(** On the catalogue: the painting authored by [VIAF:1] comes back without
    its identifier [obj1]. *)
Lemma authored_objects_carry_no_identifier_on_catalogue :
  ∃ o,
    BasicMashup.getCulturalHeritageObjectsAuthoredBy (BasicMashup.mk [catalogue] []) "VIAF:1"
      = Ok [o]
    ∧ CHO.getTitle o = PStr "Portrait"
    ∧ CHO.getId o = PBuiltinId
    ∧ CHO.getAuthors o = [].
Proof.
  eexists. split; [vm_compute; reflexivity|]. split; [reflexivity|].
  destruct (authored_objects_carry_no_identifier catalogue [] [] [] "VIAF:1")
    as (_ & _ & H).
  specialize (H _ ltac:(vm_compute; reflexivity)).
  apply Forall_cons in H as [(Hid & Ha & _) _]. by split.
Defined.

Lemma first_nonempty_app handlers1 handlers2 id_string :
  BasicMashup.first_nonempty (handlers1 ++ handlers2) id_string
  = (found ← BasicMashup.first_nonempty handlers1 id_string;
     match found with
     | Some df => Ok (Some df)
     | None => BasicMashup.first_nonempty handlers2 id_string
     end).
Proof.
  induction handlers1 as [|h hs IH]; simpl; [done|].
  destruct (MetadataQueryHandler.getById h id_string) as [df|e]; simpl; [|done].
  by destruct (empty df).
Qed.

Section Registration.
Context (upper : string → string).

(** X12: Registering one more metadata handler does not change an identifier
    lookup that already finds an entity; a lookup that finds nothing is then
    decided by the new handler alone.  Registering a process handler changes
    no lookup. *)
Theorem registration_keeps_the_answered_lookups self id_string handler :
  (∀ e, BasicMashup.getEntityById upper self id_string = Ok (Some e) →
     BasicMashup.getEntityById upper (BasicMashup.addMetadataHandler self handler).1 id_string
     = Ok (Some e))
  ∧ (BasicMashup.getEntityById upper self id_string = Ok None →
     BasicMashup.getEntityById upper (BasicMashup.addMetadataHandler self handler).1 id_string
     = BasicMashup.getEntityById upper
         (BasicMashup.mk [handler] (BasicMashup.processQuery self)) id_string)
  ∧ (∀ process_handler,
       BasicMashup.getEntityById upper
         (BasicMashup.addProcessHandler self process_handler).1 id_string
       = BasicMashup.getEntityById upper self id_string).
Proof.
  unfold BasicMashup.getEntityById. simpl. rewrite first_nonempty_app.
  split; [|split; [|done]].
  - intros e.
    destruct (BasicMashup.first_nonempty (BasicMashup.metadataQuery self) id_string)
      as [[df|]|err]; simpl; done.
  - destruct (BasicMashup.first_nonempty (BasicMashup.metadataQuery self) id_string)
      as [[df|]|err] eqn:Hfound; simpl; [|done|done].
    destruct (getEntityById_found upper self id_string df Hfound) as (row & e & _ & Hget & _).
    unfold BasicMashup.getEntityById in Hget. rewrite Hfound in Hget. simpl in Hget.
    rewrite Hget. done.
Qed.

(** X13: A metadata handler whose path is unset, empty or no HTTP(S) URL answers
    every lookup with the empty table, without asking its endpoint; the
    identifier lookup of the mashup passes over it. *)
Theorem handler_without_url_is_passed_over path endpoint :
  match path with
  | Some p => String.prefix "http://" p || String.prefix "https://" p = false
  | None => True
  end →
  let handler := MetadataQueryHandler.mk path endpoint in
  (∀ input_id, MetadataQueryHandler.getById handler input_id = Ok DataFrame_empty)
  ∧ ∀ pre post ps id_string,
      BasicMashup.getEntityById upper (BasicMashup.mk (pre ++ handler :: post) ps) id_string
      = BasicMashup.getEntityById upper (BasicMashup.mk (pre ++ post) ps) id_string.
Proof.
  intros Hpath handler.
  assert (∀ input_id, MetadataQueryHandler.getById handler input_id = Ok DataFrame_empty)
    as Hempty.
  { intros input_id. unfold MetadataQueryHandler.getById. simpl.
    destruct path as [p|]; [|done]. by rewrite Hpath. }
  split; [done|]. intros pre post ps id_string.
  unfold BasicMashup.getEntityById. simpl.
  rewrite !first_nonempty_app. simpl. by rewrite Hempty.
Qed.

End Registration.

(** On the catalogue: [obj1] is found, and still is once a catalogue that
    cannot be reached is registered after it. *)
Lemma registration_keeps_the_answered_lookups_on_catalogue :
  ∃ e,
    BasicMashup.getEntityById Instances.upper (BasicMashup.mk [catalogue] []) "obj1"
      = Ok (Some e)
    ∧ BasicMashup.getEntityById Instances.upper (BasicMashup.mk [catalogue; unreachable] [])
        "obj1" = Ok (Some e).
Proof.
  eexists. split; [vm_compute; reflexivity|].
  apply (proj1 (registration_keeps_the_answered_lookups Instances.upper
                  (BasicMashup.mk [catalogue] []) "obj1" unreachable)).
  vm_compute. reflexivity.
Defined.

(** A handler set to the path of the relational store, registered before
    the catalogue, leaves the lookup of [obj1] to the catalogue. *)
Lemma handler_without_url_is_passed_over_on_catalogue :
  MetadataQueryHandler.getById
    (MetadataQueryHandler.mk (Some "data/relational.db") (λ _, TransportFault)) "obj1"
    = Ok DataFrame_empty
  ∧ BasicMashup.getEntityById Instances.upper
      (BasicMashup.mk [MetadataQueryHandler.mk (Some "data/relational.db")
                         (λ _, TransportFault); catalogue] []) "obj1"
    = BasicMashup.getEntityById Instances.upper (BasicMashup.mk [catalogue] []) "obj1".
Proof.
  destruct (handler_without_url_is_passed_over Instances.upper (Some "data/relational.db")
              (λ _, TransportFault) eq_refl) as [Hget Hskip].
  split; [apply Hget | apply (Hskip [] [catalogue])].
Defined.

(** ** The advanced mashup *)

Lemma get_cell cols (r : gmap string pyval) c :
  c ∈ cols → get (mkSeries cols r) c = AdvancedMashup.cell r c.
Proof.
  intros Hc. unfold get, get_default, AdvancedMashup.cell. simpl.
  by rewrite bool_decide_eq_true_2.
Qed.

Lemma column_Ok df c cells :
  column df c = Ok cells →
  c ∈ columns df ∧ cells = (λ r, AdvancedMashup.cell r c) <$> rows df.
Proof.
  unfold column. case_bool_decide; [|done]. intros [= <-]. done.
Qed.

Lemma elem_of_select_ids df c ids row :
  row ∈ iterrows (AdvancedMashup.select_ids df c ids) →
  ∃ r, row = mkSeries (columns df) r
       ∧ r ∈ rows df
       ∧ py_str (AdvancedMashup.cell r c) ∈ ids.
Proof.
  unfold iterrows, AdvancedMashup.select_ids, select. simpl.
  intros (r & -> & [Hr Hin]%list_elem_of_In%List.filter_In)%list_elem_of_fmap.
  exists r. split; [done|]. split; [by apply list_elem_of_In|].
  by apply bool_decide_eq_true in Hin.
Qed.

Lemma elem_of_id_set x cells :
  x ∈ AdvancedMashup.id_set cells ↔ ∃ v, v ∈ cells ∧ x = py_str v.
Proof.
  unfold AdvancedMashup.id_set. rewrite elem_of_list_to_set, list_elem_of_fmap.
  split; intros (v & ? & ?); by exists v.
Qed.


Section Handled.
Context (like : string → string → bool).


Lemma collect_object_ids_elem where_ query self x :
  union_query where_ query →
  x ∈ AdvancedMashup.collect_object_ids self query →
  ∃ handler d type technique_ r,
    handler ∈ BasicMashup.processQuery self
    ∧ ProcessDataQueryHandler.db handler = Readable d
    ∧ in_table d type technique_ r
    ∧ where_ r = true
    ∧ x = py_str (sql_val (object_id r)).
Proof.
  intros Hq. unfold AdvancedMashup.collect_object_ids.
  assert (∀ handlers acc,
            x ∈ foldl (λ all_object_ids handler,
                   let activities_df := query handler in
                   if negb (empty activities_df)
                      && bool_decide ("object_id" ∈ columns activities_df)
                   then all_object_ids
                        ∪ AdvancedMashup.id_set
                            ((λ r, AdvancedMashup.cell r "object_id")
                               <$> rows activities_df)
                   else all_object_ids) acc handlers →
            x ∈ acc
            ∨ ∃ handler d type technique_ r,
                handler ∈ handlers
                ∧ ProcessDataQueryHandler.db handler = Readable d
                ∧ in_table d type technique_ r
                ∧ where_ r = true
                ∧ x = py_str (sql_val (object_id r))) as Hloop.
  { induction handlers as [|h hs IH]; intros acc; simpl; [by left|].
    intros [Hx|(h' & d & type & technique_ & r & Hh' & Hrest)]%IH.
    - destruct (negb _ && _) eqn:Hcond; [|by left].
      apply elem_of_union in Hx as [Hx|Hx]; [by left|]. right.
      apply elem_of_id_set in Hx as (v & (r & -> & Hr)%list_elem_of_fmap & ->).
      specialize (Hq h). destruct (ProcessDataQueryHandler.db h) as [d|] eqn:Hdb.
      + destruct Hq as (cols & select & Hqh & Hreads). rewrite Hqh in Hr, Hcond.
        simpl in Hr, Hcond.
        apply elem_of_union_all in Hr as (type & technique_ & ar & Hin & Hw & ->).
        exists h, d, type, technique_, ar. repeat split; try done; [by left|].
        apply andb_true_iff in Hcond as [_ Hcol%bool_decide_eq_true].
        destruct (Hreads type technique_ ar) as (Hid & _).
        by rewrite <- Hid, (get_cell _ _ _ Hcol).
      + rewrite Hq in Hr. by apply elem_of_nil in Hr.
    - right. exists h', d, type, technique_, r. split; [by right | done]. }
  intros [Hx|H]%Hloop; [by apply elem_of_empty in Hx | done].
Qed.

Lemma handled_rows objects_df ids :
  "id" ∈ columns objects_df →
  Forall (λ o, py_str (CHO.id o) ∈ ids)
    (AdvancedMashup.object_of_row <$> iterrows (AdvancedMashup.select_ids objects_df "id" ids)).
Proof.
  intros Hid. apply Forall_fmap, Forall_forall.
  intros row (r & -> & _ & Hin)%elem_of_select_ids. simpl.
  by rewrite (get_cell _ _ _ Hid).
Qed.

(** X15: Every object returned by [getObjectsHandledByResponsiblePerson(s)] has
    the identifier of a stored activity whose responsible person matches
    [%s%], in the store of some registered process handler; likewise for
    [getObjectsHandledByResponsibleInstitution] and the institute. *)
Theorem handled_objects_have_a_matching_activity self s :
  (∀ l, AdvancedMashup.getObjectsHandledByResponsiblePerson like self s = Ok l →
     Forall (λ o, ∃ handler d type technique_ r,
               handler ∈ BasicMashup.processQuery self
               ∧ ProcessDataQueryHandler.db handler = Readable d
               ∧ in_table d type technique_ r
               ∧ ProcessDataQueryHandler.sql_like like (responsible_person r)
                   ("%" +:+ s +:+ "%") = true
               ∧ py_str (CHO.getId o) = py_str (sql_val (object_id r))) l)
  ∧ (∀ l, AdvancedMashup.getObjectsHandledByResponsibleInstitution like self s = Ok l →
       Forall (λ o, ∃ handler d type technique_ r,
                 handler ∈ BasicMashup.processQuery self
                 ∧ ProcessDataQueryHandler.db handler = Readable d
                 ∧ in_table d type technique_ r
                 ∧ ProcessDataQueryHandler.sql_like like (responsible_institute r)
                     ("%" +:+ s +:+ "%") = true
                 ∧ py_str (CHO.getId o) = py_str (sql_val (object_id r))) l).
Proof.
  split; intros l.
  - unfold AdvancedMashup.getObjectsHandledByResponsiblePerson.
    destruct (BasicMashup.metadataQuery self) as [|first ms]; [done|].
    intros (objects_df & _ & Hl)%bind_Ok.
    destruct (empty objects_df); [injection Hl as <-; constructor|].
    apply bind_Ok in Hl as (cells & [Hid _]%column_Ok & [= <-]).
    eapply Forall_impl; [by apply handled_rows|]. simpl. intros o Ho.
    by apply (collect_object_ids_elem _ _ _ _ (union_query_person like s)) in Ho.
  - unfold AdvancedMashup.getObjectsHandledByResponsibleInstitution.
    destruct (BasicMashup.metadataQuery self) as [|first ms]; [done|].
    intros (objects_df & _ & Hl)%bind_Ok.
    apply bind_Ok in Hl as (cells & [Hid _]%column_Ok & [= <-]).
    eapply Forall_impl; [by apply handled_rows|]. simpl. intros o Ho.
    by apply (collect_object_ids_elem _ _ _ _ (union_query_institution like s)) in Ho.
Qed.

End Handled.


(** On the catalogue and the store of scenario B: [obj1], which Grace
    acquired, is the one object she handled. *)
Lemma handled_objects_have_a_matching_activity_on_scan :
  ∃ o,
    AdvancedMashup.getObjectsHandledByResponsiblePerson Instances.like
      (BasicMashup.mk [catalogue] [scan_of_obj1]) "Grace" = Ok [o]
    ∧ CHO.getId o = PStr "obj1"
    ∧ ∃ r, ProcessDataQueryHandler.sql_like Instances.like (responsible_person r)
             ("%" +:+ "Grace" +:+ "%") = true
           ∧ py_str (CHO.getId o) = py_str (sql_val (object_id r)).
Proof.
  eexists. split; [vm_compute; reflexivity|]. split; [reflexivity|].
  destruct (handled_objects_have_a_matching_activity Instances.like
              (BasicMashup.mk [catalogue] [scan_of_obj1]) "Grace") as [H _].
  specialize (H _ ltac:(vm_compute; reflexivity)).
  apply Forall_cons in H as [(_ & _ & _ & _ & r & _ & _ & _ & Hlike & Hid) _].
  by exists r.
Defined.

(** X16: Every object returned by [getCulturalHeritageObjectsByAuthorAndOwner]
    has [personId] as the identifier of its author or as its own
    identifier. *)
Theorem objects_by_author_and_owner_match_the_person self personId owner l :
  AdvancedMashup.getCulturalHeritageObjectsByAuthorAndOwner self personId owner = Ok l →
  Forall (λ o, CHO.author_id o = PStr personId ∨ CHO.getId o = PStr personId) l.
Proof.
  unfold AdvancedMashup.getCulturalHeritageObjectsByAuthorAndOwner.
  destruct (BasicMashup.metadataQuery self) as [|first ms]; [done|].
  intros (owner_df & _ & Hl)%bind_Ok.
  destruct (empty owner_df || negb (bool_decide ("id" ∈ columns owner_df))) eqn:Hcond;
    [injection Hl as <-; constructor|].
  apply orb_false_iff in Hcond as [_ Hid%negb_false_iff%bool_decide_eq_true].
  apply bind_Ok in Hl as (cells & [Hauthor _]%column_Ok & Hl).
  destruct (empty _); injection Hl as <-; [constructor|].
  apply Forall_fmap, Forall_forall. unfold iterrows, select. simpl.
  intros row (r & -> & [_ Hkeep]%list_elem_of_In%List.filter_In)%list_elem_of_fmap.
  simpl. rewrite (get_cell _ _ _ Hid), (get_cell _ _ _ Hauthor).
  apply orb_true_iff in Hkeep as [H%bool_decide_eq_true|H%bool_decide_eq_true]; tauto.
Qed.

Lemma column_union_columns rows_ :
  let df := mkDataFrame ProcessDataQueryHandler.union_columns rows_ in
  column df "start_date" = Ok ((λ r, AdvancedMashup.cell r "start_date") <$> rows_)
  ∧ column df "end_date" = Ok ((λ r, AdvancedMashup.cell r "end_date") <$> rows_)
  ∧ column df "type" = Ok ((λ r, AdvancedMashup.cell r "type") <$> rows_)
  ∧ column df "object_id" = Ok ((λ r, AdvancedMashup.cell r "object_id") <$> rows_).
Proof. repeat split. Qed.

Section TimeFrameFailure.
Context (fromisoformat : string → result Z) (to_datetime : list pyval → list (option Z)).

(** X18: With valid dates, [getAuthorsOfObjectsAcquiredInTimeFrame] raises
    [KeyError] on the column [start_date] when the store of the first
    registered process handler does not open, [sqlite3.connect] raising
    [sqlite3.Error] at its path: the empty table that handler answers with
    has no column, and the method reads the column before it compares any
    date. *)
Theorem time_frame_raises_when_the_first_store_does_not_open ms handler post
    start_date end_date start_dt end_dt :
  fromisoformat start_date = Ok start_dt →
  fromisoformat end_date = Ok end_dt →
  opens handler = false →
  AdvancedMashup.getAuthorsOfObjectsAcquiredInTimeFrame fromisoformat to_datetime
    (BasicMashup.mk ms (handler :: post)) start_date end_date
  = Raise (KeyError "start_date").
Proof.
  intros Hs He Hh. unfold AdvancedMashup.getAuthorsOfObjectsAcquiredInTimeFrame.
  rewrite Hs, He. simpl.
  assert (ProcessDataQueryHandler.getAllActivities handler = DataFrame_empty) as ->; [|done].
  unfold ProcessDataQueryHandler.getAllActivities. by rewrite (opens_false handler Hh).
Qed.

End TimeFrameFailure.

(** With a store that does not open registered before the store of
    scenario B *)
Lemma time_frame_raises_when_the_first_store_does_not_open_before_scan :
  AdvancedMashup.getAuthorsOfObjectsAcquiredInTimeFrame Instances.fromisoformat
    Instances.to_datetime (BasicMashup.mk [catalogue] [unopenable_store; scan_of_obj1])
    "2021-01-01" "2021-12-31"
  = Raise (KeyError "start_date").
Proof.
  apply (time_frame_raises_when_the_first_store_does_not_open Instances.fromisoformat
           Instances.to_datetime [catalogue] unopenable_store [scan_of_obj1]
           "2021-01-01" "2021-12-31" 20210101 20211231);
    reflexivity.
Defined.

(** On the catalogue of the Museo: of its two objects, the one by [VIAF:1]
    is returned. *)
Lemma objects_by_author_and_owner_match_the_person_on_museo :
  ∃ o,
    AdvancedMashup.getCulturalHeritageObjectsByAuthorAndOwner
      (BasicMashup.mk [catalogue_of_museo] []) "VIAF:1" "Museo" = Ok [o]
    ∧ CHO.getId o = PStr "obj1"
    ∧ (CHO.author_id o = PStr "VIAF:1" ∨ CHO.getId o = PStr "VIAF:1").
Proof.
  eexists. split; [vm_compute; reflexivity|]. split; [reflexivity|].
  pose proof (objects_by_author_and_owner_match_the_person
                (BasicMashup.mk [catalogue_of_museo] []) "VIAF:1" "Museo" _
                ltac:(vm_compute; reflexivity)) as H.
  by apply Forall_cons in H as [Ho _].
Defined.

Lemma on_objects_rows_fmap rows_ acc :
  foldl AdvancedMashup.on_objects_row acc rows_
  = acc ++ ((λ row, build_activity (ReferentId (py_str (get row "object_id"))) row
                      (ToolValue (get row "tool")) (get row "technique")) <$> rows_).
Proof.
  revert acc. induction rows_ as [|row rows_ IH]; intros acc; simpl.
  - by rewrite app_nil_r.
  - rewrite IH. unfold AdvancedMashup.on_objects_row. by rewrite <- app_assoc.
Qed.

(** X17: Every activity returned by [getActivitiesOnObjectsAuthoredBy] refers to
    a bare identifier string, never to an entity: the string of the [id]
    cell of a row the first metadata handler lists for the author.  It is an
    instance of one of the five subclasses. *)
Theorem authored_activities_refer_to_bare_identifiers self author_id acts :
  AdvancedMashup.getActivitiesOnObjectsAuthoredBy self author_id = Ok acts →
  ∃ first objects_df,
    head (BasicMashup.metadataQuery self) = Some first
    ∧ MetadataQueryHandler.getCulturalHeritageObjectsAuthoredBy first author_id
      = Ok objects_df
    ∧ Forall (λ a, of_an_activity_subclass a
                   ∧ ∃ r, r ∈ rows objects_df
                          ∧ Act.refersTo a
                            = ReferentId (py_str (AdvancedMashup.cell r "id"))) acts.
Proof.
  unfold AdvancedMashup.getActivitiesOnObjectsAuthoredBy.
  destruct (BasicMashup.metadataQuery self) as [|first ms]; [done|].
  intros (objects_df & Hdf & Hacts)%bind_Ok. exists first, objects_df.
  split; [done|]. split; [done|].
  destruct (empty objects_df || _); [injection Hacts as <-; constructor|].
  apply bind_Ok in Hacts as (ids & [_ ->]%column_Ok & [= <-]).
  apply foldl_invariant; [|constructor]. intros acc h Hacc.
  destruct (empty _ || negb _) eqn:Hcond; [done|].
  apply orb_false_iff in Hcond as [_ Hcol%negb_false_iff%bool_decide_eq_true].
  rewrite on_objects_rows_fmap. apply Forall_app. split; [done|].
  apply Forall_fmap, Forall_forall.
  intros row (r & -> & Hr & Hin)%elem_of_select_ids. simpl.
  apply elem_of_id_set in Hin as (v & (r' & -> & Hr')%list_elem_of_fmap & Hv).
  pose proof (union_query_getAllActivities h) as Hq.
  destruct (ProcessDataQueryHandler.db h) as [d|].
  - destruct Hq as (cols & select & Hqh & Hreads). rewrite Hqh in Hr, Hcol |- *.
    simpl in Hr, Hcol |- *.
    apply elem_of_union_all in Hr as (type & technique_ & ar & Hin & _ & ->).
    destruct (build_activity_reads_as
                (ReferentId (py_str (get (mkSeries cols (select type technique_ ar))
                                       "object_id")))
                (mkSeries cols (select type technique_ ar))
                (ToolValue (get (mkSeries cols (select type technique_ ar)) "tool"))
                (get (mkSeries cols (select type technique_ ar)) "technique")
                d type technique_ ar Hin (Hreads _ _ _)) as (Hc & Href & _).
    split.
    + unfold of_an_activity_subclass. rewrite Hc. by apply (in_table_class _ _ _ _ Hin).
    + exists r'. split; [done|]. rewrite Href, (get_cell _ _ _ Hcol). by rewrite Hv.
  - rewrite Hq in Hr. by apply elem_of_nil in Hr.
Qed.

(** On the catalogue and the store of scenario B: the acquisition of [obj1]
    refers to the string [obj1]. *)
Lemma authored_activities_refer_to_bare_identifiers_on_scan :
  ∃ a,
    AdvancedMashup.getActivitiesOnObjectsAuthoredBy
      (BasicMashup.mk [catalogue] [scan_of_obj1]) "VIAF:1" = Ok [a]
    ∧ Act.refersTo a = ReferentId "obj1"
    ∧ of_an_activity_subclass a.
Proof.
  eexists. split; [vm_compute; reflexivity|]. split; [reflexivity|].
  destruct (authored_activities_refer_to_bare_identifiers
              (BasicMashup.mk [catalogue] [scan_of_obj1]) "VIAF:1" _
              ltac:(vm_compute; reflexivity)) as (first & objects_df & _ & _ & H).
  by apply Forall_cons in H as [[Hsub _] _].
Defined.

(** ** Status codes of the endpoint *)

(** On the endpoint that answers 404: [_execute_query] raises. *)
Lemma _execute_query_raises_on_not_found :
  raises (MetadataQueryHandler._execute_query not_found AllPeople).
Proof.
  apply _execute_query_raises_on_failure. right.
  exists 404%Z, None. split; [reflexivity | lia].
Defined.

(** On the endpoint that answers 404: [getById] returns the empty table,
    where [_execute_query] raises for the same status. *)
Lemma getById_on_not_found :
  MetadataQueryHandler.getById not_found "obj1" = Ok DataFrame_empty
  ∧ MetadataQueryHandler._execute_query not_found (ObjectById "obj1")
    = Raise (HTTPError 404).
Proof.
  split; [|reflexivity].
  apply (proj1 (getById_on_failure "http://127.0.0.1:9999/blazegraph/sparql"
                  (λ _, Response 404 None) "obj1" eq_refl) 404%Z None eq_refl).
  lia.
Defined.

(** ** Upload of the process data *)

Lemma dict_set_keys {V} k (v : V) d :
  (ProcessDataUploadHandler.dict_set k v d).*1
  = if bool_decide (k ∈ d.*1) then d.*1 else d.*1 ++ [k].
Proof.
  induction d as [|[k' v'] d IH]; [done|]. cbn [ProcessDataUploadHandler.dict_set].
  destruct (decide (k' = k)) as [->|Hk].
  - rewrite (bool_decide_eq_true_2 (k = k)) by done. rewrite !fmap_cons. cbn [fst].
    rewrite bool_decide_eq_true_2; [done | by left].
  - rewrite (bool_decide_eq_false_2 (k' = k)) by done. rewrite !fmap_cons, IH. cbn [fst].
    destruct (decide (k ∈ d.*1)) as [Hin|Hin].
    + rewrite !bool_decide_eq_true_2; [done | by right | done].
    + rewrite !bool_decide_eq_false_2; [done | | done].
      intros [->|?]%elem_of_cons; done.
Qed.

Lemma dict_set_NoDup {V} k (v : V) d :
  NoDup d.*1 → NoDup (ProcessDataUploadHandler.dict_set k v d).*1.
Proof.
  intros Hd. rewrite dict_set_keys. case_bool_decide as Hin; [done|].
  apply NoDup_app. split; [done|]. split; [|apply NoDup_singleton].
  intros x Hx ->%list_elem_of_singleton. done.
Qed.

Lemma elem_of_dict_set {V} k (v : V) d k' v' :
  NoDup d.*1 →
  (k', v') ∈ ProcessDataUploadHandler.dict_set k v d
  ↔ (k' = k ∧ v' = v) ∨ (k' ≠ k ∧ (k', v') ∈ d).
Proof.
  induction d as [|[k0 v0] d IH]; simpl; intros Hd.
  - rewrite list_elem_of_singleton. split.
    + intros [= -> ->]. by left.
    + intros [[-> ->]|[_ ?%elem_of_nil]]; done.
  - apply NoDup_cons in Hd as [Hk0 Hd]. destruct (decide (k0 = k)) as [->|Hk].
    + rewrite (bool_decide_eq_true_2 (k = k)) by done. rewrite !elem_of_cons. split.
      * intros [[= -> ->]|Hin]; [by left|]. right. split; [|by right].
        intros ->. apply Hk0. apply list_elem_of_fmap. by exists (k, v').
      * intros [[-> ->]|[Hne [[= ? ?]|Hin]]]; [by left | done | by right].
    + rewrite (bool_decide_eq_false_2 (k0 = k)) by done.
      rewrite !elem_of_cons, (IH Hd). split.
      * intros [[= -> ->]|[[-> ->]|[Hne Hin]]].
        -- right. split; [done | by left].
        -- by left.
        -- right. split; [done | by right].
      * intros [[-> ->]|[Hne [[= -> ->]|Hin]]].
        -- right. by left.
        -- by left.
        -- right. right. done.
Qed.

(** The dict after the items [seen]: its keys are distinct, and it maps an
    identifier to the last item seen with it. *)
Lemma unique_data_inv seen d :
  (NoDup d.*1
   ∧ ∀ k item, (k, item) ∈ d
       ↔ ProcessDataUploadHandler.object_id item = k
         ∧ ∃ pre post, seen = pre ++ item :: post
             ∧ ∀ later, later ∈ post → ProcessDataUploadHandler.object_id later ≠ k) →
  ∀ data,
    let d' := foldl (λ unique_data item,
                ProcessDataUploadHandler.dict_set (ProcessDataUploadHandler.object_id item)
                  item unique_data) d data in
    NoDup d'.*1
    ∧ ∀ k item, (k, item) ∈ d'
        ↔ ProcessDataUploadHandler.object_id item = k
          ∧ ∃ pre post, seen ++ data = pre ++ item :: post
              ∧ ∀ later, later ∈ post → ProcessDataUploadHandler.object_id later ≠ k.
Proof.
  intros Hinv data. revert seen d Hinv.
  induction data as [|x data IH]; intros seen d [Hd Hmap]; simpl.
  - by rewrite app_nil_r.
  - rewrite (cons_middle x), app_assoc. apply IH. split; [by apply dict_set_NoDup|].
    intros k item. rewrite (elem_of_dict_set _ _ _ _ _ Hd), Hmap. split.
    + intros [[-> ->]|(Hne & <- & pre & post & -> & Hpost)].
      * split; [done|]. exists seen, []. split; [done|]. by intros later ?%elem_of_nil.
      * split; [done|]. exists pre, (post ++ [x]). split; [by rewrite <- app_assoc|].
        intros later [?| ->%list_elem_of_singleton]%elem_of_app; [by apply Hpost | done].
    + intros (<- & pre & post & Heq & Hpost).
      destruct post as [|y post _] using rev_ind.
      * apply app_inj_tail in Heq as [-> ->]. by left.
      * rewrite app_comm_cons, app_assoc in Heq. apply app_inj_tail in Heq as [-> ->].
        right. split.
        -- intros Heq. apply (Hpost y); [|done]. apply elem_of_app. right. by left.
        -- split; [done|]. exists pre, post. split; [done|].
           intros later Hl. apply Hpost, elem_of_app. by left.
Qed.

Lemma insert_items d l :
  foldl ProcessDataUploadHandler.insert_item d l
  = mkDatabase
      (tbl_Acquisition d
         ++ ((λ item, mkAcquisitionRow
                        (ProcessDataUploadHandler.row_of
                           (ProcessDataUploadHandler.object_id item)
                           (ProcessDataUploadHandler.entry
                              (ProcessDataUploadHandler.acquisition item)))
                        (ProcessDataUploadHandler.technique
                           (ProcessDataUploadHandler.acquisition item))) <$> l))
      (tbl_Processing d
         ++ ((λ item, ProcessDataUploadHandler.row_of
                        (ProcessDataUploadHandler.object_id item)
                        (ProcessDataUploadHandler.processing item)) <$> l))
      (tbl_Modelling d
         ++ ((λ item, ProcessDataUploadHandler.row_of
                        (ProcessDataUploadHandler.object_id item)
                        (ProcessDataUploadHandler.modelling item)) <$> l))
      (tbl_Optimising d
         ++ ((λ item, ProcessDataUploadHandler.row_of
                        (ProcessDataUploadHandler.object_id item)
                        (ProcessDataUploadHandler.optimising item)) <$> l))
      (tbl_Exporting d
         ++ ((λ item, ProcessDataUploadHandler.row_of
                        (ProcessDataUploadHandler.object_id item)
                        (ProcessDataUploadHandler.exporting item)) <$> l)).
Proof.
  revert d. induction l as [|x l IH]; intros d; simpl.
  - rewrite !app_nil_r. by destruct d.
  - rewrite IH. simpl. by rewrite <- !app_assoc.
Qed.

(** X21: [pushDataToDb] replaces whatever the store held: each of the five
    tables gets one row per distinct object identifier of the file, built
    from the last item of the file with that identifier; an earlier item
    with the same identifier leaves no trace.  It returns [True], and
    [False] without touching the store when the store raises. *)
Theorem upload_keeps_the_last_item_per_object d data :
  let clean := ProcessDataUploadHandler.clean_data data in
  ProcessDataUploadHandler.pushDataToDb (Readable d) data
    = (Readable
         (mkDatabase
            ((λ item, mkAcquisitionRow
                        (ProcessDataUploadHandler.row_of
                           (ProcessDataUploadHandler.object_id item)
                           (ProcessDataUploadHandler.entry
                              (ProcessDataUploadHandler.acquisition item)))
                        (ProcessDataUploadHandler.technique
                           (ProcessDataUploadHandler.acquisition item))) <$> clean)
            ((λ item, ProcessDataUploadHandler.row_of
                        (ProcessDataUploadHandler.object_id item)
                        (ProcessDataUploadHandler.processing item)) <$> clean)
            ((λ item, ProcessDataUploadHandler.row_of
                        (ProcessDataUploadHandler.object_id item)
                        (ProcessDataUploadHandler.modelling item)) <$> clean)
            ((λ item, ProcessDataUploadHandler.row_of
                        (ProcessDataUploadHandler.object_id item)
                        (ProcessDataUploadHandler.optimising item)) <$> clean)
            ((λ item, ProcessDataUploadHandler.row_of
                        (ProcessDataUploadHandler.object_id item)
                        (ProcessDataUploadHandler.exporting item)) <$> clean)),
       true)
  ∧ NoDup (ProcessDataUploadHandler.object_id <$> clean)
  ∧ (∀ item, item ∈ clean
       ↔ ∃ pre post, data = pre ++ item :: post
           ∧ ∀ later, later ∈ post →
               ProcessDataUploadHandler.object_id later
               ≠ ProcessDataUploadHandler.object_id item)
  ∧ ProcessDataUploadHandler.pushDataToDb SqliteError data = (SqliteError, false).
Proof.
  intros clean.
  destruct (unique_data_inv [] []) with (data := data) as [Hd Hmap].
  { split; [constructor|]. intros k item. split; [by intros ?%elem_of_nil|].
    intros (_ & pre & post & Heq & _). by destruct pre. }
  simpl in Hd, Hmap. fold (ProcessDataUploadHandler.unique_data data) in Hd, Hmap.
  assert (ProcessDataUploadHandler.object_id <$> clean
          = (ProcessDataUploadHandler.unique_data data).*1) as Hkeys.
  { unfold clean, ProcessDataUploadHandler.clean_data.
    rewrite <- list_fmap_compose. apply Forall_fmap_ext_1, Forall_forall.
    intros [k item] Hin. simpl. by apply Hmap in Hin as [-> _]. }
  split; [|split; [|split]].
  - unfold ProcessDataUploadHandler.pushDataToDb. by rewrite insert_items.
  - by rewrite Hkeys.
  - intros item. unfold clean, ProcessDataUploadHandler.clean_data.
    rewrite list_elem_of_fmap. split.
    + intros ([k item'] & -> & Hin). simpl. by apply Hmap in Hin as (<- & Hin).
    + intros Hin. exists (ProcessDataUploadHandler.object_id item, item).
      split; [done|]. apply Hmap. done.
  - done.
Qed.

(** On the process file: the two items for the object [1] leave one row,
    with the technique and the tools of the later one. *)
Example upload_of_the_process_file :
  ∃ acquisition_1 acquisition_2,
    tbl_Acquisition
      match (ProcessDataUploadHandler.pushDataToDb
               (Readable (mkDatabase [] [] [] [] [])) process_file).1 with
      | Readable d => d
      | SqliteError => mkDatabase [] [] [] [] []
      end = [acquisition_1; acquisition_2]
    ∧ object_id (shared acquisition_1) = Some "1"
    ∧ technique acquisition_1 = Some "Laser"
    ∧ tool (shared acquisition_1) = Some "Scanner, Tripod"
    ∧ object_id (shared acquisition_2) = Some "2".
Proof. eexists _, _. split; [vm_compute; reflexivity|]. repeat split. Qed.

(** ** From the upload to the activities of the mashup *)

Lemma visited_rows_single query handler :
  columns (query handler) ≠ ∅ →
  visited_rows query [handler] = iterrows (query handler).
Proof.
  intros Hcols. unfold visited_rows. simpl. rewrite app_nil_r.
  unfold empty, iterrows. rewrite (bool_decide_eq_false_2 (columns _ = ∅)) by done.
  rewrite orb_false_r. case_bool_decide as Hrows; [by rewrite Hrows | done].
Qed.

(** What [build_activity] makes of a row of the union table *)
Lemma build_activity_union_row refersTo type technique_ r cls :
  activity_classes !! type = Some cls →
  let row := mkSeries ProcessDataQueryHandler.union_columns
               (ProcessDataQueryHandler.union_row type technique_ r) in
  let a := build_activity refersTo row (ToolValue (get row "tool")) (get row "technique") in
  Act.class a = cls
  ∧ Act.institute a = sql_val (responsible_institute r)
  ∧ Act.person a = sql_val (responsible_person r)
  ∧ Act.tool a = tools_of_cell (tool r)
  ∧ Act.start a = sql_val (start_date r)
  ∧ Act.end_ a = sql_val (end_date r)
  ∧ Act.technique a = (if bool_decide (cls = Acquisition) then Some (sql_val technique_)
                       else None).
Proof.
  intros Hcls row a. unfold a, build_activity.
  change (get row "type") with (PStr type). simpl dict_get. rewrite Hcls. simpl default.
  change (get row "tool") with (sql_val (tool r)).
  case_bool_decide as Hacq; [subst cls|]; repeat split; by destruct (tool r).
Qed.

Section RoundTrip.
Context (upper : string → string).

Lemma mapM_stored self type cls (entry_of_ : ProcessDataUploadHandler.item →
                                              ProcessDataUploadHandler.activity_entry)
    (technique_of : ProcessDataUploadHandler.item → option string)
    (clean : list ProcessDataUploadHandler.item) :
  lookups_return self →
  activity_classes !! type = Some cls →
  (cls ≠ Acquisition → ∀ item, technique_of item = None) →
  ∃ acts,
    mapM (activity_of_row upper self)
      (mkSeries ProcessDataQueryHandler.union_columns
         <$> ((λ item, ProcessDataQueryHandler.union_row type (technique_of item)
                         (ProcessDataUploadHandler.row_of
                            (ProcessDataUploadHandler.object_id item) (entry_of_ item)))
                <$> clean))
    = Ok acts
    ∧ Forall2 (λ item a,
          stored_as cls (entry_of_ item)
            (if bool_decide (cls = Acquisition) then Some (technique_of item) else None) a)
        clean acts.
Proof.
  intros Hret Hcls Hnone. induction clean as [|item clean (acts & Hacts & Hall)].
  - exists []. split; [done | constructor].
  - rewrite !fmap_cons. cbn [mapM].
    set (row := mkSeries ProcessDataQueryHandler.union_columns
                  (ProcessDataQueryHandler.union_row type (technique_of item)
                     (ProcessDataUploadHandler.row_of
                        (ProcessDataUploadHandler.object_id item) (entry_of_ item)))).
    destruct (getEntityById_returns upper self (join_id row) Hret) as [e Hget].
    assert (activity_of_row upper self row
            = Ok (build_activity (as_referent e) row (ToolValue (get row "tool"))
                    (get row "technique"))) as ->.
    { unfold activity_of_row. by rewrite Hget. }
    exists (build_activity (as_referent e) row (ToolValue (get row "tool"))
              (get row "technique") :: acts).
    split; [simpl; by rewrite Hacts|]. constructor; [|done]. subst row.
    destruct (build_activity_union_row (as_referent e) type (technique_of item)
                (ProcessDataUploadHandler.row_of (ProcessDataUploadHandler.object_id item)
                   (entry_of_ item)) cls Hcls)
      as (Hc & Hi & Hp & Ht & Hs & He & Htech).
    split; [done|]. split; [done|]. split; [done|]. split; [|split; [done|split; [done|]]].
    + rewrite Ht. unfold ProcessDataUploadHandler.row_of, ProcessDataUploadHandler.tool_cell.
      cbn [tool]. by destruct (ProcessDataUploadHandler.tool (entry_of_ item)).
    + rewrite Htech. by destruct (bool_decide _).
Qed.

(** X22: What is uploaded comes back through [getAllActivities]: for the last
    item of each object of the file, one activity of each of the five
    classes, with the values of the item's entries.  The tools of an entry
    come back joined into one string, not as the list that was uploaded. *)
Theorem upload_round_trip ms path d data :
  let store := (ProcessDataUploadHandler.pushDataToDb (Readable d) data).1 in
  let self := BasicMashup.mk ms [ProcessDataQueryHandler.mk path store] in
  let clean := ProcessDataUploadHandler.clean_data data in
  lookups_return self →
  ∃ acquisitions processings modellings optimisings exportings,
    BasicMashup.getAllActivities upper self
      = Ok (acquisitions ++ processings ++ modellings ++ optimisings ++ exportings)
    ∧ Forall2 (λ item a,
          stored_as Acquisition
            (ProcessDataUploadHandler.entry (ProcessDataUploadHandler.acquisition item))
            (Some (ProcessDataUploadHandler.technique
                     (ProcessDataUploadHandler.acquisition item))) a)
        clean acquisitions
    ∧ Forall2 (λ item a,
          stored_as Processing (ProcessDataUploadHandler.processing item) None a)
        clean processings
    ∧ Forall2 (λ item a,
          stored_as Modelling (ProcessDataUploadHandler.modelling item) None a)
        clean modellings
    ∧ Forall2 (λ item a,
          stored_as Optimising (ProcessDataUploadHandler.optimising item) None a)
        clean optimisings
    ∧ Forall2 (λ item a,
          stored_as Exporting (ProcessDataUploadHandler.exporting item) None a)
        clean exportings.
Proof.
  intros store self clean Hret.
  rewrite getAllActivities_fan_out, fan_out_mapM. simpl BasicMashup.processQuery.
  rewrite visited_rows_single; [|done].
  unfold store, ProcessDataUploadHandler.pushDataToDb,
    ProcessDataQueryHandler.getAllActivities, iterrows. simpl.
  rewrite insert_items. unfold ProcessDataQueryHandler.union_all. simpl.
  rewrite !filter_true, <- !list_fmap_compose, !fmap_app, !mapM_app.
  fold clean.
  destruct (mapM_stored self "Acquisition" Acquisition
              (λ item, ProcessDataUploadHandler.entry
                         (ProcessDataUploadHandler.acquisition item))
              (λ item, ProcessDataUploadHandler.technique
                         (ProcessDataUploadHandler.acquisition item))
              clean Hret eq_refl ltac:(done)) as (acquisitions & Ha & Hacquisitions).
  destruct (mapM_stored self "Processing" Processing ProcessDataUploadHandler.processing
              (λ _, None) clean Hret eq_refl ltac:(done)) as (processings & Hp & Hprocessings).
  destruct (mapM_stored self "Modelling" Modelling ProcessDataUploadHandler.modelling
              (λ _, None) clean Hret eq_refl ltac:(done)) as (modellings & Hm & Hmodellings).
  destruct (mapM_stored self "Optimising" Optimising ProcessDataUploadHandler.optimising
              (λ _, None) clean Hret eq_refl ltac:(done)) as (optimisings & Ho & Hoptimisings).
  destruct (mapM_stored self "Exporting" Exporting ProcessDataUploadHandler.exporting
              (λ _, None) clean Hret eq_refl ltac:(done)) as (exportings & He & Hexportings).
  exists acquisitions, processings, modellings, optimisings, exportings.
  split; [|done]. unfold compose. cbn [technique shared]. cbv beta in Ha, Hp, Hm, Ho, He.
  rewrite Ha. simpl. rewrite Hp. simpl. rewrite Hm. simpl. rewrite Ho. simpl.
  rewrite He. simpl. done.
Qed.

End RoundTrip.

(** On the process file, uploaded into an empty store and read back with
    the catalogue registered *)
Lemma upload_round_trip_of_the_process_file :
  ∃ acquisitions processings modellings optimisings exportings,
    BasicMashup.getAllActivities Instances.upper
      (BasicMashup.mk [catalogue]
         [ProcessDataQueryHandler.mk "data/relational.db"
            (ProcessDataUploadHandler.pushDataToDb (Readable (mkDatabase [] [] [] [] []))
               process_file).1])
      = Ok (acquisitions ++ processings ++ modellings ++ optimisings ++ exportings)
    ∧ Forall2 (λ item a,
          stored_as Acquisition
            (ProcessDataUploadHandler.entry (ProcessDataUploadHandler.acquisition item))
            (Some (ProcessDataUploadHandler.technique
                     (ProcessDataUploadHandler.acquisition item))) a)
        (ProcessDataUploadHandler.clean_data process_file) acquisitions
    ∧ Forall2 (λ item a,
          stored_as Processing (ProcessDataUploadHandler.processing item) None a)
        (ProcessDataUploadHandler.clean_data process_file) processings
    ∧ Forall2 (λ item a,
          stored_as Modelling (ProcessDataUploadHandler.modelling item) None a)
        (ProcessDataUploadHandler.clean_data process_file) modellings
    ∧ Forall2 (λ item a,
          stored_as Optimising (ProcessDataUploadHandler.optimising item) None a)
        (ProcessDataUploadHandler.clean_data process_file) optimisings
    ∧ Forall2 (λ item a,
          stored_as Exporting (ProcessDataUploadHandler.exporting item) None a)
        (ProcessDataUploadHandler.clean_data process_file) exportings.
Proof.
  apply (upload_round_trip Instances.upper [catalogue] "data/relational.db"
           (mkDatabase [] [] [] [] []) process_file).
  apply answering_lookups_return.
Defined.

(** ** Tables that lack the identifier *)



(** X24: [getAllCulturalHeritageObjects] reads every cell with [row.get] and
    raises nothing of its own: it returns whenever the handlers do.
    [getAllPeople] reads [row["authorId"]]: on the first handler's table,
    when it has rows but no column [authorId], it raises [KeyError]. *)
Theorem listings_on_tables_without_identifier ms ps :
  ((∀ h, h ∈ ms → returns (MetadataQueryHandler.getAllCulturalHeritageObjects h)) →
   returns (BasicMashup.getAllCulturalHeritageObjects (BasicMashup.mk ms ps)))
  ∧ (∀ h df, MetadataQueryHandler.getAllPeople h = Ok df →
       empty df = false →
       "authorId" ∉ columns df →
       BasicMashup.getAllPeople (BasicMashup.mk (h :: ms) ps) = Raise (KeyError "authorId")).
Proof.
  split.
  - intros Hret. unfold BasicMashup.getAllCulturalHeritageObjects. simpl.
    destruct (objects_loop_returns ms ([], ∅) Hret) as [st ->]. by eexists.
  - intros h df Hdf He Hcol. unfold BasicMashup.getAllPeople. simpl.
    rewrite Hdf. simpl. rewrite He. simpl.
    destruct (iloc_nonempty df He) as (r & Hrows & _).
    unfold iterrows. rewrite Hrows. simpl.
    assert (BasicMashup.people_row ([], ∅) (mkSeries (columns df) r)
            = Raise (KeyError "authorId")) as ->; [|done].
    unfold BasicMashup.people_row, item. simpl.
    by rewrite (bool_decide_eq_false_2 _ Hcol).
Qed.

(** On the catalogue without identifiers: the painting is listed, the
    listing of people raises. *)
Lemma listings_on_tables_without_identifier_on_catalogue :
  returns (BasicMashup.getAllCulturalHeritageObjects (BasicMashup.mk [catalogue_nameless] []))
  ∧ BasicMashup.getAllPeople (BasicMashup.mk [catalogue_nameless] [])
    = Raise (KeyError "authorId").
Proof.
  destruct (listings_on_tables_without_identifier [catalogue_nameless] []) as [Hobjects _].
  destruct (listings_on_tables_without_identifier [] []) as [_ Hpeople].
  split.
  - apply Hobjects. intros h ->%list_elem_of_singleton. by eexists.
  - eapply (Hpeople catalogue_nameless); [reflexivity | reflexivity | by vm_compute].
Defined.
